(** * chronyd command and monitoring module (cmdmon.c)

    A shallow embedding of [cmdmon.c]: the per-opcode permission table,
    [CAM_Initialise], the request handlers and the dispatcher
    [read_from_cmd_socket], followed by the properties of the
    command-and-monitoring specification that are settled on it.

    Conventions of the embedding.
    - A header or payload field holds the number that its bytes encode on
      the wire (network order).  The conversions [htons], [ntohs], [htonl]
      and [ntohl] therefore only truncate to the width of the field; they
      are kept so that every definition reads like its source.
    - The status and reply-tag fields of a reply hold [htons] of an
      enumerator; the model stores the enumerator.
    - The payload of a request is the byte image of the C union
      [rx_message.data]; a member is read at the offset that [candm.h]
      gives it.  [candm.h], [pktlength.c] and the headers of the other
      modules are not part of the sources, so their constants, lengths and
      layouts are the fields of the record [Headers], a parameter of the
      development.
    - Values of C type [double] stay symbolic (type [double] below).
    - Calls that change a collaborator or the outside world are recorded,
      in order, in a trace of [Event]s; a query of a collaborator is a
      field of the record [World], which stands for the state of all
      collaborators when the datagram is read.  The event [Handle] marks
      the call of a handler by the dispatcher.  [DEBUG_LOG], which a
      regular build compiles out, leaves no event.
    - [assert] failures and [LOG_FATAL] end the run; the trace up to that
      point is kept.
    - The build has [FEAT_IPV6], [IP_FREEBIND] and [IPV6_V6ONLY]. *)

From Stdlib Require Import ZArith List Bool String Lia.
From Stdlib Require Import Permutation.
Import ListNotations.
Local Open Scope Z_scope.

(** ** Integers and bytes *)

Definition htons (x : Z) : Z := x mod 2 ^ 16.
Definition ntohs (x : Z) : Z := x mod 2 ^ 16.
Definition htonl (x : Z) : Z := x mod 2 ^ 32.
Definition ntohl (x : Z) : Z := x mod 2 ^ 32.

(** [(int32_t) x] for a 32-bit [x]. *)
Definition int32_t (x : Z) : Z :=
  let y := x mod 2 ^ 32 in if y <? 2 ^ 31 then y else y - 2 ^ 32.

(** [(unsigned short) x]. *)
Definition unsigned_short (x : Z) : Z := x mod 2 ^ 16.

(** The byte at index [i] of a buffer (0 outside of it). *)
Definition byte_at (buf : list Z) (i : Z) : Z :=
  if i <? 0 then 0 else nth (Z.to_nat i) buf 0 mod 256.

(** [n] bytes of [buf] from offset [off]. *)
Definition bytes_at (buf : list Z) (off : Z) (n : nat) : list Z :=
  map (fun k => byte_at buf (off + Z.of_nat k)) (seq 0 n).

(** The unsigned number a run of bytes encodes in network order. *)
Definition be_value (bs : list Z) : Z :=
  fold_left (fun acc b => acc * 256 + b) bs 0.

Definition be16_at (buf : list Z) (off : Z) : Z := be_value (bytes_at buf off 2).
Definition be32_at (buf : list Z) (off : Z) : Z := be_value (bytes_at buf off 4).

Fixpoint bytes_eqb (a b : list Z) : bool :=
  match a, b with
  | [], [] => true
  | x :: a', y :: b' => (x =? y) && bytes_eqb a' b'
  | _, _ => false
  end.

(** [memcmp(a, b, n) == 0]. *)
Definition memcmp_eq (a b : list Z) (n : nat) : bool :=
  bytes_eqb (bytes_at a 0 n) (bytes_at b 0 n).

(** ** Addresses *)

(** [IPAddr] of addressing.h: a family tag and the address of that family.
    [IPADDR_other] stands for a tag that is none of the three known ones. *)
Inductive IPAddr : Type :=
| IPADDR_UNSPEC
| IPADDR_INET4 (in4 : Z)
| IPADDR_INET6 (in6 : list Z)
| IPADDR_other (family : Z).

Definition INADDR_LOOPBACK : Z := 0x7f000001.
Definition in6addr_loopback : list Z := [0;0;0;0;0;0;0;0;0;0;0;0;0;0;0;1].

Inductive sa_family_t : Type :=
| AF_INET | AF_INET6 | AF_UNIX | AF_other (n : Z).

(** [union sockaddr_all], by the member its [sa_family] selects. *)
Inductive sockaddr_all : Type :=
| sockaddr_in (sin_addr : Z) (sin_port : Z)
| sockaddr_in6 (sin6_addr : list Z) (sin6_port : Z)
| sockaddr_un (sun_path : string)
| sockaddr_sa (family : Z).

Definition sa_family (a : sockaddr_all) : sa_family_t :=
  match a with
  | sockaddr_in _ _ => AF_INET
  | sockaddr_in6 _ _ => AF_INET6
  | sockaddr_un _ => AF_UNIX
  | sockaddr_sa n => AF_other n
  end.

(** Modelled from the spec: [UTI_SockaddrToIPAndPort] of util.c, which is
    not among the sources.  The spec (sections 3 and 4.3) has an address
    carry its family tag with 4 or 16 address bytes and recognises IPv4,
    IPv6 and the filesystem socket; the dispatcher expects the tag
    [IPADDR_UNSPEC] for the filesystem socket.  An IPv4 or IPv6 source
    gives an address of that family in host order, any other source gives
    [IPADDR_UNSPEC] and port 0. *)
Definition UTI_SockaddrToIPAndPort (sa : sockaddr_all) : IPAddr * Z :=
  match sa with
  | sockaddr_in a p => (IPADDR_INET4 (ntohl a), ntohs p)
  | sockaddr_in6 a p => (IPADDR_INET6 (bytes_at a 0 16), ntohs p)
  | _ => (IPADDR_UNSPEC, 0)
  end.

(** Modelled from the spec: the wire form of an [IPAddr] inside a request
    (addressing.h is not among the sources): 16 address bytes, of which an
    IPv4 address uses the first four, then the 16-bit family tag (spec
    section 4.1: an explicit family tag alongside 4-byte or 16-byte address
    bytes).  [IPADDR_INET4_tag] and [IPADDR_INET6_tag] are the tags. *)
Definition IPADDR_UNSPEC_tag : Z := 0.
Definition IPADDR_INET4_tag : Z := 1.
Definition IPADDR_INET6_tag : Z := 2.

(** Modelled from the spec: [UTI_IPNetworkToHost] of util.c applied to the
    [IPAddr] stored at offset [off] of a payload: the tag selects which
    address bytes are converted (spec section 4.1). *)
Definition UTI_IPNetworkToHost (buf : list Z) (off : Z) : IPAddr :=
  let family := ntohs (be16_at buf (off + 16)) in
  if family =? IPADDR_INET4_tag then IPADDR_INET4 (ntohl (be32_at buf off))
  else if family =? IPADDR_INET6_tag then IPADDR_INET6 (bytes_at buf off 16)
  else if family =? IPADDR_UNSPEC_tag then IPADDR_UNSPEC
  else IPADDR_other family.

Record timeval : Type := { tv_sec : Z; tv_usec : Z }.

(** Modelled from the spec: [UTI_TimevalNetworkToHost] of util.c on the
    timestamp stored at offset [off]: a (seconds, microseconds) pair in
    network order (spec section 4.1). *)
Definition UTI_TimevalNetworkToHost (buf : list Z) (off : Z) : timeval :=
  {| tv_sec := ntohl (be32_at buf off); tv_usec := ntohl (be32_at buf (off + 4)) |}.

(** Values of C type [double], kept symbolic: the embedding never looks
    inside one. *)
Inductive double : Type :=
| D_const (numerator denominator : Z)
| D_of_long (z : Z)
| D_FloatNetworkToHost (f : Z)
| D_mul (a b : double)
| D_add (a b : double)
| D_value (id : Z).

(** [UTI_FloatNetworkToHost] on the coded 32-bit word [f]. *)
Definition UTI_FloatNetworkToHost (f : Z) : double := D_FloatNetworkToHost f.

(** ** Packets (candm.h) *)

(** Status codes stored in the reply: the enumerators [cmdmon.c] uses. *)
Inductive STT : Type :=
| STT_SUCCESS | STT_FAILED | STT_UNAUTH | STT_INVALID | STT_NOSUCHSOURCE
| STT_NOTENABLED | STT_BADSUBNET | STT_ACCESSALLOWED | STT_ACCESSDENIED
| STT_SOURCEALREADYKNOWN | STT_TOOMANYSOURCES | STT_NORTC | STT_BADRTCFILE
| STT_INACTIVE | STT_BADSAMPLE | STT_INVALIDAF | STT_BADPKTVERSION
| STT_BADPKTLENGTH.

(** Reply tags. *)
Inductive RPY : Type :=
| RPY_NULL | RPY_N_SOURCES | RPY_SOURCE_DATA | RPY_MANUAL_TIMESTAMP
| RPY_TRACKING | RPY_SOURCESTATS | RPY_RTC | RPY_CLIENT_ACCESSES_BY_INDEX
| RPY_MANUAL_LIST | RPY_ACTIVITY | RPY_SMOOTHING.

(** Members of the request union [CMD_Request.data] that a handler reads.
    [modify_maxpoll_address], [modify_maxpoll_new_maxpoll] and
    [modify_minstratum_address] are read by no handler; they are the
    members of those opcodes' own payloads. *)
Module Req.
Inductive field : Type :=
| online_mask | online_address
| offline_mask | offline_address
| burst_mask | burst_address | burst_n_good_samples | burst_n_total_samples
| modify_minpoll_address | modify_minpoll_new_minpoll
| modify_maxpoll_address | modify_maxpoll_new_maxpoll
| modify_maxdelay_address | modify_maxdelay_new_max_delay
| modify_maxdelayratio_address | modify_maxdelayratio_new_max_delay_ratio
| modify_maxdelaydevratio_address
| modify_maxdelaydevratio_new_max_delay_dev_ratio
| modify_minstratum_address | modify_minstratum_new_min_stratum
| modify_polltarget_address | modify_polltarget_new_poll_target
| modify_maxupdateskew_new_max_update_skew
| modify_makestep_limit | modify_makestep_threshold
| settime_ts
| local_on_off | local_stratum
| manual_option
| source_data_index
| allow_deny_ip | allow_deny_subnet_bits
| ac_check_ip
| ntp_source_ip_addr | ntp_source_port | ntp_source_minpoll
| ntp_source_maxpoll | ntp_source_presend_minpoll | ntp_source_authkey
| ntp_source_flags | ntp_source_max_delay | ntp_source_max_delay_ratio
| del_source_ip_addr
| dfreq_dfreq
| doffset_sec | doffset_usec
| smoothtime_option
| sourcestats_index
| client_accesses_by_index_first_index | client_accesses_by_index_n_indices
| manual_delete_index
| reselect_distance_distance.
End Req.

(** Members of the reply union [CMD_Reply.data] that a handler writes. *)
Module Rpy.
Inductive client_member : Type :=
| ip | client_hits | peer_hits | cmd_hits_auth | cmd_hits_normal
| cmd_hits_bad | last_ntp_hit_ago | last_cmd_hit_ago.

Inductive sample_member : Type :=
| when | slewed_offset | orig_offset | residual.

Inductive field : Type :=
| n_sources_n_sources
| source_data_ip_addr | source_data_stratum | source_data_poll
| source_data_state | source_data_mode | source_data_flags
| source_data_reachability | source_data_since_sample
| source_data_orig_latest_meas | source_data_latest_meas
| source_data_latest_meas_err
| manual_timestamp_centiseconds | manual_timestamp_dfreq_ppm
| manual_timestamp_new_afreq_ppm
| tracking_ref_id | tracking_ip_addr | tracking_stratum
| tracking_leap_status | tracking_ref_time | tracking_current_correction
| tracking_last_offset | tracking_rms_offset | tracking_freq_ppm
| tracking_resid_freq_ppm | tracking_skew_ppm | tracking_root_delay
| tracking_root_dispersion | tracking_last_update_interval
| smoothing_flags | smoothing_offset | smoothing_freq_ppm
| smoothing_wander_ppm | smoothing_last_update_ago | smoothing_remaining_time
| sourcestats_ref_id | sourcestats_ip_addr | sourcestats_n_samples
| sourcestats_n_runs | sourcestats_span_seconds | sourcestats_resid_freq_ppm
| sourcestats_skew_ppm | sourcestats_sd | sourcestats_est_offset
| sourcestats_est_offset_err
| rtc_ref_time | rtc_n_samples | rtc_n_runs | rtc_span_seconds
| rtc_rtc_seconds_fast | rtc_rtc_gain_rate_ppm
| client_accesses_by_index_n_indices | client_accesses_by_index_next_index
| client_accesses_by_index_n_clients
| client_accesses_by_index_clients (j : Z) (m : client_member)
| manual_list_n_samples
| manual_list_samples (i : Z) (m : sample_member)
| activity_online | activity_offline | activity_burst_online
| activity_burst_offline | activity_unresolved.

Definition field_eq_dec (a b : field) : {a = b} + {a <> b}.
Proof. decide equality; try apply Z.eq_dec; decide equality. Defined.
End Rpy.

(** What a handler stores in a member of the reply union. *)
Inductive wire : Type :=
| W_u16 (z : Z)
| W_u32 (z : Z)
| W_IPAddr (a : IPAddr)
| W_Timeval (t : timeval)
| W_Float (d : double).

(** [UTI_IPHostToNetwork], [UTI_TimevalHostToNetwork] and
    [UTI_FloatHostToNetwork] give the wire image of their argument. *)
Definition UTI_IPHostToNetwork (a : IPAddr) : wire := W_IPAddr a.
Definition UTI_TimevalHostToNetwork (t : timeval) : wire := W_Timeval t.
Definition UTI_FloatHostToNetwork (d : double) : wire := W_Float d.

(** [CMD_Request]: the header fields the module reads and the byte image
    of the payload union. *)
Record CMD_Request : Type := {
  rx_version : Z;
  rx_pkt_type : Z;
  rx_res1 : Z;
  rx_res2 : Z;
  rx_command : Z;
  rx_attempt : Z;
  rx_sequence : Z;
  rx_data : list Z
}.

(** [CMD_Reply]: every header field, and the members of the payload union
    that were written, the latest write first.  A member that was never
    written keeps whatever the stack held: it has no entry. *)
Record CMD_Reply : Type := {
  tx_version : Z;
  tx_pkt_type : Z;
  tx_res1 : Z;
  tx_res2 : Z;
  tx_command : Z;
  tx_reply : RPY;
  tx_status : STT;
  tx_pad1 : Z;
  tx_pad2 : Z;
  tx_pad3 : Z;
  tx_sequence : Z;
  tx_pad4 : Z;
  tx_pad5 : Z;
  tx_data : list (Rpy.field * wire)
}.

Definition with_status (s : STT) (tx : CMD_Reply) : CMD_Reply :=
  {| tx_version := tx_version tx; tx_pkt_type := tx_pkt_type tx;
     tx_res1 := tx_res1 tx; tx_res2 := tx_res2 tx;
     tx_command := tx_command tx; tx_reply := tx_reply tx;
     tx_status := s;
     tx_pad1 := tx_pad1 tx; tx_pad2 := tx_pad2 tx; tx_pad3 := tx_pad3 tx;
     tx_sequence := tx_sequence tx;
     tx_pad4 := tx_pad4 tx; tx_pad5 := tx_pad5 tx;
     tx_data := tx_data tx |}.

Definition with_reply (r : RPY) (tx : CMD_Reply) : CMD_Reply :=
  {| tx_version := tx_version tx; tx_pkt_type := tx_pkt_type tx;
     tx_res1 := tx_res1 tx; tx_res2 := tx_res2 tx;
     tx_command := tx_command tx; tx_reply := r;
     tx_status := tx_status tx;
     tx_pad1 := tx_pad1 tx; tx_pad2 := tx_pad2 tx; tx_pad3 := tx_pad3 tx;
     tx_sequence := tx_sequence tx;
     tx_pad4 := tx_pad4 tx; tx_pad5 := tx_pad5 tx;
     tx_data := tx_data tx |}.

Definition with_data (f : Rpy.field) (v : wire) (tx : CMD_Reply) : CMD_Reply :=
  {| tx_version := tx_version tx; tx_pkt_type := tx_pkt_type tx;
     tx_res1 := tx_res1 tx; tx_res2 := tx_res2 tx;
     tx_command := tx_command tx; tx_reply := tx_reply tx;
     tx_status := tx_status tx;
     tx_pad1 := tx_pad1 tx; tx_pad2 := tx_pad2 tx; tx_pad3 := tx_pad3 tx;
     tx_sequence := tx_sequence tx;
     tx_pad4 := tx_pad4 tx; tx_pad5 := tx_pad5 tx;
     tx_data := (f, v) :: tx_data tx |}.

(** The value of member [f] of the reply union, if it was written. *)
Fixpoint data_lookup (f : Rpy.field) (d : list (Rpy.field * wire)) : option wire :=
  match d with
  | [] => None
  | (g, v) :: d' => if Rpy.field_eq_dec f g then Some v else data_lookup f d'
  end.

Definition tx_member (tx : CMD_Reply) (f : Rpy.field) : option wire :=
  data_lookup f (tx_data tx).

(** ** Types of the collaborators' interfaces *)

Inductive NTP_Source_Type : Type := NTP_SERVER | NTP_PEER.
Inductive NSR_Status : Type :=
| NSR_Success | NSR_NoSuchSource | NSR_AlreadyInUse | NSR_TooManySources
| NSR_InvalidAF.
Inductive SRC_SelectOption : Type :=
| SRC_SelectNormal | SRC_SelectPrefer | SRC_SelectNoselect.
Inductive SRC_Type : Type := SRC_NTP | SRC_REFCLOCK.
Inductive RTC_Status : Type := RTC_ST_OK | RTC_ST_NODRV | RTC_ST_BADFILE.
Inductive ADF_Status : Type := ADF_SUCCESS | ADF_BADSUBNET | ADF_other (n : Z).
Inductive CLG_Status : Type :=
| CLG_SUCCESS | CLG_INDEXTOOLARGE | CLG_INACTIVE | CLG_other (n : Z).
Inductive CLG_Command_Type : Type := CLG_CMD_NORMAL | CLG_CMD_BAD_PKT.
Inductive LOG_Severity : Type := LOGS_INFO | LOGS_WARN | LOGS_ERR | LOGS_FATAL.

Record NTP_Remote_Address : Type := { ip_addr : IPAddr; port : Z }.

Record SourceParameters : Type := {
  minpoll : Z;
  maxpoll : Z;
  online : Z;
  auto_offline : Z;
  presend_minpoll : Z;
  iburst : Z;
  min_stratum : Z;
  poll_target : Z;
  version : Z;
  max_sources : Z;
  min_samples : Z;
  max_samples : Z;
  authkey : Z;
  max_delay : double;
  max_delay_ratio : double;
  max_delay_dev_ratio : double;
  sel_option : SRC_SelectOption
}.

Inductive RPT_State : Type :=
| RPT_SYNC | RPT_UNREACH | RPT_FALSETICKER | RPT_JITTERY | RPT_CANDIDATE
| RPT_OUTLIER.
Inductive RPT_Mode : Type := RPT_NTP_CLIENT | RPT_NTP_PEER | RPT_LOCAL_REFERENCE.
Inductive RPT_SelectOption : Type := RPT_NORMAL | RPT_PREFER | RPT_NOSELECT.

Module RPT_SourceReport.
Record t : Type := {
  ip_addr : IPAddr;
  stratum : Z;
  poll : Z;
  mode : RPT_Mode;
  state : RPT_State;
  sel_option : RPT_SelectOption;
  reachability : Z;
  latest_meas_ago : Z;
  orig_latest_meas : double;
  latest_meas : double;
  latest_meas_err : double
}.
End RPT_SourceReport.

Module RPT_TrackingReport.
Record t : Type := {
  ref_id : Z;
  ip_addr : IPAddr;
  stratum : Z;
  leap_status : Z;
  ref_time : timeval;
  current_correction : double;
  last_offset : double;
  rms_offset : double;
  freq_ppm : double;
  resid_freq_ppm : double;
  skew_ppm : double;
  root_delay : double;
  root_dispersion : double;
  last_update_interval : double
}.
End RPT_TrackingReport.

Module RPT_SourcestatsReport.
Record t : Type := {
  ref_id : Z;
  ip_addr : IPAddr;
  n_samples : Z;
  n_runs : Z;
  span_seconds : Z;
  resid_freq_ppm : double;
  skew_ppm : double;
  sd : double;
  est_offset : double;
  est_offset_err : double
}.
End RPT_SourcestatsReport.

Module RPT_RTC_Report.
Record t : Type := {
  ref_time : timeval;
  n_samples : Z;
  n_runs : Z;
  span_seconds : Z;
  rtc_seconds_fast : double;
  rtc_gain_rate_ppm : double
}.
End RPT_RTC_Report.

Module RPT_ClientAccessByIndex_Report.
Record t : Type := {
  ip_addr : IPAddr;
  client_hits : Z;
  peer_hits : Z;
  cmd_hits_auth : Z;
  cmd_hits_normal : Z;
  cmd_hits_bad : Z;
  last_ntp_hit_ago : Z;
  last_cmd_hit_ago : Z
}.
End RPT_ClientAccessByIndex_Report.

Module RPT_ManualSamplesReport.
Record t : Type := {
  when : timeval;
  slewed_offset : double;
  orig_offset : double;
  residual : double
}.
End RPT_ManualSamplesReport.

Module RPT_ActivityReport.
Record t : Type := {
  online : Z;
  offline : Z;
  burst_online : Z;
  burst_offline : Z;
  unresolved : Z
}.
End RPT_ActivityReport.

Module RPT_SmoothingReport.
Record t : Type := {
  active : Z;
  leap_only : Z;
  offset : double;
  freq_ppm : double;
  wander_ppm : double;
  last_update_ago : double;
  remaining_time : double
}.
End RPT_SmoothingReport.

(** ** Declarations of the included headers

    Constants, lengths and layouts that [cmdmon.c] takes from headers and
    from pktlength.c, none of which is among the sources. *)
Record Headers : Type := {
  (* candm.h *)
  PROTO_VERSION_NUMBER : Z;
  PROTO_VERSION_MISMATCH_COMPAT_SERVER : Z;
  PKT_TYPE_CMD_REQUEST : Z;
  PKT_TYPE_CMD_REPLY : Z;
  N_REQUEST_TYPES : Z;
  MAX_PADDING_LENGTH : Z;
  MAX_CLIENT_ACCESSES : Z;
  MAX_MANUAL_LIST_SAMPLES : Z;
  offsetof_CMD_Request_data : Z;
  offsetof_CMD_Reply_data : Z;
  (* offset of a member inside the request union *)
  offsetof_data : Req.field -> Z;
  REQ_ADDSRC_ONLINE : Z;
  REQ_ADDSRC_AUTOOFFLINE : Z;
  REQ_ADDSRC_IBURST : Z;
  REQ_ADDSRC_PREFER : Z;
  REQ_ADDSRC_NOSELECT : Z;
  REQ_SMOOTHTIME_RESET : Z;
  REQ_SMOOTHTIME_ACTIVATE : Z;
  RPY_SD_ST_SYNC : Z;
  RPY_SD_ST_UNREACH : Z;
  RPY_SD_ST_FALSETICKER : Z;
  RPY_SD_ST_JITTERY : Z;
  RPY_SD_ST_CANDIDATE : Z;
  RPY_SD_ST_OUTLIER : Z;
  RPY_SD_MD_CLIENT : Z;
  RPY_SD_MD_PEER : Z;
  RPY_SD_MD_REF : Z;
  RPY_SD_FLAG_PREFER : Z;
  RPY_SD_FLAG_NOSELECT : Z;
  RPY_SMT_FLAG_ACTIVE : Z;
  RPY_SMT_FLAG_LEAPONLY : Z;
  (* pktlength.h *)
  PKL_CommandLength : CMD_Request -> Z;
  PKL_CommandPaddingLength : CMD_Request -> Z;
  PKL_ReplyLength : CMD_Reply -> Z;
  (* srcparams.h, ntp.h *)
  SRC_DEFAULT_MINSTRATUM : Z;
  SRC_DEFAULT_POLLTARGET : Z;
  SRC_DEFAULT_MAXDELAYDEVRATIO : double;
  SRC_DEFAULT_MAXSOURCES : Z;
  SRC_DEFAULT_MINSAMPLES : Z;
  SRC_DEFAULT_MAXSAMPLES : Z;
  NTP_VERSION : Z;
  (* sysincl.h *)
  sizeof_sockaddr_all : Z;
  sizeof_sa_family : Z;
  sizeof_sun_path : Z
}.

(** ** The collaborators

    [World] answers every call of [cmdmon.c] into another module or the
    operating system whose result the code uses.  The fields on
    [access_auth_table] describe the state of the module's own CIDR table:
    [ADF_IsAllowed] is its decision for an address. *)
Record World : Type := {
  (* sched.h: the cooked and the raw time of the last event *)
  SCH_GetLastEventTime : timeval * timeval;
  (* addrfilt.h, applied to access_auth_table *)
  ADF_IsAllowed : IPAddr -> bool;
  ADF_Allow : IPAddr -> Z -> ADF_Status;
  ADF_AllowAll : IPAddr -> Z -> ADF_Status;
  ADF_Deny : IPAddr -> Z -> ADF_Status;
  ADF_DenyAll : IPAddr -> Z -> ADF_Status;
  (* ntp_core.h *)
  NCR_AddAccessRestriction : IPAddr -> Z -> Z -> Z -> bool;
  NCR_CheckAccessRestriction : IPAddr -> bool;
  (* ntp_sources.h *)
  NSR_TakeSourcesOnline : IPAddr -> IPAddr -> bool;
  NSR_TakeSourcesOffline : IPAddr -> IPAddr -> bool;
  NSR_InitiateSampleBurst : Z -> Z -> IPAddr -> IPAddr -> bool;
  NSR_ModifyMinpoll : IPAddr -> Z -> bool;
  NSR_ModifyMaxpoll : IPAddr -> Z -> bool;
  NSR_ModifyMaxdelay : IPAddr -> double -> bool;
  NSR_ModifyMaxdelayratio : IPAddr -> double -> bool;
  NSR_ModifyMaxdelaydevratio : IPAddr -> double -> bool;
  NSR_ModifyMinstratum : IPAddr -> Z -> bool;
  NSR_ModifyPolltarget : IPAddr -> Z -> bool;
  NSR_AddSource : NTP_Remote_Address -> NTP_Source_Type -> SourceParameters -> NSR_Status;
  NSR_RemoveSource : NTP_Remote_Address -> NSR_Status;
  NSR_ReportSource : RPT_SourceReport.t -> timeval -> RPT_SourceReport.t;
  NSR_GetActivityReport : RPT_ActivityReport.t;
  (* sources.h *)
  SRC_ReadNumberOfSources : Z;
  SRC_ReportSource : Z -> timeval -> option RPT_SourceReport.t;
  SRC_GetType : Z -> SRC_Type;
  SRC_ReportSourcestats : Z -> timeval -> option RPT_SourcestatsReport.t;
  (* refclock.h *)
  RCL_ReportSource : RPT_SourceReport.t -> timeval -> RPT_SourceReport.t;
  (* reference.h *)
  REF_GetTrackingReport : RPT_TrackingReport.t;
  (* manual.h *)
  MNL_IsEnabled : bool;
  MNL_AcceptTimestamp : timeval -> option (Z * double * double);
  MNL_ReportSamples : Z -> list RPT_ManualSamplesReport.t;
  MNL_DeleteSample : Z -> bool;
  (* smooth.h *)
  SMT_IsEnabled : bool;
  SMT_GetSmoothingReport : timeval -> option RPT_SmoothingReport.t;
  (* rtc.h *)
  RTC_WriteParameters : RTC_Status;
  RTC_Trim : bool;
  RTC_GetReport : option RPT_RTC_Report.t;
  (* local.h *)
  LCL_MakeStep : bool;
  (* clientlog.h *)
  CLG_GetClientAccessReportByIndex :
    Z -> Z -> CLG_Status * RPT_ClientAccessByIndex_Report.t * Z
}.

(** [w] with the decision of [access_auth_table] replaced by [allowed]. *)
Definition with_access_table (allowed : IPAddr -> bool) (w : World) : World :=
  {| SCH_GetLastEventTime := SCH_GetLastEventTime w;
     ADF_IsAllowed := allowed;
     ADF_Allow := ADF_Allow w; ADF_AllowAll := ADF_AllowAll w;
     ADF_Deny := ADF_Deny w; ADF_DenyAll := ADF_DenyAll w;
     NCR_AddAccessRestriction := NCR_AddAccessRestriction w;
     NCR_CheckAccessRestriction := NCR_CheckAccessRestriction w;
     NSR_TakeSourcesOnline := NSR_TakeSourcesOnline w;
     NSR_TakeSourcesOffline := NSR_TakeSourcesOffline w;
     NSR_InitiateSampleBurst := NSR_InitiateSampleBurst w;
     NSR_ModifyMinpoll := NSR_ModifyMinpoll w;
     NSR_ModifyMaxpoll := NSR_ModifyMaxpoll w;
     NSR_ModifyMaxdelay := NSR_ModifyMaxdelay w;
     NSR_ModifyMaxdelayratio := NSR_ModifyMaxdelayratio w;
     NSR_ModifyMaxdelaydevratio := NSR_ModifyMaxdelaydevratio w;
     NSR_ModifyMinstratum := NSR_ModifyMinstratum w;
     NSR_ModifyPolltarget := NSR_ModifyPolltarget w;
     NSR_AddSource := NSR_AddSource w;
     NSR_RemoveSource := NSR_RemoveSource w;
     NSR_ReportSource := NSR_ReportSource w;
     NSR_GetActivityReport := NSR_GetActivityReport w;
     SRC_ReadNumberOfSources := SRC_ReadNumberOfSources w;
     SRC_ReportSource := SRC_ReportSource w;
     SRC_GetType := SRC_GetType w;
     SRC_ReportSourcestats := SRC_ReportSourcestats w;
     RCL_ReportSource := RCL_ReportSource w;
     REF_GetTrackingReport := REF_GetTrackingReport w;
     MNL_IsEnabled := MNL_IsEnabled w;
     MNL_AcceptTimestamp := MNL_AcceptTimestamp w;
     MNL_ReportSamples := MNL_ReportSamples w;
     MNL_DeleteSample := MNL_DeleteSample w;
     SMT_IsEnabled := SMT_IsEnabled w;
     SMT_GetSmoothingReport := SMT_GetSmoothingReport w;
     RTC_WriteParameters := RTC_WriteParameters w;
     RTC_Trim := RTC_Trim w;
     RTC_GetReport := RTC_GetReport w;
     LCL_MakeStep := LCL_MakeStep w;
     CLG_GetClientAccessReportByIndex := CLG_GetClientAccessReportByIndex w |}.

(** ** Effects *)

(** Calls that change the state of a collaborator, with their arguments. *)
Module Call.
Inductive t : Type :=
| SRC_DumpSources
| NSR_TakeSourcesOnline (mask address : IPAddr)
| NSR_TakeSourcesOffline (mask address : IPAddr)
| NSR_InitiateSampleBurst (n_good_samples n_total_samples : Z) (mask address : IPAddr)
| NSR_ModifyMinpoll (address : IPAddr) (new_minpoll : Z)
| NSR_ModifyMaxpoll (address : IPAddr) (new_maxpoll : Z)
| NSR_ModifyMaxdelay (address : IPAddr) (new_max_delay : double)
| NSR_ModifyMaxdelayratio (address : IPAddr) (new_max_delay_ratio : double)
| NSR_ModifyMaxdelaydevratio (address : IPAddr) (new_max_delay_dev_ratio : double)
| NSR_ModifyMinstratum (address : IPAddr) (new_min_stratum : Z)
| NSR_ModifyPolltarget (address : IPAddr) (new_poll_target : Z)
| REF_ModifyMaxupdateskew (new_max_update_skew : double)
| REF_ModifyMakestep (limit : Z) (threshold : double)
| MNL_AcceptTimestamp (ts : timeval)
| REF_EnableLocal (stratum : Z)
| REF_DisableLocal
| MNL_Disable
| MNL_Enable
| MNL_Reset
| KEY_Reload
| NCR_AddAccessRestriction (ip : IPAddr) (subnet_bits allow all : Z)
| ADF_Allow (ip : IPAddr) (subnet_bits : Z)
| ADF_AllowAll (ip : IPAddr) (subnet_bits : Z)
| ADF_Deny (ip : IPAddr) (subnet_bits : Z)
| ADF_DenyAll (ip : IPAddr) (subnet_bits : Z)
| NSR_AddSource (rem_addr : NTP_Remote_Address) (type : NTP_Source_Type)
    (params : SourceParameters)
| NSR_RemoveSource (rem_addr : NTP_Remote_Address)
| RTC_WriteParameters
| RTC_Trim
| LCL_AccumulateDeltaFrequency (dfreq : double)
| LCL_AccumulateOffset (offset corr_rate : double)
| LCL_MakeStep
| SMT_Reset (now : timeval)
| SMT_Activate (now : timeval)
| LOG_CycleLogFiles
| MNL_DeleteSample (index : Z)
| SRC_SetReselectDistance (distance : double)
| SRC_ReselectSource
| NSR_RefreshAddresses.
End Call.

(** The handlers of [cmdmon.c], as the dispatcher calls them. *)
Inductive Handler : Type :=
| H_dump | H_online | H_offline | H_burst
| H_modify_minpoll | H_modify_maxpoll | H_modify_maxdelay
| H_modify_maxdelayratio | H_modify_maxdelaydevratio
| H_modify_maxupdateskew | H_modify_makestep
| H_settime | H_local | H_manual | H_n_sources | H_source_data | H_rekey
| H_allowdeny (allow all : Z) | H_cmdallowdeny (allow all : Z)
| H_accheck | H_cmdaccheck
| H_add_source (type : NTP_Source_Type) | H_del_source
| H_writertc | H_dfreq | H_doffset | H_tracking | H_smoothing
| H_smoothtime | H_sourcestats | H_rtcreport | H_trimrtc | H_cyclelogs
| H_client_accesses_by_index | H_manual_list | H_manual_delete
| H_make_step | H_activity | H_reselect_distance | H_reselect
| H_modify_minstratum | H_modify_polltarget | H_refresh.

Inductive Event : Type :=
| LOG (severity : LOG_Severity) (message : string)
| CLG_LogCommandAccess (client : IPAddr) (type : CLG_Command_Type) (now : Z)
| Handle (h : Handler)
| Collab (c : Call.t)
| Sendto (sock_fd : Z) (msg : CMD_Reply) (len : Z) (where_to : sockaddr_all).

(** A computation on the reply under construction: it appends to the
    trace and either yields a value and the updated reply, or stops at a
    failed assertion. *)
Inductive result (A : Type) : Type :=
| Value (a : A) (tx : CMD_Reply)
| Abort.
Arguments Value {A} a tx.
Arguments Abort {A}.

Definition H (A : Type) : Type := CMD_Reply -> list Event * result A.

Definition ret {A : Type} (a : A) : H A := fun tx => ([], Value a tx).

Definition bind {A B : Type} (m : H A) (k : A -> H B) : H B :=
  fun tx =>
    match m tx with
    | (tr, Value a tx') => let (tr', r) := k a tx' in (tr ++ tr', r)
    | (tr, Abort) => (tr, Abort)
    end.

Declare Scope H_scope.
Delimit Scope H_scope with H.
Notation "x <- m ;; k" := (bind m (fun x => k))
  (at level 61, m at next level, right associativity) : H_scope.
Notation "m ;; k" := (bind m (fun _ => k))
  (at level 61, right associativity) : H_scope.
Local Open Scope H_scope.

Definition emit (e : Event) : H unit := fun tx => ([e], Value tt tx).

(** A call that changes a collaborator: it is recorded and yields the
    collaborator's answer [r]. *)
Definition call {R : Type} (c : Call.t) (r : R) : H R :=
  fun tx => ([Collab c], Value r tx).

Definition set_status (s : STT) : H unit := fun tx => ([], Value tt (with_status s tx)).
Definition set_reply (r : RPY) : H unit := fun tx => ([], Value tt (with_reply r tx)).
Definition put (f : Rpy.field) (v : wire) : H unit :=
  fun tx => ([], Value tt (with_data f v tx)).

(** [assert(0)]. *)
Definition assert_0 {A : Type} : H A := fun _ => ([], Abort).

(** ** Opcodes and the permission table *)

(** Request types, in the order of candm.h: the order in which the
    comments of [permissions] name them. *)
Inductive REQ : Type :=
| REQ_NULL | REQ_ONLINE | REQ_OFFLINE | REQ_BURST | REQ_MODIFY_MINPOLL
| REQ_MODIFY_MAXPOLL | REQ_DUMP | REQ_MODIFY_MAXDELAY
| REQ_MODIFY_MAXDELAYRATIO | REQ_MODIFY_MAXUPDATESKEW | REQ_LOGON
| REQ_SETTIME | REQ_LOCAL | REQ_MANUAL | REQ_N_SOURCES | REQ_SOURCE_DATA
| REQ_REKEY | REQ_ALLOW | REQ_ALLOWALL | REQ_DENY | REQ_DENYALL
| REQ_CMDALLOW | REQ_CMDALLOWALL | REQ_CMDDENY | REQ_CMDDENYALL
| REQ_ACCHECK | REQ_CMDACCHECK | REQ_ADD_SERVER | REQ_ADD_PEER
| REQ_DEL_SOURCE | REQ_WRITERTC | REQ_DFREQ | REQ_DOFFSET | REQ_TRACKING
| REQ_SOURCESTATS | REQ_RTCREPORT | REQ_TRIMRTC | REQ_CYCLELOGS
| REQ_SUBNETS_ACCESSED | REQ_CLIENT_ACCESSES | REQ_CLIENT_ACCESSES_BY_INDEX
| REQ_MANUAL_LIST | REQ_MANUAL_DELETE | REQ_MAKESTEP | REQ_ACTIVITY
| REQ_MODIFY_MINSTRATUM | REQ_MODIFY_POLLTARGET
| REQ_MODIFY_MAXDELAYDEVRATIO | REQ_RESELECT | REQ_RESELECTDISTANCE
| REQ_MODIFY_MAKESTEP | REQ_SMOOTHING | REQ_SMOOTHTIME | REQ_REFRESH.

Definition request_types : list REQ :=
  [ REQ_NULL; REQ_ONLINE; REQ_OFFLINE; REQ_BURST; REQ_MODIFY_MINPOLL;
    REQ_MODIFY_MAXPOLL; REQ_DUMP; REQ_MODIFY_MAXDELAY;
    REQ_MODIFY_MAXDELAYRATIO; REQ_MODIFY_MAXUPDATESKEW; REQ_LOGON;
    REQ_SETTIME; REQ_LOCAL; REQ_MANUAL; REQ_N_SOURCES; REQ_SOURCE_DATA;
    REQ_REKEY; REQ_ALLOW; REQ_ALLOWALL; REQ_DENY; REQ_DENYALL;
    REQ_CMDALLOW; REQ_CMDALLOWALL; REQ_CMDDENY; REQ_CMDDENYALL;
    REQ_ACCHECK; REQ_CMDACCHECK; REQ_ADD_SERVER; REQ_ADD_PEER;
    REQ_DEL_SOURCE; REQ_WRITERTC; REQ_DFREQ; REQ_DOFFSET; REQ_TRACKING;
    REQ_SOURCESTATS; REQ_RTCREPORT; REQ_TRIMRTC; REQ_CYCLELOGS;
    REQ_SUBNETS_ACCESSED; REQ_CLIENT_ACCESSES; REQ_CLIENT_ACCESSES_BY_INDEX;
    REQ_MANUAL_LIST; REQ_MANUAL_DELETE; REQ_MAKESTEP; REQ_ACTIVITY;
    REQ_MODIFY_MINSTRATUM; REQ_MODIFY_POLLTARGET;
    REQ_MODIFY_MAXDELAYDEVRATIO; REQ_RESELECT; REQ_RESELECTDISTANCE;
    REQ_MODIFY_MAKESTEP; REQ_SMOOTHING; REQ_SMOOTHTIME; REQ_REFRESH ].

(** The request type numbered [c], if there is one. *)
Definition request_type (c : Z) : option REQ :=
  if c <? 0 then None else nth_error request_types (Z.to_nat c).

Inductive PERMIT : Type := PERMIT_OPEN | PERMIT_LOCAL | PERMIT_AUTH.

(** Array of permission levels for command types. *)
Definition permissions : list PERMIT := [
  PERMIT_OPEN; (* NULL *)
  PERMIT_AUTH; (* ONLINE *)
  PERMIT_AUTH; (* OFFLINE *)
  PERMIT_AUTH; (* BURST *)
  PERMIT_AUTH; (* MODIFY_MINPOLL *)
  PERMIT_AUTH; (* MODIFY_MAXPOLL *)
  PERMIT_AUTH; (* DUMP *)
  PERMIT_AUTH; (* MODIFY_MAXDELAY *)
  PERMIT_AUTH; (* MODIFY_MAXDELAYRATIO *)
  PERMIT_AUTH; (* MODIFY_MAXUPDATESKEW *)
  PERMIT_OPEN; (* LOGON *)
  PERMIT_AUTH; (* SETTIME *)
  PERMIT_AUTH; (* LOCAL *)
  PERMIT_AUTH; (* MANUAL *)
  PERMIT_OPEN; (* N_SOURCES *)
  PERMIT_OPEN; (* SOURCE_DATA *)
  PERMIT_AUTH; (* REKEY *)
  PERMIT_AUTH; (* ALLOW *)
  PERMIT_AUTH; (* ALLOWALL *)
  PERMIT_AUTH; (* DENY *)
  PERMIT_AUTH; (* DENYALL *)
  PERMIT_AUTH; (* CMDALLOW *)
  PERMIT_AUTH; (* CMDALLOWALL *)
  PERMIT_AUTH; (* CMDDENY *)
  PERMIT_AUTH; (* CMDDENYALL *)
  PERMIT_AUTH; (* ACCHECK *)
  PERMIT_AUTH; (* CMDACCHECK *)
  PERMIT_AUTH; (* ADD_SERVER *)
  PERMIT_AUTH; (* ADD_PEER *)
  PERMIT_AUTH; (* DEL_SOURCE *)
  PERMIT_AUTH; (* WRITERTC *)
  PERMIT_AUTH; (* DFREQ *)
  PERMIT_AUTH; (* DOFFSET *)
  PERMIT_OPEN; (* TRACKING *)
  PERMIT_OPEN; (* SOURCESTATS *)
  PERMIT_OPEN; (* RTCREPORT *)
  PERMIT_AUTH; (* TRIMRTC *)
  PERMIT_AUTH; (* CYCLELOGS *)
  PERMIT_AUTH; (* SUBNETS_ACCESSED *)
  PERMIT_AUTH; (* CLIENT_ACCESSES (by subnet) *)
  PERMIT_AUTH; (* CLIENT_ACCESSES_BY_INDEX *)
  PERMIT_OPEN; (* MANUAL_LIST *)
  PERMIT_AUTH; (* MANUAL_DELETE *)
  PERMIT_AUTH; (* MAKESTEP *)
  PERMIT_OPEN; (* ACTIVITY *)
  PERMIT_AUTH; (* MODIFY_MINSTRATUM *)
  PERMIT_AUTH; (* MODIFY_POLLTARGET *)
  PERMIT_AUTH; (* MODIFY_MAXDELAYDEVRATIO *)
  PERMIT_AUTH; (* RESELECT *)
  PERMIT_AUTH; (* RESELECTDISTANCE *)
  PERMIT_AUTH; (* MODIFY_MAKESTEP *)
  PERMIT_OPEN; (* SMOOTHING *)
  PERMIT_AUTH; (* SMOOTHTIME *)
  PERMIT_AUTH  (* REFRESH *)
].

(** [permissions[c]], if [c] is an index of the array. *)
Definition permissions_at (c : Z) : option PERMIT :=
  if c <? 0 then None else nth_error permissions (Z.to_nat c).

(** ** The handlers *)

Section Handlers.

Variable hd : Headers.
Variable w : World.

(** Members of the request union, read where candm.h places them. *)
Definition member_u32 (rx : CMD_Request) (f : Req.field) : Z :=
  be32_at (rx_data rx) (offsetof_data hd f).

Definition member_IPAddr (rx : CMD_Request) (f : Req.field) : IPAddr :=
  UTI_IPNetworkToHost (rx_data rx) (offsetof_data hd f).

Definition member_Timeval (rx : CMD_Request) (f : Req.field) : timeval :=
  UTI_TimevalNetworkToHost (rx_data rx) (offsetof_data hd f).

Definition member_Float (rx : CMD_Request) (f : Req.field) : double :=
  UTI_FloatNetworkToHost (be32_at (rx_data rx) (offsetof_data hd f)).

Definition handle_dump (rx_message : CMD_Request) : H unit :=
  call Call.SRC_DumpSources tt.

Definition handle_online (rx_message : CMD_Request) : H unit :=
  let mask := member_IPAddr rx_message Req.online_mask in
  let address := member_IPAddr rx_message Req.online_address in
  ok <- call (Call.NSR_TakeSourcesOnline mask address)
             (NSR_TakeSourcesOnline w mask address) ;;
  if negb ok then set_status STT_NOSUCHSOURCE else ret tt.

Definition handle_offline (rx_message : CMD_Request) : H unit :=
  let mask := member_IPAddr rx_message Req.offline_mask in
  let address := member_IPAddr rx_message Req.offline_address in
  ok <- call (Call.NSR_TakeSourcesOffline mask address)
             (NSR_TakeSourcesOffline w mask address) ;;
  if negb ok then set_status STT_NOSUCHSOURCE else ret tt.

Definition handle_burst (rx_message : CMD_Request) : H unit :=
  let mask := member_IPAddr rx_message Req.burst_mask in
  let address := member_IPAddr rx_message Req.burst_address in
  let n_good := ntohl (member_u32 rx_message Req.burst_n_good_samples) in
  let n_total := ntohl (member_u32 rx_message Req.burst_n_total_samples) in
  ok <- call (Call.NSR_InitiateSampleBurst n_good n_total mask address)
             (NSR_InitiateSampleBurst w n_good n_total mask address) ;;
  if negb ok then set_status STT_NOSUCHSOURCE else ret tt.

Definition handle_modify_minpoll (rx_message : CMD_Request) : H unit :=
  let address := member_IPAddr rx_message Req.modify_minpoll_address in
  let new_minpoll := ntohl (member_u32 rx_message Req.modify_minpoll_new_minpoll) in
  ok <- call (Call.NSR_ModifyMinpoll address new_minpoll)
             (NSR_ModifyMinpoll w address new_minpoll) ;;
  if negb ok then set_status STT_NOSUCHSOURCE else ret tt.

Definition handle_modify_maxpoll (rx_message : CMD_Request) : H unit :=
  let address := member_IPAddr rx_message Req.modify_minpoll_address in
  let new_maxpoll := ntohl (member_u32 rx_message Req.modify_minpoll_new_minpoll) in
  ok <- call (Call.NSR_ModifyMaxpoll address new_maxpoll)
             (NSR_ModifyMaxpoll w address new_maxpoll) ;;
  if negb ok then set_status STT_NOSUCHSOURCE else ret tt.

Definition handle_modify_maxdelay (rx_message : CMD_Request) : H unit :=
  let address := member_IPAddr rx_message Req.modify_maxdelay_address in
  let new_max_delay := member_Float rx_message Req.modify_maxdelay_new_max_delay in
  ok <- call (Call.NSR_ModifyMaxdelay address new_max_delay)
             (NSR_ModifyMaxdelay w address new_max_delay) ;;
  if negb ok then set_status STT_NOSUCHSOURCE else ret tt.

Definition handle_modify_maxdelayratio (rx_message : CMD_Request) : H unit :=
  let address := member_IPAddr rx_message Req.modify_maxdelayratio_address in
  let new_max_delay_ratio :=
    member_Float rx_message Req.modify_maxdelayratio_new_max_delay_ratio in
  ok <- call (Call.NSR_ModifyMaxdelayratio address new_max_delay_ratio)
             (NSR_ModifyMaxdelayratio w address new_max_delay_ratio) ;;
  if negb ok then set_status STT_NOSUCHSOURCE else ret tt.

Definition handle_modify_maxdelaydevratio (rx_message : CMD_Request) : H unit :=
  let address := member_IPAddr rx_message Req.modify_maxdelaydevratio_address in
  let new_max_delay_dev_ratio :=
    member_Float rx_message Req.modify_maxdelaydevratio_new_max_delay_dev_ratio in
  ok <- call (Call.NSR_ModifyMaxdelaydevratio address new_max_delay_dev_ratio)
             (NSR_ModifyMaxdelaydevratio w address new_max_delay_dev_ratio) ;;
  if negb ok then set_status STT_NOSUCHSOURCE else ret tt.

Definition handle_modify_minstratum (rx_message : CMD_Request) : H unit :=
  let address := member_IPAddr rx_message Req.modify_minpoll_address in
  let new_min_stratum :=
    ntohl (member_u32 rx_message Req.modify_minstratum_new_min_stratum) in
  ok <- call (Call.NSR_ModifyMinstratum address new_min_stratum)
             (NSR_ModifyMinstratum w address new_min_stratum) ;;
  if negb ok then set_status STT_NOSUCHSOURCE else ret tt.

Definition handle_modify_polltarget (rx_message : CMD_Request) : H unit :=
  let address := member_IPAddr rx_message Req.modify_polltarget_address in
  let new_poll_target :=
    ntohl (member_u32 rx_message Req.modify_polltarget_new_poll_target) in
  ok <- call (Call.NSR_ModifyPolltarget address new_poll_target)
             (NSR_ModifyPolltarget w address new_poll_target) ;;
  if negb ok then set_status STT_NOSUCHSOURCE else ret tt.

Definition handle_modify_maxupdateskew (rx_message : CMD_Request) : H unit :=
  call (Call.REF_ModifyMaxupdateskew
          (member_Float rx_message Req.modify_maxupdateskew_new_max_update_skew)) tt.

Definition handle_modify_makestep (rx_message : CMD_Request) : H unit :=
  call (Call.REF_ModifyMakestep
          (ntohl (member_u32 rx_message Req.modify_makestep_limit))
          (member_Float rx_message Req.modify_makestep_threshold)) tt.

Definition handle_settime (rx_message : CMD_Request) : H unit :=
  let ts := member_Timeval rx_message Req.settime_ts in
  if negb (MNL_IsEnabled w) then
    set_status STT_NOTENABLED
  else
    accepted <- call (Call.MNL_AcceptTimestamp ts) (MNL_AcceptTimestamp w ts) ;;
    match accepted with
    | Some (offset_cs, dfreq_ppm, new_afreq_ppm) =>
        set_reply RPY_MANUAL_TIMESTAMP ;;
        put Rpy.manual_timestamp_centiseconds (W_u32 (htonl (int32_t offset_cs))) ;;
        put Rpy.manual_timestamp_dfreq_ppm (UTI_FloatHostToNetwork dfreq_ppm) ;;
        put Rpy.manual_timestamp_new_afreq_ppm (UTI_FloatHostToNetwork new_afreq_ppm)
    | None => set_status STT_FAILED
    end.

Definition handle_local (rx_message : CMD_Request) : H unit :=
  let on_off := ntohl (member_u32 rx_message Req.local_on_off) in
  if negb (on_off =? 0) then
    let stratum := ntohl (member_u32 rx_message Req.local_stratum) in
    call (Call.REF_EnableLocal stratum) tt
  else
    call Call.REF_DisableLocal tt.

Definition handle_manual (rx_message : CMD_Request) : H unit :=
  let option := ntohl (member_u32 rx_message Req.manual_option) in
  if option =? 0 then call Call.MNL_Disable tt
  else if option =? 1 then call Call.MNL_Enable tt
  else if option =? 2 then call Call.MNL_Reset tt
  else set_status STT_INVALID.

Definition handle_n_sources (rx_message : CMD_Request) : H unit :=
  let n_sources := SRC_ReadNumberOfSources w in
  set_reply RPY_N_SOURCES ;;
  put Rpy.n_sources_n_sources (W_u32 (htonl n_sources)).

Definition handle_source_data (rx_message : CMD_Request) : H unit :=
  let now_corr := fst (SCH_GetLastEventTime w) in
  let index := ntohl (member_u32 rx_message Req.source_data_index) in
  match SRC_ReportSource w index now_corr with
  | Some report0 =>
      let report :=
        match SRC_GetType w index with
        | SRC_NTP => NSR_ReportSource w report0 now_corr
        | SRC_REFCLOCK => RCL_ReportSource w report0 now_corr
        end in
      set_reply RPY_SOURCE_DATA ;;
      put Rpy.source_data_ip_addr
          (UTI_IPHostToNetwork (RPT_SourceReport.ip_addr report)) ;;
      put Rpy.source_data_stratum (W_u16 (htons (RPT_SourceReport.stratum report))) ;;
      put Rpy.source_data_poll (W_u16 (htons (RPT_SourceReport.poll report))) ;;
      put Rpy.source_data_state
          (W_u16 (htons
             match RPT_SourceReport.state report with
             | RPT_SYNC => RPY_SD_ST_SYNC hd
             | RPT_UNREACH => RPY_SD_ST_UNREACH hd
             | RPT_FALSETICKER => RPY_SD_ST_FALSETICKER hd
             | RPT_JITTERY => RPY_SD_ST_JITTERY hd
             | RPT_CANDIDATE => RPY_SD_ST_CANDIDATE hd
             | RPT_OUTLIER => RPY_SD_ST_OUTLIER hd
             end)) ;;
      put Rpy.source_data_mode
          (W_u16 (htons
             match RPT_SourceReport.mode report with
             | RPT_NTP_CLIENT => RPY_SD_MD_CLIENT hd
             | RPT_NTP_PEER => RPY_SD_MD_PEER hd
             | RPT_LOCAL_REFERENCE => RPY_SD_MD_REF hd
             end)) ;;
      put Rpy.source_data_flags
          (W_u16 (htons
             match RPT_SourceReport.sel_option report with
             | RPT_NORMAL => 0
             | RPT_PREFER => RPY_SD_FLAG_PREFER hd
             | RPT_NOSELECT => RPY_SD_FLAG_NOSELECT hd
             end)) ;;
      put Rpy.source_data_reachability
          (W_u16 (htons (RPT_SourceReport.reachability report))) ;;
      put Rpy.source_data_since_sample
          (W_u32 (htonl (RPT_SourceReport.latest_meas_ago report))) ;;
      put Rpy.source_data_orig_latest_meas
          (UTI_FloatHostToNetwork (RPT_SourceReport.orig_latest_meas report)) ;;
      put Rpy.source_data_latest_meas
          (UTI_FloatHostToNetwork (RPT_SourceReport.latest_meas report)) ;;
      put Rpy.source_data_latest_meas_err
          (UTI_FloatHostToNetwork (RPT_SourceReport.latest_meas_err report))
  | None => set_status STT_NOSUCHSOURCE
  end.

Definition handle_rekey (rx_message : CMD_Request) : H unit :=
  call Call.KEY_Reload tt.

Definition handle_allowdeny (rx_message : CMD_Request) (allow all : Z) : H unit :=
  let ip := member_IPAddr rx_message Req.allow_deny_ip in
  let subnet_bits := ntohl (member_u32 rx_message Req.allow_deny_subnet_bits) in
  ok <- call (Call.NCR_AddAccessRestriction ip subnet_bits allow all)
             (NCR_AddAccessRestriction w ip subnet_bits allow all) ;;
  if negb ok then set_status STT_BADSUBNET else ret tt.

Definition CAM_AddAccessRestriction (ip_addr : IPAddr) (subnet_bits allow all : Z)
  : H Z :=
  status <-
    (if negb (allow =? 0) then
       if negb (all =? 0) then
         call (Call.ADF_AllowAll ip_addr subnet_bits) (ADF_AllowAll w ip_addr subnet_bits)
       else
         call (Call.ADF_Allow ip_addr subnet_bits) (ADF_Allow w ip_addr subnet_bits)
     else
       if negb (all =? 0) then
         call (Call.ADF_DenyAll ip_addr subnet_bits) (ADF_DenyAll w ip_addr subnet_bits)
       else
         call (Call.ADF_Deny ip_addr subnet_bits) (ADF_Deny w ip_addr subnet_bits)) ;;
  match status with
  | ADF_BADSUBNET => ret 0
  | ADF_SUCCESS => ret 1
  | ADF_other _ => ret 0
  end.

Definition CAM_CheckAccessRestriction (ip_addr : IPAddr) : bool :=
  ADF_IsAllowed w ip_addr.

Definition handle_cmdallowdeny (rx_message : CMD_Request) (allow all : Z) : H unit :=
  let ip := member_IPAddr rx_message Req.allow_deny_ip in
  let subnet_bits := ntohl (member_u32 rx_message Req.allow_deny_subnet_bits) in
  r <- CAM_AddAccessRestriction ip subnet_bits allow all ;;
  if r =? 0 then set_status STT_BADSUBNET else ret tt.

Definition handle_accheck (rx_message : CMD_Request) : H unit :=
  let ip := member_IPAddr rx_message Req.ac_check_ip in
  if NCR_CheckAccessRestriction w ip then set_status STT_ACCESSALLOWED
  else set_status STT_ACCESSDENIED.

Definition handle_cmdaccheck (rx_message : CMD_Request) : H unit :=
  let ip := member_IPAddr rx_message Req.ac_check_ip in
  if CAM_CheckAccessRestriction ip then set_status STT_ACCESSALLOWED
  else set_status STT_ACCESSDENIED.

Definition handle_add_source (type : NTP_Source_Type) (rx_message : CMD_Request)
  : H unit :=
  let flags := ntohl (member_u32 rx_message Req.ntp_source_flags) in
  let flag (bit : Z) : Z := if Z.land flags bit =? 0 then 0 else 1 in
  let rem_addr :=
    {| ip_addr := member_IPAddr rx_message Req.ntp_source_ip_addr;
       port := unsigned_short (ntohl (member_u32 rx_message Req.ntp_source_port)) |} in
  let params :=
    {| minpoll := ntohl (member_u32 rx_message Req.ntp_source_minpoll);
       maxpoll := ntohl (member_u32 rx_message Req.ntp_source_maxpoll);
       presend_minpoll := ntohl (member_u32 rx_message Req.ntp_source_presend_minpoll);
       authkey := ntohl (member_u32 rx_message Req.ntp_source_authkey);
       online := flag (REQ_ADDSRC_ONLINE hd);
       auto_offline := flag (REQ_ADDSRC_AUTOOFFLINE hd);
       iburst := flag (REQ_ADDSRC_IBURST hd);
       sel_option :=
         if negb (Z.land flags (REQ_ADDSRC_PREFER hd) =? 0) then SRC_SelectPrefer
         else if negb (Z.land flags (REQ_ADDSRC_NOSELECT hd) =? 0) then SRC_SelectNoselect
         else SRC_SelectNormal;
       max_delay := member_Float rx_message Req.ntp_source_max_delay;
       max_delay_ratio := member_Float rx_message Req.ntp_source_max_delay_ratio;
       (* not transmitted in cmdmon protocol yet *)
       min_stratum := SRC_DEFAULT_MINSTRATUM hd;
       poll_target := SRC_DEFAULT_POLLTARGET hd;
       max_delay_dev_ratio := SRC_DEFAULT_MAXDELAYDEVRATIO hd;
       version := NTP_VERSION hd;
       max_sources := SRC_DEFAULT_MAXSOURCES hd;
       min_samples := SRC_DEFAULT_MINSAMPLES hd;
       max_samples := SRC_DEFAULT_MAXSAMPLES hd |} in
  status <- call (Call.NSR_AddSource rem_addr type params)
                 (NSR_AddSource w rem_addr type params) ;;
  match status with
  | NSR_Success => ret tt
  | NSR_AlreadyInUse => set_status STT_SOURCEALREADYKNOWN
  | NSR_TooManySources => set_status STT_TOOMANYSOURCES
  | NSR_InvalidAF => set_status STT_INVALIDAF
  | NSR_NoSuchSource => assert_0
  end.

Definition handle_del_source (rx_message : CMD_Request) : H unit :=
  let rem_addr :=
    {| ip_addr := member_IPAddr rx_message Req.del_source_ip_addr; port := 0 |} in
  status <- call (Call.NSR_RemoveSource rem_addr) (NSR_RemoveSource w rem_addr) ;;
  match status with
  | NSR_Success => ret tt
  | NSR_NoSuchSource => set_status STT_NOSUCHSOURCE
  | NSR_TooManySources | NSR_AlreadyInUse | NSR_InvalidAF => assert_0
  end.

Definition handle_writertc (rx_message : CMD_Request) : H unit :=
  st <- call Call.RTC_WriteParameters (RTC_WriteParameters w) ;;
  match st with
  | RTC_ST_OK => ret tt
  | RTC_ST_NODRV => set_status STT_NORTC
  | RTC_ST_BADFILE => set_status STT_BADRTCFILE
  end.

Definition handle_dfreq (rx_message : CMD_Request) : H unit :=
  let dfreq := member_Float rx_message Req.dfreq_dfreq in
  call (Call.LCL_AccumulateDeltaFrequency (D_mul dfreq (D_const 1 1000000))) tt ;;
  emit (LOG LOGS_INFO "Accumulated delta freq of %.3fppm").

Definition handle_doffset (rx_message : CMD_Request) : H unit :=
  let sec := int32_t (ntohl (member_u32 rx_message Req.doffset_sec)) in
  let usec := int32_t (ntohl (member_u32 rx_message Req.doffset_usec)) in
  let doffset := D_add (D_of_long sec) (D_mul (D_const 1 1000000) (D_of_long usec)) in
  emit (LOG LOGS_INFO "Accumulated delta offset of %.6f seconds") ;;
  call (Call.LCL_AccumulateOffset doffset (D_const 0 1)) tt.

Definition handle_tracking (rx_message : CMD_Request) : H unit :=
  let rpt := REF_GetTrackingReport w in
  set_reply RPY_TRACKING ;;
  put Rpy.tracking_ref_id (W_u32 (htonl (RPT_TrackingReport.ref_id rpt))) ;;
  put Rpy.tracking_ip_addr (UTI_IPHostToNetwork (RPT_TrackingReport.ip_addr rpt)) ;;
  put Rpy.tracking_stratum (W_u16 (htons (RPT_TrackingReport.stratum rpt))) ;;
  put Rpy.tracking_leap_status (W_u16 (htons (RPT_TrackingReport.leap_status rpt))) ;;
  put Rpy.tracking_ref_time (UTI_TimevalHostToNetwork (RPT_TrackingReport.ref_time rpt)) ;;
  put Rpy.tracking_current_correction
      (UTI_FloatHostToNetwork (RPT_TrackingReport.current_correction rpt)) ;;
  put Rpy.tracking_last_offset
      (UTI_FloatHostToNetwork (RPT_TrackingReport.last_offset rpt)) ;;
  put Rpy.tracking_rms_offset
      (UTI_FloatHostToNetwork (RPT_TrackingReport.rms_offset rpt)) ;;
  put Rpy.tracking_freq_ppm
      (UTI_FloatHostToNetwork (RPT_TrackingReport.freq_ppm rpt)) ;;
  put Rpy.tracking_resid_freq_ppm
      (UTI_FloatHostToNetwork (RPT_TrackingReport.resid_freq_ppm rpt)) ;;
  put Rpy.tracking_skew_ppm
      (UTI_FloatHostToNetwork (RPT_TrackingReport.skew_ppm rpt)) ;;
  put Rpy.tracking_root_delay
      (UTI_FloatHostToNetwork (RPT_TrackingReport.root_delay rpt)) ;;
  put Rpy.tracking_root_dispersion
      (UTI_FloatHostToNetwork (RPT_TrackingReport.root_dispersion rpt)) ;;
  put Rpy.tracking_last_update_interval
      (UTI_FloatHostToNetwork (RPT_TrackingReport.last_update_interval rpt)).

Definition handle_smoothing (rx_message : CMD_Request) : H unit :=
  let now := fst (SCH_GetLastEventTime w) in
  match SMT_GetSmoothingReport w now with
  | None => set_status STT_NOTENABLED
  | Some report =>
      set_reply RPY_SMOOTHING ;;
      put Rpy.smoothing_flags
          (W_u32 (htonl (Z.lor
             (if negb (RPT_SmoothingReport.active report =? 0)
              then RPY_SMT_FLAG_ACTIVE hd else 0)
             (if negb (RPT_SmoothingReport.leap_only report =? 0)
              then RPY_SMT_FLAG_LEAPONLY hd else 0)))) ;;
      put Rpy.smoothing_offset
          (UTI_FloatHostToNetwork (RPT_SmoothingReport.offset report)) ;;
      put Rpy.smoothing_freq_ppm
          (UTI_FloatHostToNetwork (RPT_SmoothingReport.freq_ppm report)) ;;
      put Rpy.smoothing_wander_ppm
          (UTI_FloatHostToNetwork (RPT_SmoothingReport.wander_ppm report)) ;;
      put Rpy.smoothing_last_update_ago
          (UTI_FloatHostToNetwork (RPT_SmoothingReport.last_update_ago report)) ;;
      put Rpy.smoothing_remaining_time
          (UTI_FloatHostToNetwork (RPT_SmoothingReport.remaining_time report))
  end.

Definition handle_smoothtime (rx_message : CMD_Request) : H unit :=
  if negb (SMT_IsEnabled w) then
    set_status STT_NOTENABLED
  else
    let option := ntohl (member_u32 rx_message Req.smoothtime_option) in
    let now := fst (SCH_GetLastEventTime w) in
    if option =? REQ_SMOOTHTIME_RESET hd then call (Call.SMT_Reset now) tt
    else if option =? REQ_SMOOTHTIME_ACTIVATE hd then call (Call.SMT_Activate now) tt
    else set_status STT_INVALID.

Definition handle_sourcestats (rx_message : CMD_Request) : H unit :=
  let now_corr := fst (SCH_GetLastEventTime w) in
  match SRC_ReportSourcestats w (ntohl (member_u32 rx_message Req.sourcestats_index))
                              now_corr with
  | Some report =>
      set_reply RPY_SOURCESTATS ;;
      put Rpy.sourcestats_ref_id (W_u32 (htonl (RPT_SourcestatsReport.ref_id report))) ;;
      put Rpy.sourcestats_ip_addr
          (UTI_IPHostToNetwork (RPT_SourcestatsReport.ip_addr report)) ;;
      put Rpy.sourcestats_n_samples
          (W_u32 (htonl (RPT_SourcestatsReport.n_samples report))) ;;
      put Rpy.sourcestats_n_runs (W_u32 (htonl (RPT_SourcestatsReport.n_runs report))) ;;
      put Rpy.sourcestats_span_seconds
          (W_u32 (htonl (RPT_SourcestatsReport.span_seconds report))) ;;
      put Rpy.sourcestats_resid_freq_ppm
          (UTI_FloatHostToNetwork (RPT_SourcestatsReport.resid_freq_ppm report)) ;;
      put Rpy.sourcestats_skew_ppm
          (UTI_FloatHostToNetwork (RPT_SourcestatsReport.skew_ppm report)) ;;
      put Rpy.sourcestats_sd (UTI_FloatHostToNetwork (RPT_SourcestatsReport.sd report)) ;;
      put Rpy.sourcestats_est_offset
          (UTI_FloatHostToNetwork (RPT_SourcestatsReport.est_offset report)) ;;
      put Rpy.sourcestats_est_offset_err
          (UTI_FloatHostToNetwork (RPT_SourcestatsReport.est_offset_err report))
  | None => set_status STT_NOSUCHSOURCE
  end.

Definition handle_rtcreport (rx_message : CMD_Request) : H unit :=
  match RTC_GetReport w with
  | Some report =>
      set_reply RPY_RTC ;;
      put Rpy.rtc_ref_time (UTI_TimevalHostToNetwork (RPT_RTC_Report.ref_time report)) ;;
      put Rpy.rtc_n_samples (W_u16 (htons (RPT_RTC_Report.n_samples report))) ;;
      put Rpy.rtc_n_runs (W_u16 (htons (RPT_RTC_Report.n_runs report))) ;;
      put Rpy.rtc_span_seconds (W_u32 (htonl (RPT_RTC_Report.span_seconds report))) ;;
      put Rpy.rtc_rtc_seconds_fast
          (UTI_FloatHostToNetwork (RPT_RTC_Report.rtc_seconds_fast report)) ;;
      put Rpy.rtc_rtc_gain_rate_ppm
          (UTI_FloatHostToNetwork (RPT_RTC_Report.rtc_gain_rate_ppm report))
  | None => set_status STT_NORTC
  end.

Definition handle_trimrtc (rx_message : CMD_Request) : H unit :=
  ok <- call Call.RTC_Trim (RTC_Trim w) ;;
  if negb ok then set_status STT_NORTC else ret tt.

Definition handle_cyclelogs (rx_message : CMD_Request) : H unit :=
  call Call.LOG_CycleLogFiles tt.

(** The loop of [handle_client_accesses_by_index], with [count] iterations
    left, loop counter [i] and [j] rows packed.  It yields the final [i]
    and [j], or [None] when the handler returned from inside the loop. *)
Fixpoint client_accesses_loop (count : nat) (first_index now_tv_sec i j : Z)
  : H (option (Z * Z)) :=
  match count with
  | O => ret (Some (i, j))
  | S count' =>
      let '(result, report, n_indices_in_table) :=
        CLG_GetClientAccessReportByIndex w (first_index + i) now_tv_sec in
      put Rpy.client_accesses_by_index_n_indices (W_u32 (htonl n_indices_in_table)) ;;
      match result with
      | CLG_SUCCESS =>
          put (Rpy.client_accesses_by_index_clients j Rpy.ip)
              (UTI_IPHostToNetwork (RPT_ClientAccessByIndex_Report.ip_addr report)) ;;
          put (Rpy.client_accesses_by_index_clients j Rpy.client_hits)
              (W_u32 (htonl (RPT_ClientAccessByIndex_Report.client_hits report))) ;;
          put (Rpy.client_accesses_by_index_clients j Rpy.peer_hits)
              (W_u32 (htonl (RPT_ClientAccessByIndex_Report.peer_hits report))) ;;
          put (Rpy.client_accesses_by_index_clients j Rpy.cmd_hits_auth)
              (W_u32 (htonl (RPT_ClientAccessByIndex_Report.cmd_hits_auth report))) ;;
          put (Rpy.client_accesses_by_index_clients j Rpy.cmd_hits_normal)
              (W_u32 (htonl (RPT_ClientAccessByIndex_Report.cmd_hits_normal report))) ;;
          put (Rpy.client_accesses_by_index_clients j Rpy.cmd_hits_bad)
              (W_u32 (htonl (RPT_ClientAccessByIndex_Report.cmd_hits_bad report))) ;;
          put (Rpy.client_accesses_by_index_clients j Rpy.last_ntp_hit_ago)
              (W_u32 (htonl (RPT_ClientAccessByIndex_Report.last_ntp_hit_ago report))) ;;
          put (Rpy.client_accesses_by_index_clients j Rpy.last_cmd_hit_ago)
              (W_u32 (htonl (RPT_ClientAccessByIndex_Report.last_cmd_hit_ago report))) ;;
          client_accesses_loop count' first_index now_tv_sec (i + 1) (j + 1)
      | CLG_INDEXTOOLARGE =>
          (* ignore this index *)
          client_accesses_loop count' first_index now_tv_sec (i + 1) j
      | CLG_INACTIVE =>
          set_status STT_INACTIVE ;;
          ret None
      | CLG_other _ => assert_0
      end
  end.

Definition handle_client_accesses_by_index (rx_message : CMD_Request) : H unit :=
  let now := fst (SCH_GetLastEventTime w) in
  let first_index :=
    ntohl (member_u32 rx_message Req.client_accesses_by_index_first_index) in
  let n_indices0 :=
    ntohl (member_u32 rx_message Req.client_accesses_by_index_n_indices) in
  let n_indices :=
    if n_indices0 >? MAX_CLIENT_ACCESSES hd then MAX_CLIENT_ACCESSES hd else n_indices0 in
  set_reply RPY_CLIENT_ACCESSES_BY_INDEX ;;
  r <- client_accesses_loop (Z.to_nat n_indices) first_index (tv_sec now) 0 0 ;;
  match r with
  | None => ret tt
  | Some (i, j) =>
      put Rpy.client_accesses_by_index_next_index (W_u32 (htonl (first_index + i))) ;;
      put Rpy.client_accesses_by_index_n_clients (W_u32 (htonl j))
  end.

(** The loop of [handle_manual_list] over [report[i]], [i < n_samples]. *)
Fixpoint manual_list_loop (report : list RPT_ManualSamplesReport.t) (i : Z) : H unit :=
  match report with
  | [] => ret tt
  | r :: report' =>
      put (Rpy.manual_list_samples i Rpy.when)
          (UTI_TimevalHostToNetwork (RPT_ManualSamplesReport.when r)) ;;
      put (Rpy.manual_list_samples i Rpy.slewed_offset)
          (UTI_FloatHostToNetwork (RPT_ManualSamplesReport.slewed_offset r)) ;;
      put (Rpy.manual_list_samples i Rpy.orig_offset)
          (UTI_FloatHostToNetwork (RPT_ManualSamplesReport.orig_offset r)) ;;
      put (Rpy.manual_list_samples i Rpy.residual)
          (UTI_FloatHostToNetwork (RPT_ManualSamplesReport.residual r)) ;;
      manual_list_loop report' (i + 1)
  end.

Definition handle_manual_list (rx_message : CMD_Request) : H unit :=
  set_reply RPY_MANUAL_LIST ;;
  let report := MNL_ReportSamples w (MAX_MANUAL_LIST_SAMPLES hd) in
  let n_samples := Z.of_nat (List.length report) in
  put Rpy.manual_list_n_samples (W_u32 (htonl n_samples)) ;;
  manual_list_loop report 0.

Definition handle_manual_delete (rx_message : CMD_Request) : H unit :=
  let index := ntohl (member_u32 rx_message Req.manual_delete_index) in
  ok <- call (Call.MNL_DeleteSample index) (MNL_DeleteSample w index) ;;
  if negb ok then set_status STT_BADSAMPLE else ret tt.

Definition handle_make_step (rx_message : CMD_Request) : H unit :=
  ok <- call Call.LCL_MakeStep (LCL_MakeStep w) ;;
  if negb ok then set_status STT_FAILED else ret tt.

Definition handle_activity (rx_message : CMD_Request) : H unit :=
  let report := NSR_GetActivityReport w in
  put Rpy.activity_online (W_u32 (htonl (RPT_ActivityReport.online report))) ;;
  put Rpy.activity_offline (W_u32 (htonl (RPT_ActivityReport.offline report))) ;;
  put Rpy.activity_burst_online
      (W_u32 (htonl (RPT_ActivityReport.burst_online report))) ;;
  put Rpy.activity_burst_offline
      (W_u32 (htonl (RPT_ActivityReport.burst_offline report))) ;;
  put Rpy.activity_unresolved (W_u32 (htonl (RPT_ActivityReport.unresolved report))) ;;
  set_reply RPY_ACTIVITY.

Definition handle_reselect_distance (rx_message : CMD_Request) : H unit :=
  let dist := member_Float rx_message Req.reselect_distance_distance in
  call (Call.SRC_SetReselectDistance dist) tt.

Definition handle_reselect (rx_message : CMD_Request) : H unit :=
  call Call.SRC_ReselectSource tt.

Definition handle_refresh (rx_message : CMD_Request) : H unit :=
  call Call.NSR_RefreshAddresses tt.

(** A call of a handler from the dispatcher. *)
Definition invoke (h : Handler) (body : H unit) : H unit :=
  emit (Handle h) ;; body.

(** The [switch (rx_command)] of [read_from_cmd_socket]; [None] is a
    number that names no request type. *)
Definition dispatch (rx_command : option REQ) (rx_message : CMD_Request) : H unit :=
  match rx_command with
  | Some REQ_NULL =>
      (* Do nothing *)
      ret tt
  | Some REQ_DUMP => invoke H_dump (handle_dump rx_message)
  | Some REQ_ONLINE => invoke H_online (handle_online rx_message)
  | Some REQ_OFFLINE => invoke H_offline (handle_offline rx_message)
  | Some REQ_BURST => invoke H_burst (handle_burst rx_message)
  | Some REQ_MODIFY_MINPOLL => invoke H_modify_minpoll (handle_modify_minpoll rx_message)
  | Some REQ_MODIFY_MAXPOLL => invoke H_modify_maxpoll (handle_modify_maxpoll rx_message)
  | Some REQ_MODIFY_MAXDELAY =>
      invoke H_modify_maxdelay (handle_modify_maxdelay rx_message)
  | Some REQ_MODIFY_MAXDELAYRATIO =>
      invoke H_modify_maxdelayratio (handle_modify_maxdelayratio rx_message)
  | Some REQ_MODIFY_MAXDELAYDEVRATIO =>
      invoke H_modify_maxdelaydevratio (handle_modify_maxdelaydevratio rx_message)
  | Some REQ_MODIFY_MAXUPDATESKEW =>
      invoke H_modify_maxupdateskew (handle_modify_maxupdateskew rx_message)
  | Some REQ_MODIFY_MAKESTEP =>
      invoke H_modify_makestep (handle_modify_makestep rx_message)
  | Some REQ_LOGON =>
      (* Authentication is no longer supported, log-on always fails *)
      set_status STT_FAILED
  | Some REQ_SETTIME => invoke H_settime (handle_settime rx_message)
  | Some REQ_LOCAL => invoke H_local (handle_local rx_message)
  | Some REQ_MANUAL => invoke H_manual (handle_manual rx_message)
  | Some REQ_N_SOURCES => invoke H_n_sources (handle_n_sources rx_message)
  | Some REQ_SOURCE_DATA => invoke H_source_data (handle_source_data rx_message)
  | Some REQ_REKEY => invoke H_rekey (handle_rekey rx_message)
  | Some REQ_ALLOW => invoke (H_allowdeny 1 0) (handle_allowdeny rx_message 1 0)
  | Some REQ_ALLOWALL => invoke (H_allowdeny 1 1) (handle_allowdeny rx_message 1 1)
  | Some REQ_DENY => invoke (H_allowdeny 0 0) (handle_allowdeny rx_message 0 0)
  | Some REQ_DENYALL => invoke (H_allowdeny 0 1) (handle_allowdeny rx_message 0 1)
  | Some REQ_CMDALLOW => invoke (H_cmdallowdeny 1 0) (handle_cmdallowdeny rx_message 1 0)
  | Some REQ_CMDALLOWALL =>
      invoke (H_cmdallowdeny 1 1) (handle_cmdallowdeny rx_message 1 1)
  | Some REQ_CMDDENY => invoke (H_cmdallowdeny 0 0) (handle_cmdallowdeny rx_message 0 0)
  | Some REQ_CMDDENYALL =>
      invoke (H_cmdallowdeny 0 1) (handle_cmdallowdeny rx_message 0 1)
  | Some REQ_ACCHECK => invoke H_accheck (handle_accheck rx_message)
  | Some REQ_CMDACCHECK => invoke H_cmdaccheck (handle_cmdaccheck rx_message)
  | Some REQ_ADD_SERVER =>
      invoke (H_add_source NTP_SERVER) (handle_add_source NTP_SERVER rx_message)
  | Some REQ_ADD_PEER =>
      invoke (H_add_source NTP_PEER) (handle_add_source NTP_PEER rx_message)
  | Some REQ_DEL_SOURCE => invoke H_del_source (handle_del_source rx_message)
  | Some REQ_WRITERTC => invoke H_writertc (handle_writertc rx_message)
  | Some REQ_DFREQ => invoke H_dfreq (handle_dfreq rx_message)
  | Some REQ_DOFFSET => invoke H_doffset (handle_doffset rx_message)
  | Some REQ_TRACKING => invoke H_tracking (handle_tracking rx_message)
  | Some REQ_SMOOTHING => invoke H_smoothing (handle_smoothing rx_message)
  | Some REQ_SMOOTHTIME => invoke H_smoothtime (handle_smoothtime rx_message)
  | Some REQ_SOURCESTATS => invoke H_sourcestats (handle_sourcestats rx_message)
  | Some REQ_RTCREPORT => invoke H_rtcreport (handle_rtcreport rx_message)
  | Some REQ_TRIMRTC => invoke H_trimrtc (handle_trimrtc rx_message)
  | Some REQ_CYCLELOGS => invoke H_cyclelogs (handle_cyclelogs rx_message)
  | Some REQ_CLIENT_ACCESSES_BY_INDEX =>
      invoke H_client_accesses_by_index (handle_client_accesses_by_index rx_message)
  | Some REQ_MANUAL_LIST => invoke H_manual_list (handle_manual_list rx_message)
  | Some REQ_MANUAL_DELETE => invoke H_manual_delete (handle_manual_delete rx_message)
  | Some REQ_MAKESTEP => invoke H_make_step (handle_make_step rx_message)
  | Some REQ_ACTIVITY => invoke H_activity (handle_activity rx_message)
  | Some REQ_RESELECTDISTANCE =>
      invoke H_reselect_distance (handle_reselect_distance rx_message)
  | Some REQ_RESELECT => invoke H_reselect (handle_reselect rx_message)
  | Some REQ_MODIFY_MINSTRATUM =>
      invoke H_modify_minstratum (handle_modify_minstratum rx_message)
  | Some REQ_MODIFY_POLLTARGET =>
      invoke H_modify_polltarget (handle_modify_polltarget rx_message)
  | Some REQ_REFRESH => invoke H_refresh (handle_refresh rx_message)
  | Some REQ_SUBNETS_ACCESSED | Some REQ_CLIENT_ACCESSES | None =>
      (* default: *)
      assert_0
  end.

End Handlers.

(** ** Module state, sockets and initialisation *)

(** The static variables of the module.  The CIDR table
    [access_auth_table] is seen through [World]. *)
Record State : Type := {
  sock_fdu : Z;
  sock_fd4 : Z;
  sock_fd6 : Z;
  initialised : Z
}.

Inductive Completion : Type :=
| Returned          (* the function returned *)
| AssertionFailed   (* an assert failed *)
| Fatal.            (* LOG_FATAL ended the process *)

Record Outcome : Type := { events : list Event; completion : Completion }.

(** Calls into the operating system, the scheduler and the table
    constructor that initialisation and shutdown make. *)
Inductive Syscall : Type :=
| sys_socket (family : sa_family_t)
| sys_UTI_FdSetCloexec (fd : Z)
| sys_setsockopt (fd : Z) (option : string)
| sys_unlink (path : string)
| sys_bind (fd : Z) (my_addr : sockaddr_all)
| sys_close (fd : Z)
| sys_SCH_AddInputFileHandler (fd : Z)
| sys_SCH_RemoveInputFileHandler (fd : Z)
| sys_ADF_CreateTable
| sys_ADF_DestroyTable.

(** What the operating system and the configuration answer, and the
    indeterminate contents of the local [CMD_Request] of
    [CAM_Initialise]. *)
Record Sys : Type := {
  socket : sa_family_t -> Z;
  setsockopt : Z -> string -> Z;
  bind_socket : Z -> sockaddr_all -> Z;
  CNF_GetCommandPort : Z;
  CNF_GetBindCommandAddress : Z -> IPAddr;
  CNF_GetBindCommandPath : string;
  uninitialised_request : CMD_Request
}.

Section Dispatcher.

Variable hd : Headers.

(** [prepare_socket]: its trace (system calls and log messages) and
    either the descriptor it returns or how the process ended. *)
Definition prepare_socket (sys : Sys) (family : sa_family_t) (port_number : Z)
  : list (Event + Syscall) * (Z + Completion) :=
  let sock_fd := socket sys family in
  if sock_fd <? 0 then
    ([inr (sys_socket family);
      inl (LOG LOGS_ERR "Could not open %s command socket : %s")], inl (-1))
  else
    let opts :=
      match family with
      | AF_UNIX => []
      | _ =>
          [inr (sys_setsockopt sock_fd "SO_REUSEADDR")]
          ++ (if setsockopt sys sock_fd "SO_REUSEADDR" <? 0
              then [inl (LOG LOGS_ERR "Could not set reuseaddr socket options")]
              else [])
          ++ [inr (sys_setsockopt sock_fd "IP_FREEBIND")]
          ++ (if setsockopt sys sock_fd "IP_FREEBIND" <? 0
              then [inl (LOG LOGS_ERR "Could not set free bind socket option")]
              else [])
          ++ match family with
             | AF_INET6 =>
                 [inr (sys_setsockopt sock_fd "IPV6_V6ONLY")]
                 ++ (if setsockopt sys sock_fd "IPV6_V6ONLY" <? 0
                     then [inl (LOG LOGS_ERR
                                  "Could not request IPV6_V6ONLY socket option")]
                     else [])
             | _ => []
             end
      end in
    let pre := [inr (sys_socket family); inr (sys_UTI_FdSetCloexec sock_fd)] ++ opts in
    let bound (unlinked : list (Event + Syscall)) (my_addr : sockaddr_all) :=
      if bind_socket sys sock_fd my_addr <? 0 then
        (pre ++ unlinked
         ++ [inr (sys_bind sock_fd my_addr);
             inl (LOG LOGS_ERR "Could not bind %s command socket : %s");
             inr (sys_close sock_fd)], inl (-1))
      else
        (pre ++ unlinked
         ++ [inr (sys_bind sock_fd my_addr);
             inr (sys_SCH_AddInputFileHandler sock_fd)], inl sock_fd) in
    match family with
    | AF_INET =>
        bound []
          (sockaddr_in
             match CNF_GetBindCommandAddress sys IPADDR_INET4_tag with
             | IPADDR_INET4 in4 => htonl in4
             | _ => htonl INADDR_LOOPBACK
             end
             (htons (unsigned_short port_number)))
    | AF_INET6 =>
        bound []
          (sockaddr_in6
             match CNF_GetBindCommandAddress sys IPADDR_INET6_tag with
             | IPADDR_INET6 in6 => bytes_at in6 0 16
             | _ => in6addr_loopback
             end
             (htons (unsigned_short port_number)))
    | AF_UNIX =>
        let path := CNF_GetBindCommandPath sys in
        if Z.of_nat (String.length path) >=? sizeof_sun_path hd then
          (pre ++ [inl (LOG LOGS_FATAL "Unix socket path too long")], inr Fatal)
        else
          bound [inr (sys_unlink path)] (sockaddr_un path)
    | AF_other _ => (pre, inr AssertionFailed)
    end.

(** The request [r] that the loop of [CAM_Initialise] hands to
    pktlength.c for command [i]. *)
Definition init_request (sys : Sys) (i : Z) : CMD_Request :=
  let r := uninitialised_request sys in
  {| rx_version := PROTO_VERSION_NUMBER hd;
     rx_pkt_type := rx_pkt_type r;
     rx_res1 := rx_res1 r;
     rx_res2 := rx_res2 r;
     rx_command := htons i;
     rx_attempt := rx_attempt r;
     rx_sequence := rx_sequence r;
     rx_data := rx_data r |}.

(** The two assertions in the body of the loop of [CAM_Initialise]. *)
Definition init_assertions (sys : Sys) (i : Z) : bool :=
  let r := init_request sys i in
  let command_length := PKL_CommandLength hd r in
  let padding_length := PKL_CommandPaddingLength hd r in
  ((padding_length <=? MAX_PADDING_LENGTH hd) && (padding_length <=? command_length))
  && ((command_length =? 0) || (command_length >=? offsetof_CMD_Reply_data hd)).

(** The loop [for (i = ...; i < N_REQUEST_TYPES; i++)] with [count]
    iterations left: [true] when no assertion fails. *)
Fixpoint init_loop (sys : Sys) (count : nat) (i : Z) : bool :=
  match count with
  | O => true
  | S count' => init_assertions sys i && init_loop sys count' (i + 1)
  end.

Definition CAM_Initialise (sys : Sys) (st : State) (family : Z)
  : list (Event + Syscall) * Completion * State :=
  if negb (initialised st =? 0) then ([], AssertionFailed, st)
  else
    let st1 := {| sock_fdu := sock_fdu st; sock_fd4 := sock_fd4 st;
                  sock_fd6 := sock_fd6 st; initialised := 1 |} in
    if negb (Z.of_nat (List.length permissions) =? N_REQUEST_TYPES hd) then
      ([], AssertionFailed, st1)
    else if negb (init_loop sys (Z.to_nat (N_REQUEST_TYPES hd)) 0) then
      ([], AssertionFailed, st1)
    else
      let port_number := CNF_GetCommandPort sys in
      let '(tr4, fd4) :=
        if negb (port_number =? 0)
           && ((family =? IPADDR_UNSPEC_tag) || (family =? IPADDR_INET4_tag))
        then prepare_socket sys AF_INET port_number
        else ([], inl (-1)) in
      let '(tr6, fd6) :=
        if negb (port_number =? 0)
           && ((family =? IPADDR_UNSPEC_tag) || (family =? IPADDR_INET6_tag))
        then prepare_socket sys AF_INET6 port_number
        else ([], inl (-1)) in
      match fd4, fd6 with
      | inl sock4, inl sock6 =>
          let st2 := {| sock_fdu := -1; sock_fd4 := sock4; sock_fd6 := sock6;
                        initialised := 1 |} in
          if negb (port_number =? 0) && (sock4 <? 0) && (sock6 <? 0) then
            (tr4 ++ tr6 ++ [inl (LOG LOGS_FATAL "Could not open any command socket")],
             Fatal, st2)
          else
            (tr4 ++ tr6 ++ [inr sys_ADF_CreateTable], Returned, st2)
      | inr c, _ =>
          (tr4, c, {| sock_fdu := -1; sock_fd4 := sock_fd4 st; sock_fd6 := sock_fd6 st;
                      initialised := 1 |})
      | inl sock4, inr c =>
          (tr4 ++ tr6, c, {| sock_fdu := -1; sock_fd4 := sock4; sock_fd6 := sock_fd6 st;
                             initialised := 1 |})
      end.

Definition CAM_Finalise (sys : Sys) (st : State) : list (Event + Syscall) * State :=
  ((if sock_fdu st >=? 0 then
      [inr (sys_SCH_RemoveInputFileHandler (sock_fdu st)); inr (sys_close (sock_fdu st));
       inr (sys_unlink (CNF_GetBindCommandPath sys))]
    else [])
   ++ (if sock_fd4 st >=? 0 then
         [inr (sys_SCH_RemoveInputFileHandler (sock_fd4 st)); inr (sys_close (sock_fd4 st))]
       else [])
   ++ (if sock_fd6 st >=? 0 then
         [inr (sys_SCH_RemoveInputFileHandler (sock_fd6 st)); inr (sys_close (sock_fd6 st))]
       else [])
   ++ [inr sys_ADF_DestroyTable],
   {| sock_fdu := -1; sock_fd4 := -1; sock_fd6 := -1; initialised := 0 |}).

Definition CAM_OpenUnixSocket (sys : Sys) (st : State)
  : list (Event + Syscall) * Completion * State :=
  match CNF_GetBindCommandPath sys with
  | EmptyString => ([], Returned, st)
  | _ =>
      match prepare_socket sys AF_UNIX 0 with
      | (tr, inl fd) =>
          (tr, Returned,
           {| sock_fdu := fd; sock_fd4 := sock_fd4 st; sock_fd6 := sock_fd6 st;
              initialised := initialised st |})
      | (tr, inr c) => (tr, c, st)
      end
  end.

(** ** The dispatcher *)

(** What [recvfrom] delivered: its return value, the buffer
    [rx_message] (the bytes received, followed by whatever the buffer
    held), the source address and its length. *)
Record Received : Type := {
  recv_status : Z;
  recv_rx_message : CMD_Request;
  recv_where_from : sockaddr_all;
  recv_from_length : Z
}.

Definition transmit_reply (st : State) (msg : CMD_Reply) (where_to : sockaddr_all)
  : Outcome :=
  match sa_family where_to with
  | AF_INET =>
      {| events := [Sendto (sock_fd4 st) msg (PKL_ReplyLength hd msg) where_to];
         completion := Returned |}
  | AF_INET6 =>
      {| events := [Sendto (sock_fd6 st) msg (PKL_ReplyLength hd msg) where_to];
         completion := Returned |}
  | AF_UNIX =>
      {| events := [Sendto (sock_fdu st) msg (PKL_ReplyLength hd msg) where_to];
         completion := Returned |}
  | AF_other _ => {| events := []; completion := AssertionFailed |}
  end.

(** [tr] happened, then [o]. *)
Definition after (tr : list Event) (o : Outcome) : Outcome :=
  {| events := tr ++ events o; completion := completion o |}.

Definition returned (tr : list Event) : Outcome :=
  {| events := tr; completion := Returned |}.

Definition assertion_failed (tr : list Event) : Outcome :=
  {| events := tr; completion := AssertionFailed |}.

(** The reply prepared before the version check (lines 1259-1271). *)
Definition reply_template (rx_message : CMD_Request) : CMD_Reply :=
  {| tx_version := PROTO_VERSION_NUMBER hd;
     tx_pkt_type := PKT_TYPE_CMD_REPLY hd;
     tx_res1 := 0;
     tx_res2 := 0;
     tx_command := rx_command rx_message;
     tx_reply := RPY_NULL;
     tx_status := STT_SUCCESS;
     tx_pad1 := 0;
     tx_pad2 := 0;
     tx_pad3 := 0;
     tx_sequence := rx_sequence rx_message;
     tx_pad4 := 0;
     tx_pad5 := 0;
     tx_data := [] |}.

(** Level of authority required to issue the command (lines 1316-1337):
    [Some allowed], or [None] when an assertion fails.  A command number
    outside of [permissions] is treated like a table entry that is none
    of the three levels. *)
Definition check_authority (st : State) (sock_fd : Z) (where_from : sockaddr_all)
    (localhost : bool) (command : Z) : option bool :=
  match sa_family where_from with
  | AF_UNIX => if sock_fd =? sock_fdu st then Some true else None
  | _ =>
      match permissions_at command with
      | Some PERMIT_AUTH => Some false
      | Some PERMIT_LOCAL => Some localhost
      | Some PERMIT_OPEN => Some true
      | None => None
      end
  end.

Definition do_it : Z := 1.

(** The end of [read_from_cmd_socket] (from line 1312): the check of
    authority, the dispatch on the message type and the transmission of
    the response. *)
Definition dispatch_and_reply (w : World) (st : State) (sock_fd : Z)
    (rx_message : CMD_Request) (where_from : sockaddr_all) (localhost : bool)
    (command : Z) (tx_message : CMD_Reply) : Outcome :=
  match check_authority st sock_fd where_from localhost command with
  | None => assertion_failed []
  | Some allowed =>
      let handled :=
        if allowed
        then dispatch hd w (request_type command) rx_message tx_message
        else set_status STT_UNAUTH tx_message in
      match handled with
      | (tr, Abort) => assertion_failed tr
      | (tr, Value _ tx_message') =>
          (* Transmit the response *)
          after tr
            (if negb (do_it =? 0)
             then transmit_reply st tx_message' where_from
             else returned [])
      end
  end.

(** [read_from_cmd_socket] once the source is classified (from line 1230):
    the access check, the validation of the packet, the dispatch and the
    reply. *)
Definition process_request (w : World) (st : State) (sock_fd : Z) (read_length : Z)
    (rx_message : CMD_Request) (where_from : sockaddr_all) (remote_ip : IPAddr)
    (localhost : bool) (cooked_now : timeval) : Outcome :=
  if negb (localhost || ADF_IsAllowed w remote_ip) then
    (* The client is not allowed access *)
    returned []
  else
    (* Message size sanity check *)
    let expected_length :=
      if read_length >=? offsetof_CMD_Request_data hd
      then PKL_CommandLength hd rx_message else 0 in
    if (expected_length <? offsetof_CMD_Request_data hd)
       || (read_length <? offsetof_CMD_Reply_data hd)
       || negb (rx_pkt_type rx_message =? PKT_TYPE_CMD_REQUEST hd)
       || negb (rx_res1 rx_message =? 0)
       || negb (rx_res2 rx_message =? 0)
    then
      (* We don't know how to process anything like this *)
      returned [CLG_LogCommandAccess remote_ip CLG_CMD_BAD_PKT (tv_sec cooked_now)]
    else
      let command := ntohs (rx_command rx_message) in
      let tx_message := reply_template rx_message in
      if negb (rx_version rx_message =? PROTO_VERSION_NUMBER hd) then
        after [CLG_LogCommandAccess remote_ip CLG_CMD_BAD_PKT (tv_sec cooked_now)]
          (if rx_version rx_message >=? PROTO_VERSION_MISMATCH_COMPAT_SERVER hd then
             transmit_reply st (with_status STT_BADPKTVERSION tx_message) where_from
           else returned [])
      else if command >=? N_REQUEST_TYPES hd then
        after [CLG_LogCommandAccess remote_ip CLG_CMD_BAD_PKT (tv_sec cooked_now)]
          (transmit_reply st (with_status STT_INVALID tx_message) where_from)
      else if read_length <? expected_length then
        after [CLG_LogCommandAccess remote_ip CLG_CMD_BAD_PKT (tv_sec cooked_now)]
          (transmit_reply st (with_status STT_BADPKTLENGTH tx_message) where_from)
      else
        (* OK, we have a valid message.  Now dispatch on message type and
           process it.  (The test of line 1312 repeats the one of line 1286
           and cannot hold here.) *)
        after [CLG_LogCommandAccess remote_ip CLG_CMD_NORMAL (tv_sec cooked_now)]
          (dispatch_and_reply w st sock_fd rx_message where_from localhost command
                              tx_message).

(** [read_from_cmd_socket], called by the scheduler with the descriptor
    [sock_fd] that became readable. *)
Definition read_from_cmd_socket (w : World) (st : State) (sock_fd : Z) (rcv : Received)
  : Outcome :=
  let status := recv_status rcv in
  let where_from := recv_where_from rcv in
  let from_length := recv_from_length rcv in
  if status <? 0 then
    returned [LOG LOGS_WARN "Error [%s] reading from control socket %d"]
  else if (from_length >? sizeof_sockaddr_all hd) || (from_length <=? sizeof_sa_family hd)
  then
    (* Read command packet without source address *)
    returned []
  else
    let read_length := status in
    (* Get current time cheaply *)
    let '(cooked_now, now) := SCH_GetLastEventTime w in
    let '(remote_ip, remote_port) := UTI_SockaddrToIPAndPort where_from in
    let continue (localhost : bool) :=
      process_request w st sock_fd read_length (recv_rx_message rcv) where_from
                      remote_ip localhost cooked_now in
    (* Check if it's from localhost (127.0.0.1, ::1, or Unix domain) *)
    match remote_ip with
    | IPADDR_INET4 in4 =>
        if sock_fd =? sock_fd4 st then continue (in4 =? INADDR_LOOPBACK)
        else assertion_failed []
    | IPADDR_INET6 in6 =>
        if sock_fd =? sock_fd6 st then continue (memcmp_eq in6 in6addr_loopback 16)
        else assertion_failed []
    | IPADDR_UNSPEC =>
        (* This should be the Unix domain socket *)
        match sa_family where_from with
        | AF_UNIX =>
            if sock_fd =? sock_fdu st then continue true else assertion_failed []
        | _ => returned []
        end
    | IPADDR_other _ => assertion_failed []
    end.

End Dispatcher.

(** ** Observations on a trace *)

Definition replies (tr : list Event) : list CMD_Reply :=
  flat_map (fun e => match e with Sendto _ msg _ _ => [msg] | _ => [] end) tr.

Definition handlers_invoked (tr : list Event) : list Handler :=
  flat_map (fun e => match e with Handle h => [h] | _ => [] end) tr.

Definition collaborator_calls (tr : list Event) : list Call.t :=
  flat_map (fun e => match e with Collab c => [c] | _ => [] end) tr.

Definition client_log (tr : list Event) : list (IPAddr * CLG_Command_Type * Z) :=
  flat_map (fun e => match e with
                     | CLG_LogCommandAccess ip ty now => [(ip, ty, now)]
                     | _ => []
                     end) tr.

(** ** The steps of the validation pipeline, as conditions on the input *)

Section Validation.

Variable hd : Headers.

(** The address the dispatcher derives from the source of a datagram. *)
Definition remote_ip_of (rcv : Received) : IPAddr :=
  fst (UTI_SockaddrToIPAndPort (recv_where_from rcv)).

(** The origin is the IPv4 loopback address, the IPv6 loopback address or
    the filesystem socket. *)
Definition origin_local (where_from : sockaddr_all) : bool :=
  match where_from with
  | sockaddr_in a _ => ntohl a =? INADDR_LOOPBACK
  | sockaddr_in6 a _ => bytes_eqb (bytes_at a 0 16) in6addr_loopback
  | sockaddr_un _ => true
  | sockaddr_sa _ => false
  end.

(** The datagram arrived on the socket of its address family. *)
Definition arrived_on (st : State) (sock_fd : Z) (where_from : sockaddr_all) : Prop :=
  match where_from with
  | sockaddr_in _ _ => sock_fd = sock_fd4 st
  | sockaddr_in6 _ _ => sock_fd = sock_fd6 st
  | sockaddr_un _ => sock_fd = sock_fdu st
  | sockaddr_sa _ => False
  end.

(** Step 1: a datagram was received, with a source address of a
    recognised family, on the socket of that family. *)
Definition source_present (st : State) (sock_fd : Z) (rcv : Received) : Prop :=
  0 <= recv_status rcv
  /\ sizeof_sa_family hd < recv_from_length rcv <= sizeof_sockaddr_all hd
  /\ arrived_on st sock_fd (recv_where_from rcv).

(** Step 2: the access filter lets the packet through. *)
Definition access_granted (w : World) (rcv : Received) : Prop :=
  origin_local (recv_where_from rcv) = true
  \/ ADF_IsAllowed w (remote_ip_of rcv) = true.

(** The expected length of step 3. *)
Definition expected_length_of (rcv : Received) : Z :=
  if recv_status rcv >=? offsetof_CMD_Request_data hd
  then PKL_CommandLength hd (recv_rx_message rcv) else 0.

(** Step 4: header sanity. *)
Definition header_sane (rcv : Received) : Prop :=
  offsetof_CMD_Request_data hd <= expected_length_of rcv
  /\ offsetof_CMD_Reply_data hd <= recv_status rcv
  /\ rx_pkt_type (recv_rx_message rcv) = PKT_TYPE_CMD_REQUEST hd
  /\ rx_res1 (recv_rx_message rcv) = 0
  /\ rx_res2 (recv_rx_message rcv) = 0.

(** Step 5: the protocol version is the current one. *)
Definition version_current (rcv : Received) : Prop :=
  rx_version (recv_rx_message rcv) = PROTO_VERSION_NUMBER hd.

(** The opcode of the request. *)
Definition command_of (rcv : Received) : Z :=
  ntohs (rx_command (recv_rx_message rcv)).

(** Step 6: the opcode is below the total opcode count. *)
Definition command_known (rcv : Received) : Prop :=
  command_of rcv < N_REQUEST_TYPES hd.

(** Step 7: the received length covers the expected length. *)
Definition length_sufficient (rcv : Received) : Prop :=
  expected_length_of rcv <= recv_status rcv.

(** Steps 1 to 4. *)
Definition well_formed (w : World) (st : State) (sock_fd : Z) (rcv : Received) : Prop :=
  source_present st sock_fd rcv /\ access_granted w rcv /\ header_sane rcv.

(** Steps 1 to 7: source present, access filter, header sanity, version,
    opcode, length. *)
Definition passes_validation (w : World) (st : State) (sock_fd : Z) (rcv : Received)
  : Prop :=
  well_formed w st sock_fd rcv
  /\ version_current rcv /\ command_known rcv /\ length_sufficient rcv.

(** The time the dispatcher logs accesses with. *)
Definition log_time (w : World) : Z := tv_sec (fst (SCH_GetLastEventTime w)).

End Validation.

(** ** A concrete setting

    An instance of the parameters, used to run the model on explicit
    inputs. *)
Module Sample.

(** Modelled from the spec: the offset of the payload in a request and in a
    reply, which candm.h (not among the sources) fixes.  By the wire
    format of spec section 6 a request header is version, pkt_type, res1,
    res2 (one byte each), command and attempt (two bytes each), sequence,
    utoken and token (four bytes each) and 16 bytes of auth: 36 bytes; a
    reply header is four single bytes, command, reply tag, status and
    pad1 to pad3 (two bytes each) and sequence, pad4 and pad5 (four bytes
    each): 28 bytes. *)
Definition request_header_size : Z := 36.
Definition reply_header_size : Z := 28.

(** A layout of the request union in which every payload starts with its
    address (or mask and address) and continues with its numbers. *)
Definition layout (f : Req.field) : Z :=
  match f with
  | Req.online_address | Req.offline_address | Req.burst_address => 20
  | Req.burst_n_good_samples => 40
  | Req.burst_n_total_samples => 44
  | Req.modify_minpoll_new_minpoll | Req.modify_maxpoll_new_maxpoll
  | Req.modify_maxdelay_new_max_delay
  | Req.modify_maxdelayratio_new_max_delay_ratio
  | Req.modify_maxdelaydevratio_new_max_delay_dev_ratio
  | Req.modify_minstratum_new_min_stratum
  | Req.modify_polltarget_new_poll_target => 20
  | Req.modify_makestep_threshold => 4
  | Req.local_stratum => 4
  | Req.allow_deny_subnet_bits => 20
  | Req.ntp_source_port => 20
  | Req.ntp_source_minpoll => 24
  | Req.ntp_source_maxpoll => 28
  | Req.ntp_source_presend_minpoll => 32
  | Req.ntp_source_authkey => 36
  | Req.ntp_source_max_delay => 40
  | Req.ntp_source_max_delay_ratio => 44
  | Req.ntp_source_flags => 48
  | Req.doffset_usec => 4
  | Req.client_accesses_by_index_n_indices => 4
  | _ => 0
  end.


Definition headers_with (request_header : Z) (command_length : CMD_Request -> Z)
    (offsets : Req.field -> Z) : Headers :=
  {| PROTO_VERSION_NUMBER := 6;
     PROTO_VERSION_MISMATCH_COMPAT_SERVER := 5;
     PKT_TYPE_CMD_REQUEST := 1;
     PKT_TYPE_CMD_REPLY := 2;
     N_REQUEST_TYPES := 54;
     MAX_PADDING_LENGTH := 16;
     MAX_CLIENT_ACCESSES := 8;
     MAX_MANUAL_LIST_SAMPLES := 16;
     offsetof_CMD_Request_data := request_header;
     offsetof_CMD_Reply_data := reply_header_size;
     offsetof_data := offsets;
     REQ_ADDSRC_ONLINE := 1;
     REQ_ADDSRC_AUTOOFFLINE := 2;
     REQ_ADDSRC_IBURST := 4;
     REQ_ADDSRC_PREFER := 8;
     REQ_ADDSRC_NOSELECT := 16;
     REQ_SMOOTHTIME_RESET := 0;
     REQ_SMOOTHTIME_ACTIVATE := 1;
     RPY_SD_ST_SYNC := 0;
     RPY_SD_ST_UNREACH := 1;
     RPY_SD_ST_FALSETICKER := 2;
     RPY_SD_ST_JITTERY := 3;
     RPY_SD_ST_CANDIDATE := 4;
     RPY_SD_ST_OUTLIER := 5;
     RPY_SD_MD_CLIENT := 0;
     RPY_SD_MD_PEER := 1;
     RPY_SD_MD_REF := 2;
     RPY_SD_FLAG_PREFER := 2;
     RPY_SD_FLAG_NOSELECT := 1;
     RPY_SMT_FLAG_ACTIVE := 1;
     RPY_SMT_FLAG_LEAPONLY := 2;
     PKL_CommandLength := command_length;
     PKL_CommandPaddingLength := fun _ => 0;
     PKL_ReplyLength := fun _ => reply_header_size;
     SRC_DEFAULT_MINSTRATUM := 0;
     SRC_DEFAULT_POLLTARGET := 6;
     SRC_DEFAULT_MAXDELAYDEVRATIO := D_const 10 1;
     SRC_DEFAULT_MAXSOURCES := 4;
     SRC_DEFAULT_MINSAMPLES := 0;
     SRC_DEFAULT_MAXSAMPLES := 0;
     NTP_VERSION := 4;
     sizeof_sockaddr_all := 112;
     sizeof_sa_family := 2;
     sizeof_sun_path := 108 |}.

(** Every command is as long as the request header and 64 payload bytes. *)
Definition headers : Headers :=
  headers_with request_header_size (fun _ => request_header_size + 64) layout.



Definition no_client : RPT_ClientAccessByIndex_Report.t :=
  {| RPT_ClientAccessByIndex_Report.ip_addr := IPADDR_UNSPEC;
     RPT_ClientAccessByIndex_Report.client_hits := 0;
     RPT_ClientAccessByIndex_Report.peer_hits := 0;
     RPT_ClientAccessByIndex_Report.cmd_hits_auth := 0;
     RPT_ClientAccessByIndex_Report.cmd_hits_normal := 0;
     RPT_ClientAccessByIndex_Report.cmd_hits_bad := 0;
     RPT_ClientAccessByIndex_Report.last_ntp_hit_ago := 0;
     RPT_ClientAccessByIndex_Report.last_cmd_hit_ago := 0 |}.

Definition client (n : Z) : RPT_ClientAccessByIndex_Report.t :=
  {| RPT_ClientAccessByIndex_Report.ip_addr := IPADDR_INET4 (0xc0000200 + n);
     RPT_ClientAccessByIndex_Report.client_hits := n;
     RPT_ClientAccessByIndex_Report.peer_hits := 0;
     RPT_ClientAccessByIndex_Report.cmd_hits_auth := 0;
     RPT_ClientAccessByIndex_Report.cmd_hits_normal := 1;
     RPT_ClientAccessByIndex_Report.cmd_hits_bad := 0;
     RPT_ClientAccessByIndex_Report.last_ntp_hit_ago := 10;
     RPT_ClientAccessByIndex_Report.last_cmd_hit_ago := 20 |}.

(** A client log that is not active. *)
Definition inactive_log (index now : Z)
  : CLG_Status * RPT_ClientAccessByIndex_Report.t * Z :=
  (CLG_INACTIVE, no_client, 0).

(** A client log of size 6 with rows at indices 2 and 5. *)
Definition log_2_5 (index now : Z)
  : CLG_Status * RPT_ClientAccessByIndex_Report.t * Z :=
  if (index =? 2) || (index =? 5) then (CLG_SUCCESS, client index, 6)
  else (CLG_INDEXTOOLARGE, no_client, 6).

(** A daemon without sources, with manual mode, smoothing and the RTC
    switched off, whose CIDR table allows nobody, and with the given
    client log. *)
Definition world_with
    (clg : Z -> Z -> CLG_Status * RPT_ClientAccessByIndex_Report.t * Z) : World :=
  {| SCH_GetLastEventTime :=
       ({| tv_sec := 1000; tv_usec := 0 |}, {| tv_sec := 1000; tv_usec := 5 |});
     ADF_IsAllowed := fun _ => false;
     ADF_Allow := fun _ _ => ADF_SUCCESS;
     ADF_AllowAll := fun _ _ => ADF_SUCCESS;
     ADF_Deny := fun _ _ => ADF_SUCCESS;
     ADF_DenyAll := fun _ _ => ADF_SUCCESS;
     NCR_AddAccessRestriction := fun _ _ _ _ => true;
     NCR_CheckAccessRestriction := fun _ => false;
     NSR_TakeSourcesOnline := fun _ _ => false;
     NSR_TakeSourcesOffline := fun _ _ => false;
     NSR_InitiateSampleBurst := fun _ _ _ _ => false;
     NSR_ModifyMinpoll := fun _ _ => false;
     NSR_ModifyMaxpoll := fun _ _ => false;
     NSR_ModifyMaxdelay := fun _ _ => false;
     NSR_ModifyMaxdelayratio := fun _ _ => false;
     NSR_ModifyMaxdelaydevratio := fun _ _ => false;
     NSR_ModifyMinstratum := fun _ _ => false;
     NSR_ModifyPolltarget := fun _ _ => false;
     NSR_AddSource := fun _ _ _ => NSR_Success;
     NSR_RemoveSource := fun _ => NSR_NoSuchSource;
     NSR_ReportSource := fun r _ => r;
     NSR_GetActivityReport :=
       {| RPT_ActivityReport.online := 0; RPT_ActivityReport.offline := 0;
          RPT_ActivityReport.burst_online := 0; RPT_ActivityReport.burst_offline := 0;
          RPT_ActivityReport.unresolved := 0 |};
     SRC_ReadNumberOfSources := 0;
     SRC_ReportSource := fun _ _ => None;
     SRC_GetType := fun _ => SRC_NTP;
     SRC_ReportSourcestats := fun _ _ => None;
     RCL_ReportSource := fun r _ => r;
     REF_GetTrackingReport :=
       {| RPT_TrackingReport.ref_id := 0;
          RPT_TrackingReport.ip_addr := IPADDR_UNSPEC;
          RPT_TrackingReport.stratum := 0;
          RPT_TrackingReport.leap_status := 0;
          RPT_TrackingReport.ref_time := {| tv_sec := 0; tv_usec := 0 |};
          RPT_TrackingReport.current_correction := D_value 0;
          RPT_TrackingReport.last_offset := D_value 1;
          RPT_TrackingReport.rms_offset := D_value 2;
          RPT_TrackingReport.freq_ppm := D_value 3;
          RPT_TrackingReport.resid_freq_ppm := D_value 4;
          RPT_TrackingReport.skew_ppm := D_value 5;
          RPT_TrackingReport.root_delay := D_value 6;
          RPT_TrackingReport.root_dispersion := D_value 7;
          RPT_TrackingReport.last_update_interval := D_value 8 |};
     MNL_IsEnabled := false;
     MNL_AcceptTimestamp := fun _ => None;
     MNL_ReportSamples := fun _ => [];
     MNL_DeleteSample := fun _ => false;
     SMT_IsEnabled := false;
     SMT_GetSmoothingReport := fun _ => None;
     RTC_WriteParameters := RTC_ST_NODRV;
     RTC_Trim := false;
     RTC_GetReport := None;
     LCL_MakeStep := true;
     CLG_GetClientAccessReportByIndex := clg |}.

Definition world : World := world_with log_2_5.
Definition inactive_world : World := world_with inactive_log.

Definition state : State :=
  {| sock_fdu := 5; sock_fd4 := 3; sock_fd6 := 4; initialised := 1 |}.

Definition sys : Sys :=
  {| socket := fun f => match f with AF_INET => 3 | AF_INET6 => 4 | _ => 5 end;
     setsockopt := fun _ _ => 0;
     bind_socket := fun _ _ => 0;
     CNF_GetCommandPort := 323;
     CNF_GetBindCommandAddress := fun _ => IPADDR_UNSPEC;
     CNF_GetBindCommandPath := "/var/run/chrony/chronyd.sock";
     uninitialised_request :=
       {| rx_version := 0; rx_pkt_type := 0; rx_res1 := 0; rx_res2 := 0;
          rx_command := 0; rx_attempt := 0; rx_sequence := 0; rx_data := [] |} |}.

(** A request of protocol version [version] with opcode [command],
    sequence number 77 and payload [data]. *)
Definition request (version command : Z) (data : list Z) : CMD_Request :=
  {| rx_version := version; rx_pkt_type := 1; rx_res1 := 0; rx_res2 := 0;
     rx_command := command; rx_attempt := 0; rx_sequence := 77; rx_data := data |}.

(** A datagram of 100 bytes from [where_from]. *)
Definition received (where_from : sockaddr_all) (rx : CMD_Request) : Received :=
  {| recv_status := 100; recv_rx_message := rx; recv_where_from := where_from;
     recv_from_length := 16 |}.

Definition unix_client : sockaddr_all := sockaddr_un "/var/run/chrony/chronyc.1.sock".
Definition loopback4 : sockaddr_all := sockaddr_in INADDR_LOOPBACK 40000.
Definition loopback6 : sockaddr_all := sockaddr_in6 in6addr_loopback 40000.
(** 192.0.2.7 *)
Definition remote4 : sockaddr_all := sockaddr_in 0xc0000207 40000.

(** The payload of CLIENT-ACCESSES-BY-INDEX with the given first index and
    count, in [layout]. *)
Definition by_index (first_index n_indices : Z) : list Z :=
  [0; 0; 0; first_index; 0; 0; 0; n_indices].


End Sample.

(** ** Notions used in the statements *)

(** A trace without replies, handler calls and client-log records. *)
Definition quiet (tr : list Event) : Prop :=
  replies tr = [] /\ handlers_invoked tr = [] /\ client_log tr = [].

(** Two replies with the same header fields apart from tag and status. *)
Definition same_header (a b : CMD_Reply) : Prop :=
  tx_version a = tx_version b /\ tx_pkt_type a = tx_pkt_type b
  /\ tx_res1 a = tx_res1 b /\ tx_res2 a = tx_res2 b
  /\ tx_command a = tx_command b
  /\ tx_pad1 a = tx_pad1 b /\ tx_pad2 a = tx_pad2 b /\ tx_pad3 a = tx_pad3 b
  /\ tx_sequence a = tx_sequence b
  /\ tx_pad4 a = tx_pad4 b /\ tx_pad5 a = tx_pad5 b.

(** A computation with a quiet trace that keeps the header. *)
Definition tame {A : Type} (m : H A) : Prop :=
  forall tx,
    quiet (fst (m tx))
    /\ match snd (m tx) with
       | Value _ tx' => same_header tx tx'
       | Abort => True
       end.

(** Opcodes that the dispatcher answers itself, without a handler. *)
Definition answered_inline (cmd : option REQ) : bool :=
  match cmd with
  | Some REQ_NULL | Some REQ_LOGON => true
  | _ => false
  end.

(** Opcodes without a case in the [switch] of the dispatcher. *)
Definition no_case (cmd : option REQ) : bool :=
  match cmd with
  | Some REQ_SUBNETS_ACCESSED | Some REQ_CLIENT_ACCESSES | None => true
  | _ => false
  end.

(** What is stored in member [m] of a slot of the CLIENT-ACCESSES-BY-INDEX
    reply for the row [report]. *)
Definition wire_of_client_member (m : Rpy.client_member)
    (report : RPT_ClientAccessByIndex_Report.t) : wire :=
  match m with
  | Rpy.ip => UTI_IPHostToNetwork (RPT_ClientAccessByIndex_Report.ip_addr report)
  | Rpy.client_hits => W_u32 (htonl (RPT_ClientAccessByIndex_Report.client_hits report))
  | Rpy.peer_hits => W_u32 (htonl (RPT_ClientAccessByIndex_Report.peer_hits report))
  | Rpy.cmd_hits_auth =>
      W_u32 (htonl (RPT_ClientAccessByIndex_Report.cmd_hits_auth report))
  | Rpy.cmd_hits_normal =>
      W_u32 (htonl (RPT_ClientAccessByIndex_Report.cmd_hits_normal report))
  | Rpy.cmd_hits_bad => W_u32 (htonl (RPT_ClientAccessByIndex_Report.cmd_hits_bad report))
  | Rpy.last_ntp_hit_ago =>
      W_u32 (htonl (RPT_ClientAccessByIndex_Report.last_ntp_hit_ago report))
  | Rpy.last_cmd_hit_ago =>
      W_u32 (htonl (RPT_ClientAccessByIndex_Report.last_cmd_hit_ago report))
  end.

(** The rows that the client log holds at the [count] indices from
    [index] on, in order. *)
Fixpoint rows_found (w : World) (now : Z) (count : nat) (index : Z)
  : list RPT_ClientAccessByIndex_Report.t :=
  match count with
  | O => []
  | S count' =>
      match CLG_GetClientAccessReportByIndex w index now with
      | (CLG_SUCCESS, report, _) => report :: rows_found w now count' (index + 1)
      | _ => rows_found w now count' (index + 1)
      end
  end.

(** The client log is active: at each of the [count] indices from [index]
    on it either has a row or reports that the index is too large. *)
Definition log_active (w : World) (now : Z) (count : nat) (index : Z) : Prop :=
  forall k,
    0 <= k < Z.of_nat count ->
    fst (fst (CLG_GetClientAccessReportByIndex w (index + k) now)) = CLG_SUCCESS
    \/ fst (fst (CLG_GetClientAccessReportByIndex w (index + k) now))
       = CLG_INDEXTOOLARGE.

(** The first index and the count of a CLIENT-ACCESSES-BY-INDEX request,
    and the number of indices the handler visits: the count clamped to
    the implementation maximum. *)
Definition requested_first (hd : Headers) (rx : CMD_Request) : Z :=
  ntohl (member_u32 hd rx Req.client_accesses_by_index_first_index).

Definition requested_count (hd : Headers) (rx : CMD_Request) : Z :=
  ntohl (member_u32 hd rx Req.client_accesses_by_index_n_indices).

Definition visited (hd : Headers) (rx : CMD_Request) : nat :=
  Z.to_nat (Z.min (requested_count hd rx) (MAX_CLIENT_ACCESSES hd)).

(** A member of the reply union that the loop started with [j] packed
    rows does not write. *)
Definition below_slot (j : Z) (f : Rpy.field) : Prop :=
  match f with
  | Rpy.client_accesses_by_index_n_indices => False
  | Rpy.client_accesses_by_index_clients j' _ => j' < j
  | _ => True
  end.




(** The eight writes that pack a row into slot [j]. *)
Definition pack_row (j : Z) (report : RPT_ClientAccessByIndex_Report.t)
    (tx : CMD_Reply) : CMD_Reply :=
  with_data (Rpy.client_accesses_by_index_clients j Rpy.last_cmd_hit_ago)
    (wire_of_client_member Rpy.last_cmd_hit_ago report)
    (with_data (Rpy.client_accesses_by_index_clients j Rpy.last_ntp_hit_ago)
       (wire_of_client_member Rpy.last_ntp_hit_ago report)
       (with_data (Rpy.client_accesses_by_index_clients j Rpy.cmd_hits_bad)
          (wire_of_client_member Rpy.cmd_hits_bad report)
          (with_data (Rpy.client_accesses_by_index_clients j Rpy.cmd_hits_normal)
             (wire_of_client_member Rpy.cmd_hits_normal report)
             (with_data (Rpy.client_accesses_by_index_clients j Rpy.cmd_hits_auth)
                (wire_of_client_member Rpy.cmd_hits_auth report)
                (with_data (Rpy.client_accesses_by_index_clients j Rpy.peer_hits)
                   (wire_of_client_member Rpy.peer_hits report)
                   (with_data (Rpy.client_accesses_by_index_clients j Rpy.client_hits)
                      (wire_of_client_member Rpy.client_hits report)
                      (with_data (Rpy.client_accesses_by_index_clients j Rpy.ip)
                         (wire_of_client_member Rpy.ip report) tx))))))).

(** ** The paths of the dispatcher *)

(** The two records that the dispatcher makes in the client log. *)
Definition logged_bad (w : World) (rcv : Received) : Event :=
  CLG_LogCommandAccess (remote_ip_of rcv) CLG_CMD_BAD_PKT (log_time w).

Definition logged_normal (w : World) (rcv : Received) : Event :=
  CLG_LogCommandAccess (remote_ip_of rcv) CLG_CMD_NORMAL (log_time w).

(** The datagram [msg] sent back to the source of [rcv] through the
    descriptor [sock_fd]. *)
Definition sent_back (hd : Headers) (sock_fd : Z) (rcv : Received) (msg : CMD_Reply)
  : Event :=
  Sendto sock_fd msg (PKL_ReplyLength hd msg) (recv_where_from rcv).

(** The datagram came from an address of a recognised family, but not on
    the socket of that family. *)
Definition misdelivered (st : State) (sock_fd : Z) (where_from : sockaddr_all) : Prop :=
  match where_from with
  | sockaddr_in _ _ => sock_fd <> sock_fd4 st
  | sockaddr_in6 _ _ => sock_fd <> sock_fd6 st
  | sockaddr_un _ => sock_fd <> sock_fdu st
  | sockaddr_sa _ => False
  end.

(** No usable source address came with the datagram. *)
Definition source_missing (hd : Headers) (rcv : Received) : Prop :=
  sizeof_sockaddr_all hd < recv_from_length rcv
  \/ recv_from_length rcv <= sizeof_sa_family hd
  \/ exists family, recv_where_from rcv = sockaddr_sa family.

(** Why a well-formed packet is answered with the error status [s]. *)
Definition rejection (hd : Headers) (rcv : Received) (s : STT) : Prop :=
  (s = STT_BADPKTVERSION
   /\ ~ version_current hd rcv
   /\ PROTO_VERSION_MISMATCH_COMPAT_SERVER hd <= rx_version (recv_rx_message rcv))
  \/ (s = STT_INVALID /\ version_current hd rcv /\ ~ command_known hd rcv)
  \/ (s = STT_BADPKTLENGTH /\ version_current hd rcv /\ command_known hd rcv
      /\ ~ length_sufficient hd rcv).

(** The ways through [read_from_cmd_socket], each with the condition under
    which it is taken and with what it does. *)
Inductive Path (hd : Headers) (w : World) (st : State) (sock_fd : Z) (rcv : Received)
  : Outcome -> Prop :=
| Path_recv_error :
    recv_status rcv < 0 ->
    Path hd w st sock_fd rcv
      (returned [LOG LOGS_WARN "Error [%s] reading from control socket %d"])
| Path_no_source :
    0 <= recv_status rcv ->
    source_missing hd rcv ->
    Path hd w st sock_fd rcv (returned [])
| Path_wrong_socket :
    0 <= recv_status rcv ->
    misdelivered st sock_fd (recv_where_from rcv) ->
    Path hd w st sock_fd rcv (assertion_failed [])
| Path_denied :
    source_present hd st sock_fd rcv ->
    origin_local (recv_where_from rcv) = false ->
    ADF_IsAllowed w (remote_ip_of rcv) = false ->
    Path hd w st sock_fd rcv (returned [])
| Path_bad_header :
    source_present hd st sock_fd rcv ->
    access_granted w rcv ->
    ~ header_sane hd rcv ->
    Path hd w st sock_fd rcv (returned [logged_bad w rcv])
| Path_old_version :
    well_formed hd w st sock_fd rcv ->
    ~ version_current hd rcv ->
    rx_version (recv_rx_message rcv) < PROTO_VERSION_MISMATCH_COMPAT_SERVER hd ->
    Path hd w st sock_fd rcv (returned [logged_bad w rcv])
| Path_rejected (s : STT) :
    well_formed hd w st sock_fd rcv ->
    rejection hd rcv s ->
    Path hd w st sock_fd rcv
      (returned [logged_bad w rcv;
                 sent_back hd sock_fd rcv
                   (with_status s (reply_template hd (recv_rx_message rcv)))])
| Path_no_permission :
    passes_validation hd w st sock_fd rcv ->
    check_authority st sock_fd (recv_where_from rcv)
      (origin_local (recv_where_from rcv)) (command_of rcv) = None ->
    Path hd w st sock_fd rcv (assertion_failed [logged_normal w rcv])
| Path_unauthorised :
    passes_validation hd w st sock_fd rcv ->
    check_authority st sock_fd (recv_where_from rcv)
      (origin_local (recv_where_from rcv)) (command_of rcv) = Some false ->
    Path hd w st sock_fd rcv
      (returned [logged_normal w rcv;
                 sent_back hd sock_fd rcv
                   (with_status STT_UNAUTH (reply_template hd (recv_rx_message rcv)))])
| Path_aborted (tr : list Event) :
    passes_validation hd w st sock_fd rcv ->
    check_authority st sock_fd (recv_where_from rcv)
      (origin_local (recv_where_from rcv)) (command_of rcv) = Some true ->
    dispatch hd w (request_type (command_of rcv)) (recv_rx_message rcv)
      (reply_template hd (recv_rx_message rcv)) = (tr, Abort) ->
    Path hd w st sock_fd rcv (assertion_failed (logged_normal w rcv :: tr))
| Path_answered (tr : list Event) (tx_message : CMD_Reply) :
    passes_validation hd w st sock_fd rcv ->
    check_authority st sock_fd (recv_where_from rcv)
      (origin_local (recv_where_from rcv)) (command_of rcv) = Some true ->
    dispatch hd w (request_type (command_of rcv)) (recv_rx_message rcv)
      (reply_template hd (recv_rx_message rcv)) = (tr, Value tt tx_message) ->
    Path hd w st sock_fd rcv
      (returned (logged_normal w rcv :: tr ++ [sent_back hd sock_fd rcv tx_message])).

(** The opcodes whose entry in [permissions] is [PERMIT_OPEN]. *)
Definition open_to_all (cmd : option REQ) : bool :=
  match cmd with
  | Some REQ_NULL | Some REQ_LOGON | Some REQ_N_SOURCES | Some REQ_SOURCE_DATA
  | Some REQ_TRACKING | Some REQ_SOURCESTATS | Some REQ_RTCREPORT
  | Some REQ_MANUAL_LIST | Some REQ_ACTIVITY | Some REQ_SMOOTHING => true
  | _ => false
  end.

(** What is stored in member [m] of a slot of the MANUAL-LIST reply for
    the sample [r]. *)
Definition wire_of_sample_member (m : Rpy.sample_member)
    (r : RPT_ManualSamplesReport.t) : wire :=
  match m with
  | Rpy.when => UTI_TimevalHostToNetwork (RPT_ManualSamplesReport.when r)
  | Rpy.slewed_offset => UTI_FloatHostToNetwork (RPT_ManualSamplesReport.slewed_offset r)
  | Rpy.orig_offset => UTI_FloatHostToNetwork (RPT_ManualSamplesReport.orig_offset r)
  | Rpy.residual => UTI_FloatHostToNetwork (RPT_ManualSamplesReport.residual r)
  end.

(** The four writes that pack a sample into slot [i]. *)
Definition pack_sample (i : Z) (r : RPT_ManualSamplesReport.t) (tx : CMD_Reply)
  : CMD_Reply :=
  with_data (Rpy.manual_list_samples i Rpy.residual)
    (wire_of_sample_member Rpy.residual r)
    (with_data (Rpy.manual_list_samples i Rpy.orig_offset)
       (wire_of_sample_member Rpy.orig_offset r)
       (with_data (Rpy.manual_list_samples i Rpy.slewed_offset)
          (wire_of_sample_member Rpy.slewed_offset r)
          (with_data (Rpy.manual_list_samples i Rpy.when)
             (wire_of_sample_member Rpy.when r) tx))).

(** A member of the reply union that is not a sample slot from [i] on. *)
Definition below_sample (i : Z) (f : Rpy.field) : Prop :=
  match f with
  | Rpy.manual_list_samples i' _ => i' < i
  | _ => True
  end.

(** ** Observations on the system calls of initialisation and shutdown *)

(** The system calls of a trace, without its log messages. *)
Definition syscalls (tr : list (Event + Syscall)) : list Syscall :=
  flat_map (fun e => match e with inr s => [s] | inl _ => [] end) tr.

(** The log messages of a trace. *)
Definition logged (tr : list (Event + Syscall)) : list Event :=
  flat_map (fun e => match e with inl l => [l] | inr _ => [] end) tr.

(** The descriptors that the calls of [socket] in a trace returned. *)
Definition opened (sys : Sys) (tr : list (Event + Syscall)) : list Z :=
  flat_map (fun e => match e with
                     | inr (sys_socket family) =>
                         if socket sys family <? 0 then [] else [socket sys family]
                     | _ => []
                     end) tr.

(** The descriptors that a trace closes. *)
Definition closed (tr : list (Event + Syscall)) : list Z :=
  flat_map (fun e => match e with inr (sys_close fd) => [fd] | _ => [] end) tr.

(** The descriptors for which a trace registers the dispatcher with the
    scheduler, and those for which it removes it. *)
Definition registered (tr : list (Event + Syscall)) : list Z :=
  flat_map (fun e => match e with
                     | inr (sys_SCH_AddInputFileHandler fd) => [fd]
                     | _ => []
                     end) tr.

Definition removed (tr : list (Event + Syscall)) : list Z :=
  flat_map (fun e => match e with
                     | inr (sys_SCH_RemoveInputFileHandler fd) => [fd]
                     | _ => []
                     end) tr.

(** The descriptor [fd] if it is one, as a list. *)
Definition descriptor (fd : Z) : list Z := if fd <? 0 then [] else [fd].

(** [sys] with other answers of [setsockopt]. *)
Definition with_setsockopt (answers : Z -> string -> Z) (sys : Sys) : Sys :=
  {| socket := socket sys;
     setsockopt := answers;
     bind_socket := bind_socket sys;
     CNF_GetCommandPort := CNF_GetCommandPort sys;
     CNF_GetBindCommandAddress := CNF_GetBindCommandAddress sys;
     CNF_GetBindCommandPath := CNF_GetBindCommandPath sys;
     uninitialised_request := uninitialised_request sys |}.

(** What a trace leaves behind for the descriptor [fd] it reports: the
    sockets it created are closed again, except [fd] if that is a
    descriptor, which is registered with the scheduler. *)
Definition balanced (sys : Sys) (tr : list (Event + Syscall)) (fd : Z) : Prop :=
  opened sys tr = closed tr ++ descriptor fd
  /\ registered tr = descriptor fd
  /\ removed tr = [].

(** ** Numbers on the wire *)

(** The four bytes of the 32-bit two's complement of [z] in network
    order: what a client stores with [htonl] in a 32-bit member. *)
Definition be32_bytes (z : Z) : list Z :=
  [(z / 2 ^ 24) mod 256; (z / 2 ^ 16) mod 256; (z / 2 ^ 8) mod 256; z mod 256].

(** The member of the reply union [CMD_Reply.data] that a field belongs
    to, named by the reply tag of that payload: [data.tracking.ref_id]
    belongs to the payload of [RPY_TRACKING]. *)
Definition payload_of (f : Rpy.field) : RPY :=
  match f with
  | Rpy.n_sources_n_sources => RPY_N_SOURCES
  | Rpy.source_data_ip_addr | Rpy.source_data_stratum | Rpy.source_data_poll
  | Rpy.source_data_state | Rpy.source_data_mode | Rpy.source_data_flags
  | Rpy.source_data_reachability | Rpy.source_data_since_sample
  | Rpy.source_data_orig_latest_meas | Rpy.source_data_latest_meas
  | Rpy.source_data_latest_meas_err => RPY_SOURCE_DATA
  | Rpy.manual_timestamp_centiseconds | Rpy.manual_timestamp_dfreq_ppm
  | Rpy.manual_timestamp_new_afreq_ppm => RPY_MANUAL_TIMESTAMP
  | Rpy.tracking_ref_id | Rpy.tracking_ip_addr | Rpy.tracking_stratum
  | Rpy.tracking_leap_status | Rpy.tracking_ref_time | Rpy.tracking_current_correction
  | Rpy.tracking_last_offset | Rpy.tracking_rms_offset | Rpy.tracking_freq_ppm
  | Rpy.tracking_resid_freq_ppm | Rpy.tracking_skew_ppm | Rpy.tracking_root_delay
  | Rpy.tracking_root_dispersion | Rpy.tracking_last_update_interval => RPY_TRACKING
  | Rpy.smoothing_flags | Rpy.smoothing_offset | Rpy.smoothing_freq_ppm
  | Rpy.smoothing_wander_ppm | Rpy.smoothing_last_update_ago
  | Rpy.smoothing_remaining_time => RPY_SMOOTHING
  | Rpy.sourcestats_ref_id | Rpy.sourcestats_ip_addr | Rpy.sourcestats_n_samples
  | Rpy.sourcestats_n_runs | Rpy.sourcestats_span_seconds
  | Rpy.sourcestats_resid_freq_ppm | Rpy.sourcestats_skew_ppm | Rpy.sourcestats_sd
  | Rpy.sourcestats_est_offset | Rpy.sourcestats_est_offset_err => RPY_SOURCESTATS
  | Rpy.rtc_ref_time | Rpy.rtc_n_samples | Rpy.rtc_n_runs | Rpy.rtc_span_seconds
  | Rpy.rtc_rtc_seconds_fast | Rpy.rtc_rtc_gain_rate_ppm => RPY_RTC
  | Rpy.client_accesses_by_index_n_indices | Rpy.client_accesses_by_index_next_index
  | Rpy.client_accesses_by_index_n_clients
  | Rpy.client_accesses_by_index_clients _ _ => RPY_CLIENT_ACCESSES_BY_INDEX
  | Rpy.manual_list_n_samples | Rpy.manual_list_samples _ _ => RPY_MANUAL_LIST
  | Rpy.activity_online | Rpy.activity_offline | Rpy.activity_burst_online
  | Rpy.activity_burst_offline | Rpy.activity_unresolved => RPY_ACTIVITY
  end.

(** * Properties *)

(** ** Bytes and addresses *)

Lemma byte_at_mod (buf : list Z) (i : Z) : byte_at buf i mod 256 = byte_at buf i.
Proof.
  unfold byte_at. destruct (i <? 0); [reflexivity |].
  apply Z.mod_mod. lia.
Qed.

Lemma bytes_at_length (buf : list Z) (off : Z) (n : nat) :
  List.length (bytes_at buf off n) = n.
Proof. unfold bytes_at. now rewrite length_map, length_seq. Qed.

Lemma byte_at_bytes_at (buf : list Z) (n k : nat) :
  (k < n)%nat -> byte_at (bytes_at buf 0 n) (Z.of_nat k) = byte_at buf (Z.of_nat k).
Proof.
  intros Hk. unfold byte_at at 1.
  destruct (Z.of_nat k <? 0) eqn:E; [apply Z.ltb_lt in E; lia |].
  rewrite Nat2Z.id. unfold bytes_at.
  rewrite nth_indep with (d' := byte_at buf (0 + Z.of_nat 0))
    by (rewrite length_map, length_seq; exact Hk).
  rewrite (map_nth (fun j => byte_at buf (0 + Z.of_nat j)) (seq 0 n) 0%nat k).
  rewrite seq_nth by exact Hk. cbn [Nat.add Z.add].
  apply byte_at_mod.
Qed.

Lemma bytes_at_idem (buf : list Z) (n : nat) :
  bytes_at (bytes_at buf 0 n) 0 n = bytes_at buf 0 n.
Proof.
  unfold bytes_at at 1 3. apply map_ext_in. intros k Hk.
  apply in_seq in Hk. cbn [Z.add]. apply byte_at_bytes_at. lia.
Qed.

(** The loopback test of the dispatcher is the one of [origin_local]. *)
Lemma memcmp_loopback (a : list Z) :
  memcmp_eq (bytes_at a 0 16) in6addr_loopback 16
  = bytes_eqb (bytes_at a 0 16) in6addr_loopback.
Proof. unfold memcmp_eq. now rewrite bytes_at_idem. Qed.

(** ** Traces *)

Lemma replies_app (a b : list Event) : replies (a ++ b) = replies a ++ replies b.
Proof. apply flat_map_app. Qed.

Lemma handlers_invoked_app (a b : list Event) :
  handlers_invoked (a ++ b) = handlers_invoked a ++ handlers_invoked b.
Proof. apply flat_map_app. Qed.

Lemma collaborator_calls_app (a b : list Event) :
  collaborator_calls (a ++ b) = collaborator_calls a ++ collaborator_calls b.
Proof. apply flat_map_app. Qed.

Lemma client_log_app (a b : list Event) :
  client_log (a ++ b) = client_log a ++ client_log b.
Proof. apply flat_map_app. Qed.

(** ** Classification of the source *)

(** Where [read_from_cmd_socket] hands over to [process_request]. *)
Lemma read_from_cmd_socket_local (hd : Headers) (w : World) (st : State)
    (sock_fd : Z) (rcv : Received) :
  source_present hd st sock_fd rcv ->
  read_from_cmd_socket hd w st sock_fd rcv
  = process_request hd w st sock_fd (recv_status rcv) (recv_rx_message rcv)
      (recv_where_from rcv) (remote_ip_of rcv) (origin_local (recv_where_from rcv))
      (fst (SCH_GetLastEventTime w)).
Proof.
  intros (Hs & (Hlo & Hhi) & Harr).
  unfold read_from_cmd_socket, remote_ip_of.
  destruct (recv_status rcv <? 0) eqn:E1; [apply Z.ltb_lt in E1; lia |].
  destruct (recv_from_length rcv >? sizeof_sockaddr_all hd) eqn:E2;
    [rewrite Z.gtb_ltb in E2; apply Z.ltb_lt in E2; lia |].
  destruct (recv_from_length rcv <=? sizeof_sa_family hd) eqn:E3;
    [apply Z.leb_le in E3; lia |].
  cbn [orb]. destruct (SCH_GetLastEventTime w) as [cooked_now now].
  destruct (recv_where_from rcv) as [a p | a p | path | f];
    cbn [UTI_SockaddrToIPAndPort fst sa_family origin_local arrived_on] in Harr |- *.
  - rewrite Harr, Z.eqb_refl. reflexivity.
  - rewrite Harr, Z.eqb_refl, memcmp_loopback. reflexivity.
  - rewrite Harr, Z.eqb_refl. reflexivity.
  - contradiction.
Qed.

(** ** What every handler leaves alone *)

Lemma same_header_refl (tx : CMD_Reply) : same_header tx tx.
Proof. unfold same_header. tauto. Qed.

Lemma same_header_trans (a b c : CMD_Reply) :
  same_header a b -> same_header b c -> same_header a c.
Proof. unfold same_header. intuition congruence. Qed.

Lemma quiet_nil : quiet [].
Proof. repeat split. Qed.

Lemma quiet_app (a b : list Event) : quiet a -> quiet b -> quiet (a ++ b).
Proof.
  intros (A1 & A2 & A3) (B1 & B2 & B3). unfold quiet.
  rewrite replies_app, handlers_invoked_app, client_log_app, A1, A2, A3, B1, B2, B3.
  repeat split.
Qed.

Lemma tame_ret {A : Type} (a : A) : tame (ret a).
Proof. intros tx. split; [apply quiet_nil | apply same_header_refl]. Qed.

Lemma tame_bind {A B : Type} (m : H A) (k : A -> H B) :
  tame m -> (forall a, tame (k a)) -> tame (bind m k).
Proof.
  intros Hm Hk tx. unfold bind.
  destruct (Hm tx) as [Q1 S1]. destruct (m tx) as [tr [a tx' |]]; cbn in *.
  - destruct (Hk a tx') as [Q2 S2]. destruct (k a tx') as [tr' r]; cbn in *.
    split; [now apply quiet_app |].
    destruct r; [eapply same_header_trans; eassumption | exact I].
  - split; [assumption | exact I].
Qed.

Lemma tame_call {R : Type} (c : Call.t) (r : R) : tame (call c r).
Proof. intros tx. split; [repeat split | apply same_header_refl]. Qed.

Lemma tame_log (s : LOG_Severity) (msg : string) : tame (emit (LOG s msg)).
Proof. intros tx. split; [repeat split | apply same_header_refl]. Qed.

Lemma tame_set_status (s : STT) : tame (set_status s).
Proof. intros tx. split; [apply quiet_nil | repeat split]. Qed.

Lemma tame_set_reply (r : RPY) : tame (set_reply r).
Proof. intros tx. split; [apply quiet_nil | repeat split]. Qed.

Lemma tame_put (f : Rpy.field) (v : wire) : tame (put f v).
Proof. intros tx. split; [apply quiet_nil | repeat split]. Qed.

Lemma tame_assert_0 {A : Type} : tame (@assert_0 A).
Proof. intros tx. split; [apply quiet_nil | exact I]. Qed.

(** Proves [tame] of a computation written with the operations above. *)
Ltac tame_step :=
  match goal with
  | |- tame (bind _ _) => apply tame_bind; [| intros ?]
  | |- tame (ret _) => apply tame_ret
  | |- tame (call _ _) => apply tame_call
  | |- tame (emit (LOG _ _)) => apply tame_log
  | |- tame (set_status _) => apply tame_set_status
  | |- tame (set_reply _) => apply tame_set_reply
  | |- tame (put _ _) => apply tame_put
  | |- tame assert_0 => apply tame_assert_0
  | |- tame (if ?c then _ else _) => destruct c
  | |- tame (match ?c with _ => _ end) => destruct c
  | |- tame (let '(_, _) := ?c in _) => destruct c
  end.

Ltac tame_tac := cbv zeta; repeat tame_step.

Section Handlers_tame.

Variable hd : Headers.
Variable w : World.

Lemma client_accesses_loop_tame (count : nat) (first_index now i j : Z) :
  tame (client_accesses_loop w count first_index now i j).
Proof.
  revert i j. induction count as [| count IH]; intros i j; cbn [client_accesses_loop].
  - apply tame_ret.
  - destruct (CLG_GetClientAccessReportByIndex w (first_index + i) now)
      as [[result report] n].
    apply tame_bind; [apply tame_put | intros _].
    destruct result; try (tame_tac; fail).
    + repeat (apply tame_bind; [apply tame_put | intros _]). apply IH.
    + apply IH.
Qed.

Lemma manual_list_loop_tame (report : list RPT_ManualSamplesReport.t) (i : Z) :
  tame (manual_list_loop report i).
Proof.
  revert i. induction report as [| r report IH]; intros i; cbn [manual_list_loop].
  - apply tame_ret.
  - repeat (apply tame_bind; [apply tame_put | intros _]). apply IH.
Qed.

(** Every handler is tame. *)
Lemma handlers_tame (h : Handler) (body : H unit) (rx : CMD_Request) :
  In (h, body)
     [ (H_dump, handle_dump rx); (H_online, handle_online hd w rx);
       (H_offline, handle_offline hd w rx); (H_burst, handle_burst hd w rx);
       (H_modify_minpoll, handle_modify_minpoll hd w rx);
       (H_modify_maxpoll, handle_modify_maxpoll hd w rx);
       (H_modify_maxdelay, handle_modify_maxdelay hd w rx);
       (H_modify_maxdelayratio, handle_modify_maxdelayratio hd w rx);
       (H_modify_maxdelaydevratio, handle_modify_maxdelaydevratio hd w rx);
       (H_modify_maxupdateskew, handle_modify_maxupdateskew hd rx);
       (H_modify_makestep, handle_modify_makestep hd rx);
       (H_settime, handle_settime hd w rx); (H_local, handle_local hd rx);
       (H_manual, handle_manual hd rx); (H_n_sources, handle_n_sources w rx);
       (H_source_data, handle_source_data hd w rx); (H_rekey, handle_rekey rx);
       (H_allowdeny 1 0, handle_allowdeny hd w rx 1 0);
       (H_allowdeny 1 1, handle_allowdeny hd w rx 1 1);
       (H_allowdeny 0 0, handle_allowdeny hd w rx 0 0);
       (H_allowdeny 0 1, handle_allowdeny hd w rx 0 1);
       (H_cmdallowdeny 1 0, handle_cmdallowdeny hd w rx 1 0);
       (H_cmdallowdeny 1 1, handle_cmdallowdeny hd w rx 1 1);
       (H_cmdallowdeny 0 0, handle_cmdallowdeny hd w rx 0 0);
       (H_cmdallowdeny 0 1, handle_cmdallowdeny hd w rx 0 1);
       (H_accheck, handle_accheck hd w rx); (H_cmdaccheck, handle_cmdaccheck hd w rx);
       (H_add_source NTP_SERVER, handle_add_source hd w NTP_SERVER rx);
       (H_add_source NTP_PEER, handle_add_source hd w NTP_PEER rx);
       (H_del_source, handle_del_source hd w rx);
       (H_writertc, handle_writertc w rx); (H_dfreq, handle_dfreq hd rx);
       (H_doffset, handle_doffset hd rx); (H_tracking, handle_tracking w rx);
       (H_smoothing, handle_smoothing hd w rx);
       (H_smoothtime, handle_smoothtime hd w rx);
       (H_sourcestats, handle_sourcestats hd w rx);
       (H_rtcreport, handle_rtcreport w rx); (H_trimrtc, handle_trimrtc w rx);
       (H_cyclelogs, handle_cyclelogs rx);
       (H_client_accesses_by_index, handle_client_accesses_by_index hd w rx);
       (H_manual_list, handle_manual_list hd w rx);
       (H_manual_delete, handle_manual_delete hd w rx);
       (H_make_step, handle_make_step w rx); (H_activity, handle_activity w rx);
       (H_reselect_distance, handle_reselect_distance hd rx);
       (H_reselect, handle_reselect rx);
       (H_modify_minstratum, handle_modify_minstratum hd w rx);
       (H_modify_polltarget, handle_modify_polltarget hd w rx);
       (H_refresh, handle_refresh rx) ] ->
  tame body.
Proof.
  intros Hin. cbn [In] in Hin.
  repeat (destruct Hin as [Hin | Hin];
          [injection Hin as _ <-;
           cbv beta delta
             [handle_dump handle_online handle_offline handle_burst
              handle_modify_minpoll handle_modify_maxpoll handle_modify_maxdelay
              handle_modify_maxdelayratio handle_modify_maxdelaydevratio
              handle_modify_maxupdateskew handle_modify_makestep handle_settime
              handle_local handle_manual handle_n_sources handle_source_data
              handle_rekey handle_allowdeny handle_cmdallowdeny
              CAM_AddAccessRestriction CAM_CheckAccessRestriction handle_accheck
              handle_cmdaccheck handle_add_source handle_del_source
              handle_writertc handle_dfreq handle_doffset handle_tracking
              handle_smoothing handle_smoothtime handle_sourcestats
              handle_rtcreport handle_trimrtc handle_cyclelogs
              handle_client_accesses_by_index handle_manual_list
              handle_manual_delete handle_make_step handle_activity
              handle_reselect_distance handle_reselect handle_modify_minstratum
              handle_modify_polltarget handle_refresh];
           tame_tac;
           try apply client_accesses_loop_tame;
           try apply manual_list_loop_tame;
           tame_tac
          |]).
  contradiction.
Qed.

End Handlers_tame.

(** ** The switch of the dispatcher *)

Lemma invoke_spec (h : Handler) (body : H unit) (tx : CMD_Reply) :
  tame body ->
  replies (fst (invoke h body tx)) = []
  /\ client_log (fst (invoke h body tx)) = []
  /\ handlers_invoked (fst (invoke h body tx)) = [h]
  /\ collaborator_calls (fst (invoke h body tx)) = collaborator_calls (fst (body tx))
  /\ match snd (invoke h body tx) with
     | Value _ tx' => same_header tx tx'
     | Abort => True
     end.
Proof.
  intros Hb. destruct (Hb tx) as [(Q1 & Q2 & Q3) S].
  unfold invoke, bind, emit. destruct (body tx) as [tr r]; cbn in *.
  rewrite Q1, Q2, Q3. repeat split; assumption.
Qed.

Section Dispatch_facts.

Variable hd : Headers.
Variable w : World.

(** The switch sends nothing and logs no access; it calls one handler,
    or none for an opcode it answers itself or has no case for (where it
    stops at [assert(0)]); and it keeps the header of the reply. *)
Lemma dispatch_spec (cmd : option REQ) (rx : CMD_Request) (tx : CMD_Reply) :
  replies (fst (dispatch hd w cmd rx tx)) = []
  /\ client_log (fst (dispatch hd w cmd rx tx)) = []
  /\ (if answered_inline cmd || no_case cmd
      then fst (dispatch hd w cmd rx tx) = []
      else exists h, handlers_invoked (fst (dispatch hd w cmd rx tx)) = [h])
  /\ (if no_case cmd then snd (dispatch hd w cmd rx tx) = Abort else True)
  /\ match snd (dispatch hd w cmd rx tx) with
     | Value _ tx' => same_header tx tx'
     | Abort => True
     end.
Proof.
  destruct cmd as [[]|]; cbn [dispatch answered_inline no_case orb];
    try (repeat split; solve [reflexivity | apply same_header_refl | exact I]);
    match goal with
    | |- context [invoke ?h ?body] =>
        assert (Hb : tame body)
          by (apply (handlers_tame hd w h body rx); cbn [In];
              repeat first [left; reflexivity | right]);
        destruct (invoke_spec h body tx Hb) as (R & L & Hh & _ & S);
        split; [exact R | split; [exact L | split; [eexists; exact Hh | split;
          [exact I | exact S]]]]
    end.
Qed.

End Dispatch_facts.

(** ** The validation pipeline *)

Section Pipeline.

Variable hd : Headers.
Variable w : World.
Variable st : State.
Variable sock_fd : Z.
Variable rcv : Received.

Let rx := recv_rx_message rcv.
Let where_from := recv_where_from rcv.
Let remote_ip := remote_ip_of rcv.
Let bad_packet := CLG_LogCommandAccess remote_ip CLG_CMD_BAD_PKT (log_time w).
Let normal_access := CLG_LogCommandAccess remote_ip CLG_CMD_NORMAL (log_time w).

(** A datagram from an origin that is not local and not allowed is
    dropped. *)
Lemma pipeline_denied :
  source_present hd st sock_fd rcv ->
  origin_local where_from = false ->
  ADF_IsAllowed w remote_ip = false ->
  read_from_cmd_socket hd w st sock_fd rcv = returned [].
Proof.
  intros Hs Hl Ha. rewrite read_from_cmd_socket_local by exact Hs.
  unfold process_request. unfold where_from, remote_ip in *. now rewrite Hl, Ha.
Qed.

(** A packet that fails header sanity is logged as bad and dropped. *)
Lemma pipeline_bad_header :
  source_present hd st sock_fd rcv ->
  access_granted w rcv ->
  ~ header_sane hd rcv ->
  read_from_cmd_socket hd w st sock_fd rcv = returned [bad_packet].
Proof.
  intros Hs Ha Hh. rewrite read_from_cmd_socket_local by exact Hs.
  unfold process_request. unfold where_from, remote_ip, rx in *.
  replace (origin_local (recv_where_from rcv) || ADF_IsAllowed w (remote_ip_of rcv))
    with true
    by (destruct Ha as [-> | ->]; [reflexivity | now rewrite orb_true_r]).
  cbn [negb]. fold (expected_length_of hd rcv).
  destruct (expected_length_of hd rcv <? offsetof_CMD_Request_data hd) eqn:E1;
    [reflexivity |].
  destruct (recv_status rcv <? offsetof_CMD_Reply_data hd) eqn:E2; [reflexivity |].
  destruct (rx_pkt_type (recv_rx_message rcv) =? PKT_TYPE_CMD_REQUEST hd) eqn:E3;
    [| reflexivity].
  destruct (rx_res1 (recv_rx_message rcv) =? 0) eqn:E4; [| reflexivity].
  destruct (rx_res2 (recv_rx_message rcv) =? 0) eqn:E5; [| reflexivity].
  exfalso. apply Hh. unfold header_sane.
  apply Z.ltb_ge in E1, E2. apply Z.eqb_eq in E3, E4, E5. tauto.
Qed.

(** Past header sanity: the version check, the opcode check and the
    length check, in this order, then the dispatch. *)
Lemma pipeline_well_formed :
  well_formed hd w st sock_fd rcv ->
  read_from_cmd_socket hd w st sock_fd rcv
  = if negb (rx_version rx =? PROTO_VERSION_NUMBER hd) then
      after [bad_packet]
        (if rx_version rx >=? PROTO_VERSION_MISMATCH_COMPAT_SERVER hd then
           transmit_reply hd st (with_status STT_BADPKTVERSION (reply_template hd rx))
                          where_from
         else returned [])
    else if command_of rcv >=? N_REQUEST_TYPES hd then
      after [bad_packet]
        (transmit_reply hd st (with_status STT_INVALID (reply_template hd rx)) where_from)
    else if recv_status rcv <? expected_length_of hd rcv then
      after [bad_packet]
        (transmit_reply hd st (with_status STT_BADPKTLENGTH (reply_template hd rx))
                        where_from)
    else
      after [normal_access]
        (dispatch_and_reply hd w st sock_fd rx where_from (origin_local where_from)
                            (command_of rcv) (reply_template hd rx)).
Proof.
  intros (Hs & Ha & (H1 & H2 & H3 & H4 & H5)).
  rewrite read_from_cmd_socket_local by exact Hs.
  unfold process_request. unfold where_from, remote_ip, rx in *.
  replace (origin_local (recv_where_from rcv) || ADF_IsAllowed w (remote_ip_of rcv))
    with true
    by (destruct Ha as [-> | ->]; [reflexivity | now rewrite orb_true_r]).
  cbn [negb]. fold (expected_length_of hd rcv).
  apply Z.ltb_ge in H1, H2. rewrite H1, H2, H3, H4, H5, !Z.eqb_refl.
  reflexivity.
Qed.

(** A packet that passes the whole pipeline is logged as a normal access
    and handed to the dispatch. *)
Lemma pipeline_valid :
  passes_validation hd w st sock_fd rcv ->
  read_from_cmd_socket hd w st sock_fd rcv
  = after [normal_access]
      (dispatch_and_reply hd w st sock_fd rx where_from (origin_local where_from)
                          (command_of rcv) (reply_template hd rx)).
Proof.
  intros (Hwf & Hv & Hc & Hl). rewrite pipeline_well_formed by exact Hwf.
  unfold version_current in Hv. unfold rx. rewrite Hv, Z.eqb_refl. cbn [negb].
  unfold command_known in Hc.
  destruct (command_of rcv >=? N_REQUEST_TYPES hd) eqn:E1;
    [apply Z.geb_le in E1; lia |].
  unfold length_sufficient in Hl.
  destruct (recv_status rcv <? expected_length_of hd rcv) eqn:E2;
    [apply Z.ltb_lt in E2; lia |].
  reflexivity.
Qed.

(** The source was classified as one of the three recognised families. *)
Lemma source_family :
  source_present hd st sock_fd rcv ->
  sa_family where_from = AF_INET \/ sa_family where_from = AF_INET6
  \/ sa_family where_from = AF_UNIX.
Proof.
  intros (_ & _ & Harr). unfold where_from.
  destruct (recv_where_from rcv); cbn in *; tauto.
Qed.

(** A reply to a recognised source is one datagram. *)
Lemma transmit_reply_one (msg : CMD_Reply) :
  source_present hd st sock_fd rcv ->
  exists fd,
    transmit_reply hd st msg where_from
    = returned [Sendto fd msg (PKL_ReplyLength hd msg) where_from].
Proof.
  intros Hs. unfold transmit_reply.
  destruct (source_family Hs) as [-> | [-> | ->]]; eexists; reflexivity.
Qed.

End Pipeline.

(** ** Authorisation (claims C1, C2) *)

(** C1.  A request from an IPv4 or IPv6 socket that passes the validation
    pipeline and whose opcode has permission class AUTH reaches no
    handler and changes no collaborator: after the dispatcher has
    recorded the access in the client log, the only other effect is one
    reply, the template with status UNAUTHORIZED.  A request from the
    filesystem socket is allowed for every opcode and is dispatched. *)
Theorem C1_auth_needs_filesystem_socket
    (hd : Headers) (w : World) (st : State) (sock_fd : Z) (rcv : Received) :
  passes_validation hd w st sock_fd rcv ->
  (sa_family (recv_where_from rcv) <> AF_UNIX ->
   permissions_at (command_of rcv) = Some PERMIT_AUTH ->
   exists fd len,
     read_from_cmd_socket hd w st sock_fd rcv
     = returned
         [CLG_LogCommandAccess (remote_ip_of rcv) CLG_CMD_NORMAL (log_time w);
          Sendto fd (with_status STT_UNAUTH (reply_template hd (recv_rx_message rcv)))
                 len (recv_where_from rcv)]
     /\ handlers_invoked (events (read_from_cmd_socket hd w st sock_fd rcv)) = []
     /\ collaborator_calls (events (read_from_cmd_socket hd w st sock_fd rcv)) = []
     /\ exists msg,
          replies (events (read_from_cmd_socket hd w st sock_fd rcv)) = [msg]
          /\ tx_status msg = STT_UNAUTH)
  /\ (sa_family (recv_where_from rcv) = AF_UNIX ->
      check_authority st sock_fd (recv_where_from rcv)
                      (origin_local (recv_where_from rcv)) (command_of rcv)
      = Some true
      /\ read_from_cmd_socket hd w st sock_fd rcv
         = after [CLG_LogCommandAccess (remote_ip_of rcv) CLG_CMD_NORMAL (log_time w)]
             match dispatch hd w (request_type (command_of rcv)) (recv_rx_message rcv)
                            (reply_template hd (recv_rx_message rcv)) with
             | (tr, Abort) => assertion_failed tr
             | (tr, Value _ tx_message) =>
                 after tr (transmit_reply hd st tx_message (recv_where_from rcv))
             end).
Proof.
  intros Hv. pose proof Hv as ((Hs & _) & _).
  rewrite (pipeline_valid hd w st sock_fd rcv Hv). cbv zeta. split.
  - intros Hfam Hperm.
    destruct (transmit_reply_one hd st sock_fd rcv
                (with_status STT_UNAUTH (reply_template hd (recv_rx_message rcv))) Hs)
      as [fd Htx].
    cbv zeta in Htx.
    assert (Hd : dispatch_and_reply hd w st sock_fd (recv_rx_message rcv)
                   (recv_where_from rcv) (origin_local (recv_where_from rcv))
                   (command_of rcv) (reply_template hd (recv_rx_message rcv))
                 = returned
                     [Sendto fd
                        (with_status STT_UNAUTH (reply_template hd (recv_rx_message rcv)))
                        (PKL_ReplyLength hd
                           (with_status STT_UNAUTH
                              (reply_template hd (recv_rx_message rcv))))
                        (recv_where_from rcv)]).
    { unfold dispatch_and_reply, check_authority. rewrite Hperm.
      destruct (sa_family (recv_where_from rcv)) eqn:E; try congruence;
        cbn [set_status]; cbn; rewrite Htx; reflexivity. }
    rewrite Hd. do 2 eexists. split; [reflexivity |].
    repeat split. eexists. split; reflexivity.
  - intros Hfam. destruct Hs as (_ & _ & Harr).
    assert (Hfd : sock_fd = sock_fdu st)
      by (destruct (recv_where_from rcv); cbn in Hfam, Harr; congruence).
    unfold dispatch_and_reply, check_authority. rewrite Hfam, <- Hfd, Z.eqb_refl.
    split; [reflexivity |].
    destruct (dispatch hd w (request_type (command_of rcv)) (recv_rx_message rcv)
                (reply_template hd (recv_rx_message rcv))) as [tr [[] tx |]];
      reflexivity.
Qed.

(** C2.  A datagram whose origin is neither the IPv4 loopback address,
    nor the IPv6 loopback address, nor the filesystem socket, and that
    the CIDR table does not allow, has no effect at all: no reply, no
    handler, no collaborator call and no client-log record. *)
Theorem C2_denied_origin_is_dropped
    (hd : Headers) (w : World) (st : State) (sock_fd : Z) (rcv : Received) :
  0 <= recv_status rcv ->
  origin_local (recv_where_from rcv) = false ->
  ADF_IsAllowed w (remote_ip_of rcv) = false ->
  events (read_from_cmd_socket hd w st sock_fd rcv) = []
  /\ replies (events (read_from_cmd_socket hd w st sock_fd rcv)) = []
  /\ handlers_invoked (events (read_from_cmd_socket hd w st sock_fd rcv)) = []
  /\ collaborator_calls (events (read_from_cmd_socket hd w st sock_fd rcv)) = []
  /\ client_log (events (read_from_cmd_socket hd w st sock_fd rcv)) = [].
Proof.
  intros Hs Hl Ha.
  assert (E : events (read_from_cmd_socket hd w st sock_fd rcv) = []).
  { unfold read_from_cmd_socket, remote_ip_of in *.
    destruct (recv_status rcv <? 0) eqn:E1; [apply Z.ltb_lt in E1; lia |].
    destruct ((recv_from_length rcv >? sizeof_sockaddr_all hd)
              || (recv_from_length rcv <=? sizeof_sa_family hd)); [reflexivity |].
    destruct (SCH_GetLastEventTime w) as [cooked_now now].
    destruct (recv_where_from rcv) as [a p | a p | path | f];
      cbn [UTI_SockaddrToIPAndPort fst sa_family origin_local] in *.
    - destruct (sock_fd =? sock_fd4 st); [| reflexivity].
      unfold process_request. now rewrite Hl, Ha.
    - destruct (sock_fd =? sock_fd6 st); [| reflexivity].
      unfold process_request. now rewrite memcmp_loopback, Hl, Ha.
    - discriminate.
    - reflexivity. }
  rewrite E. repeat split.
Qed.

(** Decides the validation conditions on an explicit input. *)
Ltac validate :=
  unfold passes_validation, well_formed, source_present, access_granted,
    header_sane, version_current, command_known, length_sufficient,
    expected_length_of, command_of, remote_ip_of;
  cbn;
  repeat match goal with
         | |- _ /\ _ => split
         | |- (_ < _)%Z => reflexivity
         | |- (_ <= _)%Z => discriminate
         | |- _ = _ => reflexivity
         | |- true = true \/ _ => left; reflexivity
         | |- _ \/ true = true => right; reflexivity
         end.

(** C1 on a DUMP request from 127.0.0.1. *)
Lemma C1_witness :
  passes_validation Sample.headers Sample.world Sample.state 3
    (Sample.received Sample.loopback4 (Sample.request 6 6 []))
  /\ exists msg,
       replies (events (read_from_cmd_socket Sample.headers Sample.world Sample.state 3
                          (Sample.received Sample.loopback4 (Sample.request 6 6 []))))
       = [msg]
       /\ tx_status msg = STT_UNAUTH.
Proof.
  assert (Hv : passes_validation Sample.headers Sample.world Sample.state 3
                 (Sample.received Sample.loopback4 (Sample.request 6 6 [])))
    by validate.
  split; [exact Hv |].
  destruct (C1_auth_needs_filesystem_socket Sample.headers Sample.world Sample.state 3
              (Sample.received Sample.loopback4 (Sample.request 6 6 [])) Hv)
    as [Hremote _].
  destruct Hremote as (fd & len & _ & _ & _ & Hmsg);
    [cbn; discriminate | reflexivity | exact Hmsg].
Defined.

(** C2 on a request from 192.0.2.7, which the table does not allow. *)
Lemma C2_witness :
  events (read_from_cmd_socket Sample.headers Sample.world Sample.state 3
            (Sample.received Sample.remote4 (Sample.request 6 0 [])))
  = [].
Proof.
  apply (C2_denied_origin_is_dropped Sample.headers Sample.world Sample.state 3
           (Sample.received Sample.remote4 (Sample.request 6 0 [])));
    [cbn; discriminate | reflexivity | reflexivity].
Defined.

(** ** Rejected packets (claims C3, C4) *)

(** C3.  A request that is well formed up to header sanity but carries
    another protocol version than the daemon's is recorded as a bad
    packet in the client log, and no handler runs.  If its version is at
    least the compatibility floor, exactly one reply is sent: status
    BAD-PACKET-VERSION, reply tag NULL, the sequence number of the
    request; below the floor nothing is sent. *)
Theorem C3_version_mismatch
    (hd : Headers) (w : World) (st : State) (sock_fd : Z) (rcv : Received) :
  well_formed hd w st sock_fd rcv ->
  rx_version (recv_rx_message rcv) <> PROTO_VERSION_NUMBER hd ->
  client_log (events (read_from_cmd_socket hd w st sock_fd rcv))
  = [(remote_ip_of rcv, CLG_CMD_BAD_PKT, log_time w)]
  /\ handlers_invoked (events (read_from_cmd_socket hd w st sock_fd rcv)) = []
  /\ collaborator_calls (events (read_from_cmd_socket hd w st sock_fd rcv)) = []
  /\ (PROTO_VERSION_MISMATCH_COMPAT_SERVER hd <= rx_version (recv_rx_message rcv) ->
      exists msg,
        replies (events (read_from_cmd_socket hd w st sock_fd rcv)) = [msg]
        /\ tx_status msg = STT_BADPKTVERSION
        /\ tx_reply msg = RPY_NULL
        /\ tx_sequence msg = rx_sequence (recv_rx_message rcv))
  /\ (rx_version (recv_rx_message rcv) < PROTO_VERSION_MISMATCH_COMPAT_SERVER hd ->
      replies (events (read_from_cmd_socket hd w st sock_fd rcv)) = []).
Proof.
  intros Hwf Hver. pose proof Hwf as (Hs & _).
  rewrite (pipeline_well_formed hd w st sock_fd rcv Hwf). cbv zeta.
  destruct (rx_version (recv_rx_message rcv) =? PROTO_VERSION_NUMBER hd) eqn:E;
    [apply Z.eqb_eq in E; contradiction |].
  cbn [negb].
  destruct (transmit_reply_one hd st sock_fd rcv
              (with_status STT_BADPKTVERSION (reply_template hd (recv_rx_message rcv)))
              Hs) as [fd Htx].
  cbv zeta in Htx. rewrite Htx.
  destruct (rx_version (recv_rx_message rcv)
            >=? PROTO_VERSION_MISMATCH_COMPAT_SERVER hd) eqn:E2.
  - apply Z.geb_le in E2. cbn. repeat split; try reflexivity; [| lia].
    intros _. eexists. repeat split.
  - rewrite Z.geb_leb in E2. apply Z.leb_gt in E2. cbn.
    repeat split; try reflexivity. lia.
Qed.

(** C3 on a CLIENT-ACCESSES-BY-INDEX request of version 5 from the
    filesystem socket, the current version being 6 and the floor 5. *)
Lemma C3_witness :
  well_formed Sample.headers Sample.world Sample.state 5
    (Sample.received Sample.unix_client (Sample.request 5 40 (Sample.by_index 0 1)))
  /\ client_log
       (events (read_from_cmd_socket Sample.headers Sample.world Sample.state 5
                  (Sample.received Sample.unix_client
                     (Sample.request 5 40 (Sample.by_index 0 1)))))
     = [(IPADDR_UNSPEC, CLG_CMD_BAD_PKT, 1000)].
Proof.
  assert (Hwf : well_formed Sample.headers Sample.world Sample.state 5
                  (Sample.received Sample.unix_client
                     (Sample.request 5 40 (Sample.by_index 0 1))))
    by validate.
  split; [exact Hwf |].
  apply (C3_version_mismatch Sample.headers Sample.world Sample.state 5
           (Sample.received Sample.unix_client
              (Sample.request 5 40 (Sample.by_index 0 1))) Hwf).
  cbn. discriminate.
Defined.

(** C4.  A request with a sane header and the current protocol version
    that passed the access filter is answered with exactly one reply of
    status INVALID if its opcode is not below the opcode count, and
    otherwise with exactly one reply of status BAD-LENGTH if fewer bytes
    were received than the opcode needs.  In both cases the reply echoes
    opcode and sequence number, the packet is recorded as bad in the
    client log, and no handler runs. *)
Theorem C4_unknown_opcode_or_short_packet
    (hd : Headers) (w : World) (st : State) (sock_fd : Z) (rcv : Received) :
  well_formed hd w st sock_fd rcv ->
  version_current hd rcv ->
  N_REQUEST_TYPES hd <= command_of rcv
  \/ recv_status rcv < expected_length_of hd rcv ->
  exists msg,
    replies (events (read_from_cmd_socket hd w st sock_fd rcv)) = [msg]
    /\ tx_status msg
       = (if command_of rcv >=? N_REQUEST_TYPES hd then STT_INVALID
          else STT_BADPKTLENGTH)
    /\ tx_command msg = rx_command (recv_rx_message rcv)
    /\ tx_sequence msg = rx_sequence (recv_rx_message rcv)
    /\ client_log (events (read_from_cmd_socket hd w st sock_fd rcv))
       = [(remote_ip_of rcv, CLG_CMD_BAD_PKT, log_time w)]
    /\ handlers_invoked (events (read_from_cmd_socket hd w st sock_fd rcv)) = []
    /\ collaborator_calls (events (read_from_cmd_socket hd w st sock_fd rcv)) = [].
Proof.
  intros Hwf Hver Hbad. pose proof Hwf as (Hs & _).
  rewrite (pipeline_well_formed hd w st sock_fd rcv Hwf). cbv zeta.
  unfold version_current in Hver. rewrite Hver, Z.eqb_refl. cbn [negb].
  destruct (transmit_reply_one hd st sock_fd rcv
              (with_status STT_INVALID (reply_template hd (recv_rx_message rcv)))
              Hs) as [fd1 Htx1].
  destruct (transmit_reply_one hd st sock_fd rcv
              (with_status STT_BADPKTLENGTH (reply_template hd (recv_rx_message rcv)))
              Hs) as [fd2 Htx2].
  cbv zeta in Htx1, Htx2. rewrite Htx1, Htx2.
  destruct (command_of rcv >=? N_REQUEST_TYPES hd) eqn:E1.
  - eexists. cbn. repeat split.
  - rewrite Z.geb_leb in E1. apply Z.leb_gt in E1.
    destruct Hbad as [Hbad | Hbad]; [lia |].
    apply Z.ltb_lt in Hbad. rewrite Hbad.
    eexists. cbn. repeat split.
Qed.

(** C4 on a request with opcode 60 from the filesystem socket, where
    there are 54 opcodes. *)
Lemma C4_witness :
  well_formed Sample.headers Sample.world Sample.state 5
    (Sample.received Sample.unix_client (Sample.request 6 60 []))
  /\ exists msg,
       replies (events (read_from_cmd_socket Sample.headers Sample.world Sample.state 5
                          (Sample.received Sample.unix_client (Sample.request 6 60 []))))
       = [msg]
       /\ tx_status msg = STT_INVALID.
Proof.
  assert (Hwf : well_formed Sample.headers Sample.world Sample.state 5
                  (Sample.received Sample.unix_client (Sample.request 6 60 [])))
    by validate.
  split; [exact Hwf |].
  destruct (C4_unknown_opcode_or_short_packet Sample.headers Sample.world Sample.state 5
              (Sample.received Sample.unix_client (Sample.request 6 60 [])) Hwf)
    as (msg & Hr & Hst & _);
    [reflexivity | left; cbn; discriminate |].
  exists msg. split; [exact Hr | exact Hst].
Defined.

(** ** One reply per request (claim C5) *)

Lemma transmit_reply_shape (hd : Headers) (st : State) (msg : CMD_Reply)
    (where_to : sockaddr_all) :
  (exists fd, transmit_reply hd st msg where_to
              = returned [Sendto fd msg (PKL_ReplyLength hd msg) where_to])
  \/ transmit_reply hd st msg where_to = assertion_failed [].
Proof.
  unfold transmit_reply. destruct (sa_family where_to);
    first [left; eexists; reflexivity | right; reflexivity].
Qed.

Section One_reply.

Variable hd : Headers.
Variable w : World.
Variable st : State.
Variable sock_fd : Z.

(** The dispatch stage logs nothing in the client log, calls at most one
    handler and sends at most one datagram.  When it returns it has sent
    exactly one reply, whose header is the one it started from, and it
    has called no handler exactly when the request was not authorised or
    the opcode is one the dispatcher answers itself. *)
Lemma dispatch_and_reply_spec (rx : CMD_Request) (where_from : sockaddr_all)
    (localhost : bool) (command : Z) (tx : CMD_Reply) :
  client_log (events (dispatch_and_reply hd w st sock_fd rx where_from localhost
                                         command tx)) = []
  /\ (List.length (replies (events (dispatch_and_reply hd w st sock_fd rx where_from
                                      localhost command tx))) <= 1)%nat
  /\ (List.length (handlers_invoked (events (dispatch_and_reply hd w st sock_fd rx
                                               where_from localhost command tx)))
      <= 1)%nat
  /\ (completion (dispatch_and_reply hd w st sock_fd rx where_from localhost command tx)
      = Returned ->
      exists allowed msg,
        check_authority st sock_fd where_from localhost command = Some allowed
        /\ replies (events (dispatch_and_reply hd w st sock_fd rx where_from localhost
                                               command tx)) = [msg]
        /\ same_header tx msg
        /\ (handlers_invoked (events (dispatch_and_reply hd w st sock_fd rx where_from
                                        localhost command tx)) = []
            <-> allowed = false \/ answered_inline (request_type command) = true)).
Proof.
  unfold dispatch_and_reply.
  destruct (check_authority st sock_fd where_from localhost command) as [[|] |].
  - destruct (dispatch_spec hd w (request_type command) rx tx)
      as (R & L & Hh & Hn & S).
    destruct (dispatch hd w (request_type command) rx tx) as [tr [[] tx' |]];
      cbn [fst snd] in *.
    + destruct (transmit_reply_shape hd st tx' where_from) as [[fd ->] | ->];
        cbn [do_it Z.eqb negb after returned assertion_failed events completion];
        rewrite ?client_log_app, ?replies_app, ?handlers_invoked_app, R, L;
        destruct (no_case (request_type command)); try discriminate;
        rewrite ?orb_false_r in Hh;
        (destruct (answered_inline (request_type command));
         [subst tr | destruct Hh as [h Hh]; rewrite Hh]);
        cbn;
        (split; [reflexivity | split; [lia | split; [lia |]]]);
        intros E; try discriminate E;
        exists true; exists tx';
        (split; [reflexivity | split; [reflexivity | split; [exact S |]]]);
        (split; [intros E'; first [discriminate E' | right; reflexivity]
                | intros [E' | E']; first [discriminate E' | reflexivity]]).
    + cbn [assertion_failed events completion]. rewrite R, L.
      destruct (answered_inline (request_type command)
                || no_case (request_type command));
        [subst tr | destruct Hh as [h Hh]; rewrite Hh];
        cbn; (split; [reflexivity | split; [lia | split; [lia | discriminate]]]).
  - cbn [set_status].
    destruct (transmit_reply_shape hd st (with_status STT_UNAUTH tx) where_from)
      as [[fd ->] | ->]; cbn;
      (split; [reflexivity | split; [lia | split; [lia |]]]);
      intros E; try discriminate E.
    exists false. eexists.
    split; [reflexivity | split; [reflexivity | split; [repeat split |]]].
    split; [intros _; left; reflexivity | reflexivity].
  - cbn. split; [reflexivity | split; [lia | split; [lia | discriminate]]].
Qed.

(** Whatever is received, the dispatcher sends at most one datagram and
    calls at most one handler. *)
Lemma read_from_cmd_socket_bounds (rcv : Received) :
  (List.length (replies (events (read_from_cmd_socket hd w st sock_fd rcv))) <= 1)%nat
  /\ (List.length (handlers_invoked (events (read_from_cmd_socket hd w st sock_fd rcv)))
      <= 1)%nat.
Proof.
  assert (P : forall read_length rx where_from remote_ip localhost cooked_now,
             (List.length (replies (events (process_request hd w st sock_fd read_length
                 rx where_from remote_ip localhost cooked_now))) <= 1)%nat
             /\ (List.length (handlers_invoked (events (process_request hd w st sock_fd
                   read_length rx where_from remote_ip localhost cooked_now))) <= 1)%nat).
  { intros. unfold process_request.
    repeat match goal with
           | |- context [if ?c then _ else _] =>
               lazymatch c with
               | context [if _ then _ else _] => fail
               | _ => destruct c
               end
           end;
      try (cbn; split; lia);
      try match goal with
          | |- context [transmit_reply hd st ?m ?a] =>
              destruct (transmit_reply_shape hd st m a) as [[fd ->] | ->];
              cbn; split; lia
          end.
    all: cbn [after events];
      destruct (dispatch_and_reply_spec rx where_from localhost
                  (ntohs (rx_command rx)) (reply_template hd rx)) as (_ & B1 & B2 & _);
      cbn [app replies handlers_invoked flat_map]; split; assumption. }
  unfold read_from_cmd_socket.
  destruct (recv_status rcv <? 0); [cbn; split; lia |].
  destruct ((recv_from_length rcv >? sizeof_sockaddr_all hd)
            || (recv_from_length rcv <=? sizeof_sa_family hd)); [cbn; split; lia |].
  destruct (SCH_GetLastEventTime w) as [cooked_now now].
  destruct (UTI_SockaddrToIPAndPort (recv_where_from rcv)) as [remote_ip remote_port].
  destruct remote_ip;
    repeat match goal with
           | |- context [if ?c then _ else _] => destruct c
           | |- context [match sa_family ?a with _ => _ end] => destruct (sa_family a)
           end;
    first [apply P | cbn; split; lia].
Qed.

End One_reply.

Lemma after_access_replies (ip : IPAddr) (ty : CLG_Command_Type) (now : Z) (o : Outcome) :
  replies (events (after [CLG_LogCommandAccess ip ty now] o)) = replies (events o).
Proof. reflexivity. Qed.

Lemma after_access_handlers (ip : IPAddr) (ty : CLG_Command_Type) (now : Z)
    (o : Outcome) :
  handlers_invoked (events (after [CLG_LogCommandAccess ip ty now] o))
  = handlers_invoked (events o).
Proof. reflexivity. Qed.

Lemma after_access_completion (tr : list Event) (o : Outcome) :
  completion (after tr o) = completion o.
Proof. reflexivity. Qed.

(** C5, as the code has it.  Whatever is received, the dispatcher sends
    at most one datagram and calls at most one handler.  For a packet
    that passes the validation pipeline (source present, access filter,
    header sanity, version, opcode, length) it prepares the template
    reply (opcode and sequence number of the request, status SUCCESS,
    reply tag NULL) and, unless an assertion stops the daemon, sends
    exactly one reply with that opcode and sequence number.  It calls no
    handler when the permission check of the opcode fails or when the
    opcode is NULL or LOGON, which it answers itself, and exactly one
    handler otherwise. *)
Theorem C5_one_reply_at_most_one_handler
    (hd : Headers) (w : World) (st : State) (sock_fd : Z) (rcv : Received) :
  (List.length (replies (events (read_from_cmd_socket hd w st sock_fd rcv))) <= 1)%nat
  /\ (List.length (handlers_invoked (events (read_from_cmd_socket hd w st sock_fd rcv)))
      <= 1)%nat
  /\ (passes_validation hd w st sock_fd rcv ->
      read_from_cmd_socket hd w st sock_fd rcv
      = after [CLG_LogCommandAccess (remote_ip_of rcv) CLG_CMD_NORMAL (log_time w)]
          (dispatch_and_reply hd w st sock_fd (recv_rx_message rcv)
             (recv_where_from rcv) (origin_local (recv_where_from rcv))
             (command_of rcv) (reply_template hd (recv_rx_message rcv)))
      /\ tx_command (reply_template hd (recv_rx_message rcv))
         = rx_command (recv_rx_message rcv)
      /\ tx_sequence (reply_template hd (recv_rx_message rcv))
         = rx_sequence (recv_rx_message rcv)
      /\ tx_status (reply_template hd (recv_rx_message rcv)) = STT_SUCCESS
      /\ tx_reply (reply_template hd (recv_rx_message rcv)) = RPY_NULL
      /\ (completion (read_from_cmd_socket hd w st sock_fd rcv) = Returned ->
          exists allowed msg,
            check_authority st sock_fd (recv_where_from rcv)
                            (origin_local (recv_where_from rcv)) (command_of rcv)
            = Some allowed
            /\ replies (events (read_from_cmd_socket hd w st sock_fd rcv)) = [msg]
            /\ tx_command msg = rx_command (recv_rx_message rcv)
            /\ tx_sequence msg = rx_sequence (recv_rx_message rcv)
            /\ (handlers_invoked (events (read_from_cmd_socket hd w st sock_fd rcv)) = []
                <-> allowed = false
                    \/ answered_inline (request_type (command_of rcv)) = true)
            /\ (allowed = true ->
                answered_inline (request_type (command_of rcv)) = false ->
                exists h,
                  handlers_invoked (events (read_from_cmd_socket hd w st sock_fd rcv))
                  = [h]))).
Proof.
  destruct (read_from_cmd_socket_bounds hd w st sock_fd rcv) as [B1 B2].
  split; [exact B1 | split; [exact B2 |]].
  intros Hv. revert B2. rewrite (pipeline_valid hd w st sock_fd rcv Hv). cbv zeta.
  rewrite !after_access_replies, !after_access_handlers, after_access_completion.
  intros B2. split; [reflexivity |]. do 4 (split; [reflexivity |]).
  destruct (dispatch_and_reply_spec hd w st sock_fd (recv_rx_message rcv)
              (recv_where_from rcv) (origin_local (recv_where_from rcv))
              (command_of rcv) (reply_template hd (recv_rx_message rcv)))
    as (L & _ & _ & Hret).
  intros Hc. destruct (Hret Hc) as (allowed & msg & Ha & Hr & Hh & Hiff).
  exists allowed, msg. split; [exact Ha | split; [exact Hr |]].
  destruct Hh as (_ & _ & _ & _ & Hcmd & _ & _ & _ & Hseq & _).
  split; [now rewrite <- Hcmd | split; [now rewrite <- Hseq | split; [exact Hiff |]]].
  intros -> Hinline.
  destruct (handlers_invoked
              (events (dispatch_and_reply hd w st sock_fd (recv_rx_message rcv)
                 (recv_where_from rcv) (origin_local (recv_where_from rcv))
                 (command_of rcv) (reply_template hd (recv_rx_message rcv)))))
    as [| h [| h' l]] eqn:E.
  - exfalso. destruct Hiff as [Hiff _].
    destruct (Hiff eq_refl) as [? | ?]; congruence.
  - exists h. reflexivity.
  - cbn in B2. lia.
Qed.

(** C5 on a TRACKING request from 127.0.0.1: one handler, one reply. *)
Lemma C5_witness :
  passes_validation Sample.headers Sample.world Sample.state 3
    (Sample.received Sample.loopback4 (Sample.request 6 33 []))
  /\ read_from_cmd_socket Sample.headers Sample.world Sample.state 3
       (Sample.received Sample.loopback4 (Sample.request 6 33 []))
     = after [CLG_LogCommandAccess (IPADDR_INET4 INADDR_LOOPBACK) CLG_CMD_NORMAL 1000]
         (dispatch_and_reply Sample.headers Sample.world Sample.state 3
            (Sample.request 6 33 []) Sample.loopback4 true 33
            (reply_template Sample.headers (Sample.request 6 33 []))).
Proof.
  assert (Hv : passes_validation Sample.headers Sample.world Sample.state 3
                 (Sample.received Sample.loopback4 (Sample.request 6 33 [])))
    by validate.
  split; [exact Hv |].
  destruct (C5_one_reply_at_most_one_handler Sample.headers Sample.world Sample.state 3
              (Sample.received Sample.loopback4 (Sample.request 6 33 [])))
    as (_ & _ & Hvalid).
  destruct (Hvalid Hv) as (Heq & _). exact Heq.
Defined.

(** C5 as stated fails: a DUMP request from 127.0.0.1 and a NULL request
    from the filesystem socket both pass the validation pipeline, and
    each is answered without any handler being called. *)
Lemma C5_counterexample :
  (passes_validation Sample.headers Sample.world Sample.state 3
     (Sample.received Sample.loopback4 (Sample.request 6 6 []))
   /\ handlers_invoked
        (events (read_from_cmd_socket Sample.headers Sample.world Sample.state 3
                   (Sample.received Sample.loopback4 (Sample.request 6 6 []))))
      = []
   /\ List.length
        (replies (events (read_from_cmd_socket Sample.headers Sample.world
                            Sample.state 3
                            (Sample.received Sample.loopback4 (Sample.request 6 6 [])))))
      = 1%nat)
  /\ (passes_validation Sample.headers Sample.world Sample.state 5
        (Sample.received Sample.unix_client (Sample.request 6 0 []))
      /\ handlers_invoked
           (events (read_from_cmd_socket Sample.headers Sample.world Sample.state 5
                      (Sample.received Sample.unix_client (Sample.request 6 0 []))))
         = []
      /\ List.length
           (replies (events (read_from_cmd_socket Sample.headers Sample.world
                               Sample.state 5
                               (Sample.received Sample.unix_client
                                  (Sample.request 6 0 [])))))
         = 1%nat).
Proof. split; (split; [validate | split; vm_compute; reflexivity]). Qed.

(** Header sanity is decidable. *)
Lemma header_sane_dec (hd : Headers) (rcv : Received) :
  header_sane hd rcv \/ ~ header_sane hd rcv.
Proof. unfold header_sane. lia. Qed.

(** From the filesystem socket every command is allowed. *)
Lemma authority_unix (hd : Headers) (st : State) (sock_fd : Z) (rcv : Received) :
  source_present hd st sock_fd rcv ->
  sa_family (recv_where_from rcv) = AF_UNIX ->
  check_authority st sock_fd (recv_where_from rcv)
                  (origin_local (recv_where_from rcv)) (command_of rcv)
  = Some true.
Proof.
  intros (_ & _ & Harr) Hfam. unfold check_authority. rewrite Hfam.
  destruct (recv_where_from rcv); cbn in Hfam, Harr; try discriminate.
  now rewrite Harr, Z.eqb_refl.
Qed.

(** ** Local origins and the CIDR table (claim C10) *)

(** Apart from CMDACCHECK, whose answer is the decision of the table, no
    case of the switch looks at the table. *)
Lemma dispatch_ignores_table (hd : Headers) (w : World) (allowed : IPAddr -> bool)
    (cmd : option REQ) (rx : CMD_Request) :
  cmd <> Some REQ_CMDACCHECK ->
  dispatch hd (with_access_table allowed w) cmd rx = dispatch hd w cmd rx.
Proof.
  intros Hcmd. destruct cmd as [[] |]; try reflexivity. congruence.
Qed.

(** For a local origin the dispatcher does not consult the table on the
    way to the dispatch. *)
Lemma read_from_cmd_socket_ignores_table (hd : Headers) (w : World) (st : State)
    (sock_fd : Z) (rcv : Received) (allowed : IPAddr -> bool) :
  origin_local (recv_where_from rcv) = true ->
  request_type (command_of rcv) <> Some REQ_CMDACCHECK ->
  read_from_cmd_socket hd (with_access_table allowed w) st sock_fd rcv
  = read_from_cmd_socket hd w st sock_fd rcv.
Proof.
  intros Hl Hcmd. unfold read_from_cmd_socket.
  destruct (recv_status rcv <? 0); [reflexivity |].
  destruct ((recv_from_length rcv >? sizeof_sockaddr_all hd)
            || (recv_from_length rcv <=? sizeof_sa_family hd)); [reflexivity |].
  change (SCH_GetLastEventTime (with_access_table allowed w))
    with (SCH_GetLastEventTime w).
  destruct (SCH_GetLastEventTime w) as [cooked_now now].
  assert (P : forall remote_ip,
             process_request hd (with_access_table allowed w) st sock_fd
               (recv_status rcv) (recv_rx_message rcv) (recv_where_from rcv) remote_ip
               true cooked_now
             = process_request hd w st sock_fd (recv_status rcv) (recv_rx_message rcv)
                 (recv_where_from rcv) remote_ip true cooked_now).
  { intros remote_ip. unfold process_request, dispatch_and_reply. cbn [orb negb].
    fold (command_of rcv). now rewrite dispatch_ignores_table. }
  destruct (recv_where_from rcv) as [a p | a p | path | f];
    cbn [UTI_SockaddrToIPAndPort sa_family origin_local] in *.
  - rewrite Hl. now rewrite P.
  - rewrite memcmp_loopback, Hl. now rewrite P.
  - now rewrite P.
  - reflexivity.
Qed.

(** C10, as the code has it.  A packet from the IPv4 loopback address,
    the IPv6 loopback address or the filesystem socket is never dropped
    by the CIDR filter: whatever the table decides, the packet is at
    least recorded in the client log.  Unless the request is CMDACCHECK,
    its processing and its reply are the same for any two states of the
    table.  A CMDACCHECK request, which only the filesystem socket may
    issue, is answered with the decision of the table for the address it
    asks about, so its reply does depend on the table. *)
Theorem C10_local_origin_bypasses_table
    (hd : Headers) (w : World) (st : State) (sock_fd : Z) (rcv : Received)
    (allowed1 allowed2 : IPAddr -> bool) :
  origin_local (recv_where_from rcv) = true ->
  (request_type (command_of rcv) <> Some REQ_CMDACCHECK ->
   read_from_cmd_socket hd (with_access_table allowed1 w) st sock_fd rcv
   = read_from_cmd_socket hd (with_access_table allowed2 w) st sock_fd rcv)
  /\ (source_present hd st sock_fd rcv ->
      client_log (events (read_from_cmd_socket hd (with_access_table allowed1 w)
                            st sock_fd rcv)) <> [])
  /\ (passes_validation hd (with_access_table allowed1 w) st sock_fd rcv ->
      sa_family (recv_where_from rcv) = AF_UNIX ->
      request_type (command_of rcv) = Some REQ_CMDACCHECK ->
      replies (events (read_from_cmd_socket hd (with_access_table allowed1 w)
                         st sock_fd rcv))
      = [with_status
           (if allowed1 (member_IPAddr hd (recv_rx_message rcv) Req.ac_check_ip)
            then STT_ACCESSALLOWED else STT_ACCESSDENIED)
           (reply_template hd (recv_rx_message rcv))]).
Proof.
  intros Hl. split; [| split].
  - intros Hcmd.
    rewrite (read_from_cmd_socket_ignores_table hd w st sock_fd rcv allowed1 Hl Hcmd).
    now rewrite (read_from_cmd_socket_ignores_table hd w st sock_fd rcv allowed2 Hl Hcmd).
  - intros Hs.
    destruct (header_sane_dec hd rcv) as [Hh | Hh].
    + assert (Hwf : well_formed hd (with_access_table allowed1 w) st sock_fd rcv)
        by (split; [exact Hs | split; [left; exact Hl | exact Hh]]).
      rewrite (pipeline_well_formed hd _ st sock_fd rcv Hwf). cbv zeta.
      repeat match goal with
             | |- context [if ?c then _ else _] => destruct c
             end; cbn [after events app client_log flat_map]; discriminate.
    + rewrite (pipeline_bad_header hd _ st sock_fd rcv Hs (or_introl Hl) Hh).
      cbv zeta. cbn. discriminate.
  - intros Hv Hfam Hcmd. pose proof Hv as ((Hs & _) & _).
    pose proof (authority_unix hd st sock_fd rcv Hs Hfam) as Hauth.
    rewrite (pipeline_valid hd _ st sock_fd rcv Hv). cbv zeta.
    rewrite after_access_replies. unfold dispatch_and_reply.
    rewrite Hauth, Hcmd.
    cbn [dispatch]. unfold invoke, handle_cmdaccheck, CAM_CheckAccessRestriction, bind, emit.
    cbn [with_access_table ADF_IsAllowed].
    destruct (transmit_reply_one hd st sock_fd rcv
                (with_status (if allowed1 (member_IPAddr hd (recv_rx_message rcv)
                                             Req.ac_check_ip)
                              then STT_ACCESSALLOWED else STT_ACCESSDENIED)
                   (reply_template hd (recv_rx_message rcv))) Hs) as [fd Htx].
    cbv zeta in Htx.
    destruct (allowed1 (member_IPAddr hd (recv_rx_message rcv) Req.ac_check_ip));
      cbn [set_status app after events do_it Z.eqb negb]; rewrite Htx; reflexivity.
Qed.

(** C10 on a TRACKING request from 127.0.0.1, with a table that allows
    everybody and a table that allows nobody. *)
Lemma C10_witness :
  read_from_cmd_socket Sample.headers
    (with_access_table (fun _ => true) Sample.world) Sample.state 3
    (Sample.received Sample.loopback4 (Sample.request 6 33 []))
  = read_from_cmd_socket Sample.headers
      (with_access_table (fun _ => false) Sample.world) Sample.state 3
      (Sample.received Sample.loopback4 (Sample.request 6 33 [])).
Proof.
  apply (C10_local_origin_bypasses_table Sample.headers Sample.world Sample.state 3
           (Sample.received Sample.loopback4 (Sample.request 6 33 []))
           (fun _ => true) (fun _ => false)).
  - reflexivity.
  - cbn. discriminate.
Defined.

(** C10 as stated fails: a CMDACCHECK request from the filesystem socket
    is answered ACCESS-ALLOWED under a table that allows the address it
    asks about and ACCESS-DENIED under a table that denies it. *)
Lemma C10_counterexample :
  origin_local Sample.unix_client = true
  /\ List.map tx_status
       (replies (events (read_from_cmd_socket Sample.headers
                           (with_access_table (fun _ => true) Sample.world)
                           Sample.state 5
                           (Sample.received Sample.unix_client
                              (Sample.request 6 26 [])))))
     = [STT_ACCESSALLOWED]
  /\ List.map tx_status
       (replies (events (read_from_cmd_socket Sample.headers
                           (with_access_table (fun _ => false) Sample.world)
                           Sample.state 5
                           (Sample.received Sample.unix_client
                              (Sample.request 6 26 [])))))
     = [STT_ACCESSDENIED].
Proof. repeat split. Qed.

(** ** Paged client accesses (claim C6) *)

Lemma bind_put {B : Type} (f : Rpy.field) (v : wire) (k : unit -> H B) (tx : CMD_Reply) :
  bind (put f v) k tx = k tt (with_data f v tx).
Proof. unfold bind, put. now destruct (k tt (with_data f v tx)). Qed.

Lemma bind_set_reply {B : Type} (r : RPY) (k : unit -> H B) (tx : CMD_Reply) :
  bind (set_reply r) k tx = k tt (with_reply r tx).
Proof. unfold bind, set_reply. now destruct (k tt (with_reply r tx)). Qed.

Lemma bind_set_status {B : Type} (s : STT) (k : unit -> H B) (tx : CMD_Reply) :
  bind (set_status s) k tx = k tt (with_status s tx).
Proof. unfold bind, set_status. now destruct (k tt (with_status s tx)). Qed.

Lemma tx_member_with_data (f g : Rpy.field) (v : wire) (tx : CMD_Reply) :
  tx_member (with_data f v tx) g
  = if Rpy.field_eq_dec g f then Some v else tx_member tx g.
Proof. reflexivity. Qed.

Lemma tx_member_same (f : Rpy.field) (v : wire) (tx : CMD_Reply) :
  tx_member (with_data f v tx) f = Some v.
Proof.
  rewrite tx_member_with_data. destruct (Rpy.field_eq_dec f f); congruence.
Qed.

Lemma tx_member_other (f g : Rpy.field) (v : wire) (tx : CMD_Reply) :
  g <> f -> tx_member (with_data f v tx) g = tx_member tx g.
Proof.
  intros Hne. rewrite tx_member_with_data.
  destruct (Rpy.field_eq_dec g f); congruence.
Qed.

Section Client_accesses.

Variable hd : Headers.
Variable w : World.

Lemma pack_row_slot (j : Z) (report : RPT_ClientAccessByIndex_Report.t)
    (tx : CMD_Reply) (m : Rpy.client_member) :
  tx_member (pack_row j report tx) (Rpy.client_accesses_by_index_clients j m)
  = Some (wire_of_client_member m report).
Proof.
  unfold pack_row.
  destruct m;
    repeat first [ apply tx_member_same
                 | rewrite tx_member_other by (intros E; discriminate E) ].
Qed.

Lemma pack_row_other (j : Z) (report : RPT_ClientAccessByIndex_Report.t)
    (tx : CMD_Reply) (f : Rpy.field) :
  (forall m, f <> Rpy.client_accesses_by_index_clients j m) ->
  tx_member (pack_row j report tx) f = tx_member tx f.
Proof.
  intros Hne. unfold pack_row. now rewrite !tx_member_other by apply Hne.
Qed.

(** One iteration of the loop on an index that has a row, and on an index
    that is too large. *)
Lemma client_accesses_loop_row (count : nat) (first_index now i j : Z)
    (report : RPT_ClientAccessByIndex_Report.t) (n : Z) (tx : CMD_Reply) :
  CLG_GetClientAccessReportByIndex w (first_index + i) now = (CLG_SUCCESS, report, n) ->
  client_accesses_loop w (S count) first_index now i j tx
  = client_accesses_loop w count first_index now (i + 1) (j + 1)
      (pack_row j report
         (with_data Rpy.client_accesses_by_index_n_indices (W_u32 (htonl n)) tx)).
Proof.
  intros E. cbn [client_accesses_loop]. rewrite E. now rewrite !bind_put.
Qed.

Lemma client_accesses_loop_skip (count : nat) (first_index now i j : Z)
    (report : RPT_ClientAccessByIndex_Report.t) (n : Z) (tx : CMD_Reply) :
  CLG_GetClientAccessReportByIndex w (first_index + i) now
  = (CLG_INDEXTOOLARGE, report, n) ->
  client_accesses_loop w (S count) first_index now i j tx
  = client_accesses_loop w count first_index now (i + 1) j
      (with_data Rpy.client_accesses_by_index_n_indices (W_u32 (htonl n)) tx).
Proof.
  intros E. cbn [client_accesses_loop]. rewrite E. now rewrite !bind_put.
Qed.

Lemma client_accesses_loop_inactive (count : nat) (first_index now i j : Z)
    (report : RPT_ClientAccessByIndex_Report.t) (n : Z) (tx : CMD_Reply) :
  CLG_GetClientAccessReportByIndex w (first_index + i) now = (CLG_INACTIVE, report, n) ->
  client_accesses_loop w (S count) first_index now i j tx
  = ([], Value None
           (with_status STT_INACTIVE
              (with_data Rpy.client_accesses_by_index_n_indices (W_u32 (htonl n)) tx))).
Proof.
  intros E. cbn [client_accesses_loop]. rewrite E. now rewrite bind_put.
Qed.

(** The loop over an active client log: it visits every index, packs the
    rows it finds into consecutive slots from [j] on, and leaves status,
    tag and every other member alone. *)
Lemma client_accesses_loop_active (count : nat) :
  forall (first_index now i j : Z) (tx : CMD_Reply),
    log_active w now count (first_index + i) ->
    exists tx',
      client_accesses_loop w count first_index now i j tx
      = ([], Value (Some (i + Z.of_nat count,
                          j + Z.of_nat (List.length
                                          (rows_found w now count (first_index + i)))))
                   tx')
      /\ tx_status tx' = tx_status tx
      /\ tx_reply tx' = tx_reply tx
      /\ (forall (k : nat) (m : Rpy.client_member) report,
            nth_error (rows_found w now count (first_index + i)) k = Some report ->
            tx_member tx' (Rpy.client_accesses_by_index_clients (j + Z.of_nat k) m)
            = Some (wire_of_client_member m report))
      /\ (forall f, below_slot j f -> tx_member tx' f = tx_member tx f)
      /\ ((0 < count)%nat ->
          tx_member tx' Rpy.client_accesses_by_index_n_indices
          = Some (W_u32 (htonl (snd (CLG_GetClientAccessReportByIndex w
                                       (first_index + i + Z.of_nat count - 1) now))))).
Proof.
  induction count as [| count IH]; intros first_index now i j tx Hact.
  - exists tx. cbn [client_accesses_loop rows_found List.length Z.of_nat].
    rewrite !Z.add_0_r.
    split; [reflexivity | split; [reflexivity | split; [reflexivity |]]].
    split; [intros [| k] m report E; discriminate E |].
    split; [reflexivity | intros Hpos; inversion Hpos].
  - assert (Hact' : log_active w now count (first_index + (i + 1))).
    { intros k Hk. replace (first_index + (i + 1) + k) with (first_index + i + (k + 1))
        by lia. apply Hact. lia. }
    assert (Hlast : forall c : nat,
               first_index + (i + 1) + Z.of_nat c - 1
               = first_index + i + Z.of_nat (S c) - 1) by (intros; lia).
    pose proof (Hact 0 ltac:(lia)) as H0. rewrite Z.add_0_r in H0.
    cbn [rows_found].
    destruct (CLG_GetClientAccessReportByIndex w (first_index + i) now)
      as [[result report] n] eqn:E.
    cbn [fst] in H0. destruct H0 as [-> | ->].
    + rewrite (client_accesses_loop_row count first_index now i j report n tx E).
      destruct (IH first_index now (i + 1) (j + 1)
                  (pack_row j report
                     (with_data Rpy.client_accesses_by_index_n_indices
                        (W_u32 (htonl n)) tx)) Hact')
        as (tx' & Hrun & Hst & Hrp & Hslots & Hframe & Hn).
      replace (first_index + (i + 1)) with (first_index + i + 1) in * by lia.
      exists tx'. rewrite Hrun. cbn [List.length].
      split; [do 4 f_equal; lia |].
      split; [rewrite Hst; reflexivity | split; [rewrite Hrp; reflexivity |]].
      split; [| split].
      * intros [| k] m r Hk; cbn [nth_error] in Hk.
        -- injection Hk as <-. rewrite Z.add_0_r.
           rewrite Hframe by (cbn; lia). apply pack_row_slot.
        -- replace (j + Z.of_nat (S k)) with (j + 1 + Z.of_nat k) by lia.
           now apply Hslots.
      * intros f Hf. rewrite Hframe.
        -- rewrite pack_row_other.
           ++ apply tx_member_other. intros ->. exact Hf.
           ++ intros m ->. cbn in Hf. lia.
        -- destruct f; cbn in Hf |- *; try exact I; try contradiction. lia.
      * intros _. destruct count as [| count'].
        -- cbn [client_accesses_loop] in Hrun. unfold ret in Hrun.
           injection Hrun as _ _ Htx. subst tx'.
           replace (first_index + i + Z.of_nat 1 - 1) with (first_index + i) by lia.
           rewrite E. cbn [snd].
           rewrite pack_row_other by (intros m Hm; discriminate Hm).
           apply tx_member_same.
        -- replace (first_index + i + Z.of_nat (S (S count')) - 1)
             with (first_index + i + 1 + Z.of_nat (S count') - 1) by lia.
           apply Hn. lia.
    + rewrite (client_accesses_loop_skip count first_index now i j report n tx E).
      destruct (IH first_index now (i + 1) j
                  (with_data Rpy.client_accesses_by_index_n_indices
                     (W_u32 (htonl n)) tx) Hact')
        as (tx' & Hrun & Hst & Hrp & Hslots & Hframe & Hn).
      replace (first_index + (i + 1)) with (first_index + i + 1) in * by lia.
      exists tx'. rewrite Hrun.
      split; [do 4 f_equal; lia |].
      split; [rewrite Hst; reflexivity | split; [rewrite Hrp; reflexivity |]].
      split; [exact Hslots | split].
      * intros f Hf. rewrite Hframe by exact Hf.
        apply tx_member_other. intros ->. exact Hf.
      * intros _. destruct count as [| count'].
        -- cbn [client_accesses_loop] in Hrun. unfold ret in Hrun.
           injection Hrun as _ _ Htx. subst tx'.
           replace (first_index + i + Z.of_nat 1 - 1) with (first_index + i) by lia.
           rewrite E. cbn [snd]. apply tx_member_same.
        -- replace (first_index + i + Z.of_nat (S (S count')) - 1)
             with (first_index + i + 1 + Z.of_nat (S count') - 1) by lia.
           apply Hn. lia.
Qed.

End Client_accesses.

Lemma clamp_min (n M : Z) : (if n >? M then M else n) = Z.min n M.
Proof.
  destruct (n >? M) eqn:E; rewrite Z.gtb_ltb in E.
  - apply Z.ltb_lt in E. lia.
  - apply Z.ltb_ge in E. lia.
Qed.

Lemma rows_found_row (w : World) (now : Z) (count : nat) (index : Z) :
  fst (fst (CLG_GetClientAccessReportByIndex w index now)) = CLG_SUCCESS ->
  List.length (rows_found w now (S count) index)
  = S (List.length (rows_found w now count (index + 1))).
Proof.
  intros E. cbn [rows_found].
  destruct (CLG_GetClientAccessReportByIndex w index now) as [[r ?] ?].
  cbn [fst] in E. subst r. reflexivity.
Qed.

Lemma rows_found_skip (w : World) (now : Z) (count : nat) (index : Z) :
  fst (fst (CLG_GetClientAccessReportByIndex w index now)) = CLG_INDEXTOOLARGE ->
  List.length (rows_found w now (S count) index)
  = List.length (rows_found w now count (index + 1)).
Proof.
  intros E. cbn [rows_found].
  destruct (CLG_GetClientAccessReportByIndex w index now) as [[r ?] ?].
  cbn [fst] in E. subst r. reflexivity.
Qed.

(** The scenario of the specification: a client log with rows at
    indices 2 and 5 holds two rows among the indices 0 to 7. *)
Lemma rows_found_2_5 (w : World) (now : Z) :
  (forall k,
      0 <= k < 8 ->
      snd (CLG_GetClientAccessReportByIndex w k now) = 6
      /\ fst (fst (CLG_GetClientAccessReportByIndex w k now))
         = (if (k =? 2) || (k =? 5) then CLG_SUCCESS else CLG_INDEXTOOLARGE)) ->
  List.length (rows_found w now 8 0) = 2%nat.
Proof.
  intros Hlog.
  rewrite rows_found_skip by (now destruct (Hlog 0 ltac:(lia)) as [_ ->]);
    cbn [Z.add Pos.add Pos.succ Pos.add_carry].
  rewrite rows_found_skip by (now destruct (Hlog 1 ltac:(lia)) as [_ ->]);
    cbn [Z.add Pos.add Pos.succ Pos.add_carry].
  rewrite rows_found_row by (now destruct (Hlog 2 ltac:(lia)) as [_ ->]);
    cbn [Z.add Pos.add Pos.succ Pos.add_carry].
  rewrite rows_found_skip by (now destruct (Hlog 3 ltac:(lia)) as [_ ->]);
    cbn [Z.add Pos.add Pos.succ Pos.add_carry].
  rewrite rows_found_skip by (now destruct (Hlog 4 ltac:(lia)) as [_ ->]);
    cbn [Z.add Pos.add Pos.succ Pos.add_carry].
  rewrite rows_found_row by (now destruct (Hlog 5 ltac:(lia)) as [_ ->]);
    cbn [Z.add Pos.add Pos.succ Pos.add_carry].
  rewrite rows_found_skip by (now destruct (Hlog 6 ltac:(lia)) as [_ ->]);
    cbn [Z.add Pos.add Pos.succ Pos.add_carry].
  rewrite rows_found_skip by (now destruct (Hlog 7 ltac:(lia)) as [_ ->]);
    cbn [Z.add Pos.add Pos.succ Pos.add_carry].
  reflexivity.
Qed.

(** The handler is the loop between the write of the tag and the writes
    of [next_index] and [n_clients]. *)
Lemma handle_client_accesses_by_index_unfold (hd : Headers) (w : World)
    (rx : CMD_Request) (tx : CMD_Reply) :
  handle_client_accesses_by_index hd w rx tx
  = match client_accesses_loop w (visited hd rx) (requested_first hd rx) (log_time w)
            0 0 (with_reply RPY_CLIENT_ACCESSES_BY_INDEX tx) with
    | (tr, Value None tx') => (tr ++ [], Value tt tx')
    | (tr, Value (Some (i, j)) tx') =>
        (tr ++ [],
         Value tt
           (with_data Rpy.client_accesses_by_index_n_clients (W_u32 (htonl j))
              (with_data Rpy.client_accesses_by_index_next_index
                 (W_u32 (htonl (requested_first hd rx + i))) tx')))
    | (tr, Abort) => (tr, Abort)
    end.
Proof.
  unfold handle_client_accesses_by_index. cbv zeta.
  rewrite bind_set_reply, clamp_min.
  unfold bind, visited, requested_first, requested_count, log_time.
  destruct (client_accesses_loop w _ _ _ 0 0 _) as [tr [[[i j] |] tx' |]];
    reflexivity.
Qed.

(** C6, as the code has it.  CLIENT-ACCESSES-BY-INDEX with starting index
    [first] and requested count [n] visits the indices from [first] on,
    as many as [n] clamped to the implementation maximum.  (a) If that
    number is not zero and the client log is inactive, the reply has
    status INACTIVE and the handler returns at once.  (b) If the client
    log is active, the status stays as it was, [next_index] is [first]
    plus the number of visited indices (as a 32-bit number), [n_clients]
    is the number of rows found, row number [k] is in slot [k], and
    [n_indices] is the size the client log reported last.  (c) If [n] is
    zero the reply is an empty page that starts at [first], also when
    the client log is inactive.  In every case the reply tag is
    CLIENT-ACCESSES-BY-INDEX.  In particular, with a maximum of at least
    8, first = 0 and n = 8 against a log of size 6 with rows at indices 2
    and 5 give [n_clients] = 2, [next_index] = 8 and [n_indices] = 6 with
    the status unchanged. *)
Theorem C6_client_accesses_by_index
    (hd : Headers) (w : World) (rx : CMD_Request) (tx : CMD_Reply) :
  (0 <= MAX_CLIENT_ACCESSES hd ->
   Z.of_nat (visited hd rx) = Z.min (requested_count hd rx) (MAX_CLIENT_ACCESSES hd))
  /\ ((0 < visited hd rx)%nat ->
      fst (fst (CLG_GetClientAccessReportByIndex w (requested_first hd rx) (log_time w)))
      = CLG_INACTIVE ->
      exists n_indices_in_table,
        handle_client_accesses_by_index hd w rx tx
        = ([], Value tt
                 (with_status STT_INACTIVE
                    (with_data Rpy.client_accesses_by_index_n_indices
                       (W_u32 (htonl n_indices_in_table))
                       (with_reply RPY_CLIENT_ACCESSES_BY_INDEX tx)))))
  /\ (log_active w (log_time w) (visited hd rx) (requested_first hd rx) ->
      exists tx',
        handle_client_accesses_by_index hd w rx tx = ([], Value tt tx')
        /\ tx_status tx' = tx_status tx
        /\ tx_reply tx' = RPY_CLIENT_ACCESSES_BY_INDEX
        /\ tx_member tx' Rpy.client_accesses_by_index_next_index
           = Some (W_u32 (htonl (requested_first hd rx + Z.of_nat (visited hd rx))))
        /\ tx_member tx' Rpy.client_accesses_by_index_n_clients
           = Some (W_u32 (htonl (Z.of_nat
                (List.length (rows_found w (log_time w) (visited hd rx)
                                         (requested_first hd rx))))))
        /\ (forall (k : nat) (m : Rpy.client_member) report,
              nth_error (rows_found w (log_time w) (visited hd rx)
                                    (requested_first hd rx)) k = Some report ->
              tx_member tx' (Rpy.client_accesses_by_index_clients (Z.of_nat k) m)
              = Some (wire_of_client_member m report))
        /\ ((0 < visited hd rx)%nat ->
            tx_member tx' Rpy.client_accesses_by_index_n_indices
            = Some (W_u32 (htonl (snd (CLG_GetClientAccessReportByIndex w
                  (requested_first hd rx + Z.of_nat (visited hd rx) - 1)
                  (log_time w)))))))
  /\ (requested_count hd rx = 0 ->
      handle_client_accesses_by_index hd w rx tx
      = ([], Value tt
               (with_data Rpy.client_accesses_by_index_n_clients (W_u32 0)
                  (with_data Rpy.client_accesses_by_index_next_index
                     (W_u32 (htonl (requested_first hd rx)))
                     (with_reply RPY_CLIENT_ACCESSES_BY_INDEX tx)))))
  /\ (8 <= MAX_CLIENT_ACCESSES hd ->
      requested_first hd rx = 0 ->
      requested_count hd rx = 8 ->
      (forall k,
          0 <= k < 8 ->
          snd (CLG_GetClientAccessReportByIndex w k (log_time w)) = 6
          /\ fst (fst (CLG_GetClientAccessReportByIndex w k (log_time w)))
             = (if (k =? 2) || (k =? 5) then CLG_SUCCESS else CLG_INDEXTOOLARGE)) ->
      exists tx',
        handle_client_accesses_by_index hd w rx tx = ([], Value tt tx')
        /\ tx_status tx' = tx_status tx
        /\ tx_member tx' Rpy.client_accesses_by_index_n_clients = Some (W_u32 2)
        /\ tx_member tx' Rpy.client_accesses_by_index_next_index = Some (W_u32 8)
        /\ tx_member tx' Rpy.client_accesses_by_index_n_indices = Some (W_u32 6)).
Proof.
  assert (Hb : log_active w (log_time w) (visited hd rx) (requested_first hd rx) ->
      exists tx',
        handle_client_accesses_by_index hd w rx tx = ([], Value tt tx')
        /\ tx_status tx' = tx_status tx
        /\ tx_reply tx' = RPY_CLIENT_ACCESSES_BY_INDEX
        /\ tx_member tx' Rpy.client_accesses_by_index_next_index
           = Some (W_u32 (htonl (requested_first hd rx + Z.of_nat (visited hd rx))))
        /\ tx_member tx' Rpy.client_accesses_by_index_n_clients
           = Some (W_u32 (htonl (Z.of_nat
                (List.length (rows_found w (log_time w) (visited hd rx)
                                         (requested_first hd rx))))))
        /\ (forall (k : nat) (m : Rpy.client_member) report,
              nth_error (rows_found w (log_time w) (visited hd rx)
                                    (requested_first hd rx)) k = Some report ->
              tx_member tx' (Rpy.client_accesses_by_index_clients (Z.of_nat k) m)
              = Some (wire_of_client_member m report))
        /\ ((0 < visited hd rx)%nat ->
            tx_member tx' Rpy.client_accesses_by_index_n_indices
            = Some (W_u32 (htonl (snd (CLG_GetClientAccessReportByIndex w
                  (requested_first hd rx + Z.of_nat (visited hd rx) - 1)
                  (log_time w))))))).
  { intros Hact. rewrite handle_client_accesses_by_index_unfold.
    destruct (client_accesses_loop_active w (visited hd rx) (requested_first hd rx)
                (log_time w) 0 0 (with_reply RPY_CLIENT_ACCESSES_BY_INDEX tx))
      as (tx' & Hrun & Hst & Hrp & Hslots & Hframe & Hn);
      [now rewrite Z.add_0_r |].
    rewrite Z.add_0_r in *. rewrite Hrun. cbn [app Z.add].
    eexists. split; [reflexivity |].
    split; [exact Hst | split; [exact Hrp |]].
    split; [rewrite tx_member_other by discriminate; apply tx_member_same |].
    split; [apply tx_member_same |].
    split.
    - intros k m report Hk. rewrite !tx_member_other by discriminate.
      apply (Hslots k m report Hk).
    - intros Hpos. rewrite !tx_member_other by discriminate. apply Hn, Hpos. }
  split; [| split; [| split; [exact Hb | split]]].
  - intros HM. unfold visited. rewrite Z2Nat.id; [reflexivity |].
    unfold requested_count, ntohl.
    pose proof (Z.mod_pos_bound
                  (member_u32 hd rx Req.client_accesses_by_index_n_indices) (2 ^ 32)).
    lia.
  - intros Hpos Hina. rewrite handle_client_accesses_by_index_unfold.
    destruct (visited hd rx) as [| count]; [inversion Hpos |].
    destruct (CLG_GetClientAccessReportByIndex w (requested_first hd rx) (log_time w))
      as [[result report] n] eqn:E.
    cbn [fst] in Hina. subst result. exists n.
    rewrite (client_accesses_loop_inactive w count (requested_first hd rx) (log_time w)
               0 0 report n) by (now rewrite Z.add_0_r).
    reflexivity.
  - intros Hzero. rewrite handle_client_accesses_by_index_unfold.
    unfold visited. rewrite Hzero.
    replace (Z.to_nat (Z.min 0 (MAX_CLIENT_ACCESSES hd))) with 0%nat by lia.
    cbn [client_accesses_loop ret app]. now rewrite Z.add_0_r.
  - intros HM Hfirst Hcount Hlog.
    assert (Hvis : visited hd rx = 8%nat) by (unfold visited; rewrite Hcount; lia).
    destruct Hb as (tx' & Hrun & Hst & _ & Hnext & Hcl & _ & Hn).
    { rewrite Hvis, Hfirst. intros k Hk. cbn [Z.add].
      destruct (Hlog k ltac:(lia)) as [_ ->].
      destruct ((k =? 2) || (k =? 5)); [left | right]; reflexivity. }
    exists tx'. split; [exact Hrun | split; [exact Hst |]].
    rewrite Hvis, Hfirst in *.
    split; [| split; [exact Hnext |]].
    + rewrite Hcl, (rows_found_2_5 w (log_time w) Hlog). reflexivity.
    + rewrite Hn by lia. cbn [Z.of_nat Z.add Z.sub Pos.of_succ_nat Pos.succ Z.opp
                              Z.pos_sub Pos.pred_double].
      destruct (Hlog 7 ltac:(lia)) as [-> _]. reflexivity.
Qed.

(** C6 on the scenario of the specification: first = 0 and n = 8 against
    a client log of size 6 with rows at indices 2 and 5. *)
Lemma C6_witness :
  exists tx',
    handle_client_accesses_by_index Sample.headers Sample.world
      (Sample.request 6 40 (Sample.by_index 0 8))
      (reply_template Sample.headers (Sample.request 6 40 (Sample.by_index 0 8)))
    = ([], Value tt tx')
    /\ tx_status tx' = STT_SUCCESS
    /\ tx_member tx' Rpy.client_accesses_by_index_n_clients = Some (W_u32 2)
    /\ tx_member tx' Rpy.client_accesses_by_index_next_index = Some (W_u32 8)
    /\ tx_member tx' Rpy.client_accesses_by_index_n_indices = Some (W_u32 6).
Proof.
  destruct (C6_client_accesses_by_index Sample.headers Sample.world
              (Sample.request 6 40 (Sample.by_index 0 8))
              (reply_template Sample.headers (Sample.request 6 40 (Sample.by_index 0 8))))
    as (_ & _ & _ & _ & Hexample).
  apply Hexample.
  - cbn. discriminate.
  - reflexivity.
  - reflexivity.
  - intros k Hk. unfold Sample.world, Sample.world_with, Sample.log_2_5.
    cbn [CLG_GetClientAccessReportByIndex].
    destruct ((k =? 2) || (k =? 5)); split; reflexivity.
Defined.

(** C6 as stated fails in (a): with a count of zero the handler never
    asks the client log, so against an inactive client log the reply is
    an empty page with status SUCCESS, not INACTIVE. *)
Lemma C6_counterexample :
  (forall index now,
      fst (fst (CLG_GetClientAccessReportByIndex Sample.inactive_world index now))
      = CLG_INACTIVE)
  /\ exists tx',
       handle_client_accesses_by_index Sample.headers Sample.inactive_world
         (Sample.request 6 40 (Sample.by_index 0 0))
         (reply_template Sample.headers (Sample.request 6 40 (Sample.by_index 0 0)))
       = ([], Value tt tx')
       /\ tx_status tx' = STT_SUCCESS
       /\ tx_status tx' <> STT_INACTIVE.
Proof.
  split; [reflexivity |].
  eexists. split; [vm_compute; reflexivity | split; [reflexivity | discriminate]].
Qed.

(** ** Status and reply tag (claim C7) *)

Section Status_and_tag.

Variable hd : Headers.
Variable w : World.

(** The loops change neither status nor tag, except that the loop over
    the client log sets the status INACTIVE when it returns early. *)
Lemma manual_list_loop_spec (report : list RPT_ManualSamplesReport.t) :
  forall (i : Z) (tx : CMD_Reply),
  exists tx',
    manual_list_loop report i tx = ([], Value tt tx')
    /\ tx_status tx' = tx_status tx /\ tx_reply tx' = tx_reply tx.
Proof.
  induction report as [| r report IH]; intros i tx; cbn [manual_list_loop].
  - exists tx. repeat split.
  - rewrite !bind_put.
    destruct (IH (i + 1)
                (with_data (Rpy.manual_list_samples i Rpy.residual)
                   (UTI_FloatHostToNetwork (RPT_ManualSamplesReport.residual r))
                (with_data (Rpy.manual_list_samples i Rpy.orig_offset)
                   (UTI_FloatHostToNetwork (RPT_ManualSamplesReport.orig_offset r))
                (with_data (Rpy.manual_list_samples i Rpy.slewed_offset)
                   (UTI_FloatHostToNetwork (RPT_ManualSamplesReport.slewed_offset r))
                (with_data (Rpy.manual_list_samples i Rpy.when)
                   (UTI_TimevalHostToNetwork (RPT_ManualSamplesReport.when r)) tx)))))
      as (tx' & Hrun & Hst & Hrp).
    exists tx'. split; [exact Hrun | split; assumption].
Qed.

Lemma client_accesses_loop_spec (count : nat) :
  forall (first_index now i j : Z) (tx : CMD_Reply) tr r tx',
    client_accesses_loop w count first_index now i j tx = (tr, Value r tx') ->
    tr = []
    /\ tx_reply tx' = tx_reply tx
    /\ (tx_status tx' = tx_status tx
        \/ tx_status tx' = STT_INACTIVE /\ r = None).
Proof.
  induction count as [| count IH]; intros first_index now i j tx tr r tx' Hrun.
  - cbn [client_accesses_loop] in Hrun. unfold ret in Hrun.
    injection Hrun as <- _ <-. repeat split. now left.
  - destruct (CLG_GetClientAccessReportByIndex w (first_index + i) now)
      as [[[| | | other] report] n] eqn:E.
    + rewrite (client_accesses_loop_row w count first_index now i j report n tx E)
        in Hrun.
      apply IH in Hrun. exact Hrun.
    + rewrite (client_accesses_loop_skip w count first_index now i j report n tx E)
        in Hrun.
      apply IH in Hrun. exact Hrun.
    + rewrite (client_accesses_loop_inactive w count first_index now i j report n tx E)
        in Hrun.
      injection Hrun as <- <- <-. repeat split. right. now split.
    + cbn [client_accesses_loop] in Hrun. rewrite E, bind_put in Hrun.
      discriminate Hrun.
Qed.

End Status_and_tag.

(** Runs the code of a handler without a loop inside hypothesis [H],
    splitting on the answers of the collaborators. *)
Ltac run_in H :=
  cbv beta iota zeta delta
    [dispatch invoke bind ret emit call set_status set_reply put assert_0 app
     handle_dump handle_online handle_offline handle_burst
     handle_modify_minpoll handle_modify_maxpoll handle_modify_maxdelay
     handle_modify_maxdelayratio handle_modify_maxdelaydevratio
     handle_modify_maxupdateskew handle_modify_makestep handle_settime
     handle_local handle_manual handle_n_sources handle_source_data
     handle_rekey handle_allowdeny handle_cmdallowdeny
     CAM_AddAccessRestriction CAM_CheckAccessRestriction handle_accheck
     handle_cmdaccheck handle_add_source handle_del_source
     handle_writertc handle_dfreq handle_doffset handle_tracking
     handle_smoothing handle_smoothtime handle_sourcestats
     handle_rtcreport handle_trimrtc handle_cyclelogs
     handle_manual_delete handle_make_step handle_activity
     handle_reselect_distance handle_reselect handle_modify_minstratum
     handle_modify_polltarget handle_refresh negb] in H.

Ltac split_run H :=
  repeat (run_in H;
          match type of H with
          | context [match ?c with _ => _ end] =>
              lazymatch c with
              | context [match _ with _ => _ end] => fail
              | _ => destruct c eqn:?
              end
          end);
  run_in H.




(** ** MODIFY-MAXPOLL and MODIFY-MINSTRATUM (claim C8) *)




(** ** Initialisation (claim C9) *)

Section Initialisation.

Variable hd : Headers.
Variable sys : Sys.



(** The sockets of [CAM_Initialise] are opened without any assertion. *)
Lemma prepare_socket_inet (family : sa_family_t) (port_number : Z) :
  family = AF_INET \/ family = AF_INET6 ->
  exists tr fd, prepare_socket hd sys family port_number = (tr, inl fd).
Proof.
  intros [-> | ->]; unfold prepare_socket; cbv zeta;
    repeat match goal with
           | |- context [if ?c then _ else _] => destruct c
           end; do 2 eexists; reflexivity.
Qed.

End Initialisation.




(** * Further properties of the code *)

(** ** The paths of the dispatcher *)

(** A reply to a datagram that arrived on the socket of its family leaves
    through the descriptor it arrived on. *)
Lemma transmit_reply_back (hd : Headers) (st : State) (sock_fd : Z) (rcv : Received)
    (msg : CMD_Reply) :
  source_present hd st sock_fd rcv ->
  transmit_reply hd st msg (recv_where_from rcv)
  = returned [sent_back hd sock_fd rcv msg].
Proof.
  intros (_ & _ & Harr). unfold transmit_reply, sent_back.
  destruct (recv_where_from rcv); cbn in Harr |- *;
    first [contradiction | now rewrite Harr].
Qed.

Lemma process_request_paths (hd : Headers) (w : World) (st : State) (sock_fd : Z)
    (rcv : Received) :
  source_present hd st sock_fd rcv ->
  Path hd w st sock_fd rcv (read_from_cmd_socket hd w st sock_fd rcv).
Proof.
  intros Hs.
  destruct (origin_local (recv_where_from rcv)) eqn:Hl;
    [| destruct (ADF_IsAllowed w (remote_ip_of rcv)) eqn:Ha].
  3: { rewrite (pipeline_denied hd w st sock_fd rcv Hs Hl Ha).
       now apply Path_denied. }
  all: assert (Hg : access_granted w rcv)
         by (unfold access_granted; rewrite ?Hl, ?Ha; tauto).
  all: destruct (header_sane_dec hd rcv) as [Hh | Hh];
    [| rewrite (pipeline_bad_header hd w st sock_fd rcv Hs Hg Hh);
       now apply Path_bad_header].
  all: assert (Hwf : well_formed hd w st sock_fd rcv) by exact (conj Hs (conj Hg Hh)).
  all: rewrite (pipeline_well_formed hd w st sock_fd rcv Hwf).
  all: destruct (Z.eqb_spec (rx_version (recv_rx_message rcv)) (PROTO_VERSION_NUMBER hd))
         as [Hv | Hv]; cbn [negb].
  all: try (destruct (Z.geb_spec (rx_version (recv_rx_message rcv))
                        (PROTO_VERSION_MISMATCH_COMPAT_SERVER hd)) as [Hc | Hc];
            [rewrite (transmit_reply_back hd st sock_fd rcv _ Hs);
             apply (Path_rejected hd w st sock_fd rcv STT_BADPKTVERSION Hwf);
             left; repeat split; [exact Hv | lia]
            | now apply Path_old_version]).
  all: destruct (Z.geb_spec (command_of rcv) (N_REQUEST_TYPES hd)) as [Hc | Hc];
    [rewrite (transmit_reply_back hd st sock_fd rcv _ Hs);
     apply (Path_rejected hd w st sock_fd rcv STT_INVALID Hwf);
     right; left; repeat split; [exact Hv | unfold command_known; lia] |].
  all: destruct (Z.ltb_spec (recv_status rcv) (expected_length_of hd rcv)) as [Hn | Hn];
    [rewrite (transmit_reply_back hd st sock_fd rcv _ Hs);
     apply (Path_rejected hd w st sock_fd rcv STT_BADPKTLENGTH Hwf);
     right; right; repeat split;
     [exact Hv | exact Hc | unfold length_sufficient; lia] |].
  all: assert (Hp : passes_validation hd w st sock_fd rcv)
         by exact (conj Hwf (conj Hv (conj Hc Hn))).
  all: unfold dispatch_and_reply; fold (command_of rcv).
  all: destruct (check_authority st sock_fd (recv_where_from rcv)
                   (origin_local (recv_where_from rcv)) (command_of rcv))
         as [[|] |] eqn:Hauth.
  all: try (now apply Path_no_permission; [exact Hp | exact Hauth]).
  all: try (cbn [set_status do_it Z.eqb negb];
            rewrite (transmit_reply_back hd st sock_fd rcv _ Hs);
            now apply Path_unauthorised; [exact Hp | exact Hauth]).
  all: destruct (dispatch hd w (request_type (command_of rcv)) (recv_rx_message rcv)
                   (reply_template hd (recv_rx_message rcv))) as [tr [[] tx' |]] eqn:Hd;
    [cbn [do_it Z.eqb negb];
     rewrite (transmit_reply_back hd st sock_fd rcv _ Hs);
     now apply Path_answered; [exact Hp | exact Hauth | exact Hd]
    | now apply Path_aborted; [exact Hp | exact Hauth | exact Hd]].
Qed.

(** Every run of [read_from_cmd_socket] takes one of the paths. *)
Lemma read_from_cmd_socket_paths (hd : Headers) (w : World) (st : State) (sock_fd : Z)
    (rcv : Received) :
  Path hd w st sock_fd rcv (read_from_cmd_socket hd w st sock_fd rcv).
Proof.
  destruct (Z.ltb_spec (recv_status rcv) 0) as [Hneg | Hpos].
  { unfold read_from_cmd_socket. apply Z.ltb_lt in Hneg as E. rewrite E.
    now apply Path_recv_error. }
  destruct (Z.ltb_spec (sizeof_sockaddr_all hd) (recv_from_length rcv)) as [Hbig | Hbig].
  { unfold read_from_cmd_socket.
    apply Z.ltb_ge in Hpos as E. rewrite E.
    rewrite Z.gtb_ltb. apply Z.ltb_lt in Hbig as E'. rewrite E'. cbn [orb].
    apply Path_no_source; [exact Hpos | now left]. }
  destruct (Z.leb_spec (recv_from_length rcv) (sizeof_sa_family hd)) as [Hsmall | Hsmall].
  { unfold read_from_cmd_socket.
    apply Z.ltb_ge in Hpos as E. rewrite E.
    apply Z.leb_le in Hsmall as E'. rewrite E', orb_true_r.
    apply Path_no_source; [exact Hpos | now right; left]. }
  destruct (recv_where_from rcv) as [a p | a p | path | family] eqn:Hfrom.
  - destruct (Z.eq_dec sock_fd (sock_fd4 st)) as [Heq | Hne].
    + apply process_request_paths. repeat split; try lia. now rewrite Hfrom.
    + unfold read_from_cmd_socket.
      apply Z.ltb_ge in Hpos as E. rewrite E.
      rewrite Z.gtb_ltb. apply Z.ltb_ge in Hbig as E1. rewrite E1.
      apply Z.leb_gt in Hsmall as E2. rewrite E2. cbn [orb].
      destruct (SCH_GetLastEventTime w) as [cooked_now now]. rewrite Hfrom.
      cbn [UTI_SockaddrToIPAndPort]. apply Z.eqb_neq in Hne as E3. rewrite E3.
      apply Path_wrong_socket; [exact Hpos | now rewrite Hfrom].
  - destruct (Z.eq_dec sock_fd (sock_fd6 st)) as [Heq | Hne].
    + apply process_request_paths. repeat split; try lia. now rewrite Hfrom.
    + unfold read_from_cmd_socket.
      apply Z.ltb_ge in Hpos as E. rewrite E.
      rewrite Z.gtb_ltb. apply Z.ltb_ge in Hbig as E1. rewrite E1.
      apply Z.leb_gt in Hsmall as E2. rewrite E2. cbn [orb].
      destruct (SCH_GetLastEventTime w) as [cooked_now now]. rewrite Hfrom.
      cbn [UTI_SockaddrToIPAndPort]. apply Z.eqb_neq in Hne as E3. rewrite E3.
      apply Path_wrong_socket; [exact Hpos | now rewrite Hfrom].
  - destruct (Z.eq_dec sock_fd (sock_fdu st)) as [Heq | Hne].
    + apply process_request_paths. repeat split; try lia. now rewrite Hfrom.
    + unfold read_from_cmd_socket.
      apply Z.ltb_ge in Hpos as E. rewrite E.
      rewrite Z.gtb_ltb. apply Z.ltb_ge in Hbig as E1. rewrite E1.
      apply Z.leb_gt in Hsmall as E2. rewrite E2. cbn [orb].
      destruct (SCH_GetLastEventTime w) as [cooked_now now]. rewrite Hfrom.
      cbn [UTI_SockaddrToIPAndPort sa_family]. apply Z.eqb_neq in Hne as E3. rewrite E3.
      apply Path_wrong_socket; [exact Hpos | now rewrite Hfrom].
  - unfold read_from_cmd_socket.
    apply Z.ltb_ge in Hpos as E. rewrite E.
    rewrite Z.gtb_ltb. apply Z.ltb_ge in Hbig as E1. rewrite E1.
    apply Z.leb_gt in Hsmall as E2. rewrite E2. cbn [orb].
    destruct (SCH_GetLastEventTime w) as [cooked_now now]. rewrite Hfrom.
    cbn [UTI_SockaddrToIPAndPort sa_family].
    apply Path_no_source; [exact Hpos | right; right; now exists family].
Qed.

(** ** The permission table *)

Lemma permissions_at_inv (c : Z) (p : PERMIT) :
  permissions_at c = Some p -> exists n : nat, (n < 54)%nat /\ c = Z.of_nat n.
Proof.
  unfold permissions_at. destruct (Z.ltb_spec c 0) as [Hneg | Hpos]; [discriminate |].
  intros E. exists (Z.to_nat c). split; [| lia].
  change 54%nat with (List.length permissions).
  apply nth_error_Some. congruence.
Qed.

(** The table has the levels OPEN and AUTH only, and OPEN exactly for the
    opcodes of [open_to_all]. *)
Lemma permissions_levels (c : Z) :
  match permissions_at c with
  | Some PERMIT_OPEN => open_to_all (request_type c) = true
  | Some PERMIT_LOCAL => False
  | Some PERMIT_AUTH => open_to_all (request_type c) = false
  | None => True
  end.
Proof.
  assert (H : permissions_at c = None
              \/ exists n : nat, (n < 54)%nat /\ c = Z.of_nat n).
  { destruct (permissions_at c) as [p |] eqn:E;
      [right; exact (permissions_at_inv c p E) | left; reflexivity]. }
  destruct H as [-> | (n & Hn & ->)]; [exact I |].
  do 54 (destruct n as [| n]; [vm_compute; reflexivity |]).
  lia.
Qed.

(** A client on an IPv4 or IPv6 socket is allowed the OPEN opcodes and no
    others, whether it is local or not. *)
Lemma check_authority_network (st : State) (sock_fd : Z) (where_from : sockaddr_all)
    (localhost : bool) (c : Z) :
  sa_family where_from <> AF_UNIX ->
  check_authority st sock_fd where_from localhost c
  = match permissions_at c with
    | Some PERMIT_OPEN => Some true
    | Some _ => Some false
    | None => None
    end.
Proof.
  intros Hf. unfold check_authority.
  pose proof (permissions_levels c) as L.
  destruct (sa_family where_from); try congruence;
    destruct (permissions_at c) as [[| |] |]; first [reflexivity | contradiction].
Qed.

(** ** What the handlers do to the collaborators *)

(** Runs the code of a handler without a loop in the goal, splitting on
    the answers of the collaborators. *)
Ltac run_goal :=
  cbv beta iota zeta delta
    [dispatch invoke bind ret emit call set_status set_reply put assert_0 app
     handle_dump handle_online handle_offline handle_burst
     handle_modify_minpoll handle_modify_maxpoll handle_modify_maxdelay
     handle_modify_maxdelayratio handle_modify_maxdelaydevratio
     handle_modify_maxupdateskew handle_modify_makestep handle_settime
     handle_local handle_manual handle_n_sources handle_source_data
     handle_rekey handle_allowdeny handle_cmdallowdeny
     CAM_AddAccessRestriction CAM_CheckAccessRestriction handle_accheck
     handle_cmdaccheck handle_add_source handle_del_source
     handle_writertc handle_dfreq handle_doffset handle_tracking
     handle_smoothing handle_smoothtime handle_sourcestats
     handle_rtcreport handle_trimrtc handle_cyclelogs
     handle_manual_delete handle_make_step handle_activity
     handle_reselect_distance handle_reselect handle_modify_minstratum
     handle_modify_polltarget handle_refresh negb fst snd].

Ltac split_goal :=
  repeat (run_goal;
          match goal with
          | |- context [match ?c with _ => _ end] =>
              lazymatch c with
              | context [match _ with _ => _ end] => fail
              | _ => destruct c eqn:?
              end
          end);
  run_goal.

(** The loop over the client log calls nobody and logs nothing. *)
Lemma client_accesses_loop_silent (w : World) (count : nat) :
  forall (first_index now i j : Z) (tx : CMD_Reply),
    fst (client_accesses_loop w count first_index now i j tx) = [].
Proof.
  induction count as [| count IH]; intros first_index now i j tx.
  - reflexivity.
  - destruct (CLG_GetClientAccessReportByIndex w (first_index + i) now)
      as [[[| | | other] report] n] eqn:E.
    + rewrite (client_accesses_loop_row w count first_index now i j report n tx E).
      apply IH.
    + rewrite (client_accesses_loop_skip w count first_index now i j report n tx E).
      apply IH.
    + now rewrite (client_accesses_loop_inactive w count first_index now i j report n
                     tx E).
    + cbn [client_accesses_loop]. now rewrite E, bind_put.
Qed.

(** The events of the two handlers with a loop are the mark of their
    call. *)
Lemma client_accesses_events (hd : Headers) (w : World) (rx : CMD_Request)
    (tx : CMD_Reply) :
  fst (dispatch hd w (Some REQ_CLIENT_ACCESSES_BY_INDEX) rx tx)
  = [Handle H_client_accesses_by_index].
Proof.
  cbn [dispatch]. unfold invoke, bind, emit.
  rewrite handle_client_accesses_by_index_unfold.
  pose proof (client_accesses_loop_silent w (visited hd rx) (requested_first hd rx)
                (log_time w) 0 0 (with_reply RPY_CLIENT_ACCESSES_BY_INDEX tx)) as S.
  destruct (client_accesses_loop w (visited hd rx) (requested_first hd rx) (log_time w)
              0 0 (with_reply RPY_CLIENT_ACCESSES_BY_INDEX tx))
    as [tr [[[i j] |] tx' |]]; cbn [fst] in S; subst tr; reflexivity.
Qed.

Lemma manual_list_run (hd : Headers) (w : World) (rx : CMD_Request) (tx : CMD_Reply) :
  exists tx',
    dispatch hd w (Some REQ_MANUAL_LIST) rx tx = ([Handle H_manual_list], Value tt tx')
    /\ manual_list_loop (MNL_ReportSamples w (MAX_MANUAL_LIST_SAMPLES hd)) 0
         (with_data Rpy.manual_list_n_samples
            (W_u32 (htonl (Z.of_nat (List.length
               (MNL_ReportSamples w (MAX_MANUAL_LIST_SAMPLES hd))))))
            (with_reply RPY_MANUAL_LIST tx))
       = ([], Value tt tx').
Proof.
  cbn [dispatch]. unfold invoke, emit, handle_manual_list. cbv zeta.
  unfold bind at 1. rewrite bind_set_reply, bind_put.
  destruct (manual_list_loop_spec (MNL_ReportSamples w (MAX_MANUAL_LIST_SAMPLES hd)) 0
              (with_data Rpy.manual_list_n_samples
                 (W_u32 (htonl (Z.of_nat (List.length
                    (MNL_ReportSamples w (MAX_MANUAL_LIST_SAMPLES hd))))))
                 (with_reply RPY_MANUAL_LIST tx)))
    as (tx0 & Hloop & _).
  exists tx0. rewrite Hloop. split; reflexivity.
Qed.

(** An opcode of level OPEN is answered without any call that changes a
    collaborator, and without a failed assertion. *)
Lemma open_request_runs (hd : Headers) (w : World) (cmd : option REQ)
    (rx : CMD_Request) (tx : CMD_Reply) :
  open_to_all cmd = true ->
  exists tr tx',
    dispatch hd w cmd rx tx = (tr, Value tt tx') /\ collaborator_calls tr = [].
Proof.
  destruct cmd as [[] |]; try discriminate; intros _.
  all: try (destruct (manual_list_run hd w rx tx) as (tx' & -> & _);
            eexists; eexists; split; reflexivity).
  all: split_goal; eexists; eexists; split; reflexivity.
Qed.

(** Each opcode makes at most one call that changes a collaborator. *)
Lemma dispatch_calls (hd : Headers) (w : World) (cmd : option REQ) (rx : CMD_Request)
    (tx : CMD_Reply) :
  (List.length (collaborator_calls (fst (dispatch hd w cmd rx tx))) <= 1)%nat.
Proof.
  destruct cmd as [[] |].
  all: try (rewrite client_accesses_events; cbn; lia).
  all: try (destruct (manual_list_run hd w rx tx) as (tx' & -> & _); cbn; lia).
  all: split_goal; cbv [collaborator_calls flat_map app List.length]; lia.
Qed.

(** ** Properties of every run of the dispatcher *)

Ltac paths hd w st sock_fd rcv :=
  destruct (read_from_cmd_socket_paths hd w st sock_fd rcv)
    as [Hneg | Hpos Hmiss | Hpos Hmis | Hs Hl Ha | Hs Hg Hh | Hwf Hv Hold
        | s Hwf Hrej | Hp Hauth | Hp Hauth | tr Hp Hauth Hd | tr tx' Hp Hauth Hd].

(** What a client on an IPv4 or IPv6 socket is allowed runs to its end
    and changes no collaborator. *)
Lemma network_request_runs (hd : Headers) (w : World) (st : State) (sock_fd : Z)
    (where_from : sockaddr_all) (localhost : bool) (c : Z) (rx : CMD_Request)
    (tx : CMD_Reply) :
  sa_family where_from <> AF_UNIX ->
  check_authority st sock_fd where_from localhost c = Some true ->
  exists tr tx',
    dispatch hd w (request_type c) rx tx = (tr, Value tt tx')
    /\ collaborator_calls tr = [].
Proof.
  intros Hf Hauth. rewrite check_authority_network in Hauth by exact Hf.
  pose proof (permissions_levels c) as L.
  destruct (permissions_at c) as [[| |] |]; try discriminate.
  now apply open_request_runs.
Qed.

Lemma permissions_at_defined (c : Z) :
  0 <= c < Z.of_nat (List.length permissions) -> permissions_at c <> None.
Proof.
  intros Hc. unfold permissions_at.
  destruct (Z.ltb_spec c 0); [lia |]. apply nth_error_Some. lia.
Qed.

Lemma command_of_nonneg (rcv : Received) : 0 <= command_of rcv.
Proof. unfold command_of, ntohs. apply Z.mod_pos_bound. lia. Qed.



(** X2.  Once the permission table has been checked against the opcode
    count (the first assertion of [CAM_Initialise]), no datagram from an
    IPv4 or IPv6 client can make an assertion of the dispatcher fail,
    provided the scheduler hands each datagram to the dispatcher with the
    descriptor of the socket of its family: [read_from_cmd_socket]
    returns. *)
Theorem X2_network_client_cannot_stop_the_daemon
    (hd : Headers) (w : World) (st : State) (sock_fd : Z) (rcv : Received) :
  Z.of_nat (List.length permissions) = N_REQUEST_TYPES hd ->
  ~ misdelivered st sock_fd (recv_where_from rcv) ->
  sa_family (recv_where_from rcv) <> AF_UNIX ->
  completion (read_from_cmd_socket hd w st sock_fd rcv) = Returned.
Proof.
  intros Hn Hdel Hf. paths hd w st sock_fd rcv; try reflexivity.
  - contradiction.
  - rewrite check_authority_network in Hauth by exact Hf.
    destruct Hp as (_ & _ & Hc & _). unfold command_known in Hc.
    pose proof (command_of_nonneg rcv) as H0.
    assert (Hdef : permissions_at (command_of rcv) <> None)
      by (apply permissions_at_defined; lia).
    destruct (permissions_at (command_of rcv)) as [[| |] |];
      first [discriminate Hauth | congruence].
  - destruct (network_request_runs hd w st sock_fd _ _ _ (recv_rx_message rcv)
                (reply_template hd (recv_rx_message rcv)) Hf Hauth)
      as (tr' & tx' & E & C).
    rewrite E in Hd. discriminate Hd.
Qed.

(** X2 on a SOURCE-DATA request from 192.0.2.7 under a table that allows
    every address. *)
Lemma X2_witness :
  Z.of_nat (List.length permissions) = N_REQUEST_TYPES Sample.headers
  /\ completion
       (read_from_cmd_socket Sample.headers
          (with_access_table (fun _ => true) Sample.world) Sample.state 3
          (Sample.received Sample.remote4 (Sample.request 6 15 [])))
     = Returned.
Proof.
  split; [reflexivity |].
  apply (X2_network_client_cannot_stop_the_daemon Sample.headers
           (with_access_table (fun _ => true) Sample.world) Sample.state 3
           (Sample.received Sample.remote4 (Sample.request 6 15 []))).
  - reflexivity.
  - cbn. intros H. now apply H.
  - discriminate.
Defined.

Lemma dispatch_quiet (hd : Headers) (w : World) (cmd : option REQ) (rx : CMD_Request)
    (tx : CMD_Reply) (tr : list Event) (r : result unit) :
  dispatch hd w cmd rx tx = (tr, r) ->
  replies tr = [] /\ client_log tr = []
  /\ match r with Value _ tx' => same_header tx tx' | Abort => True end.
Proof.
  intros E. destruct (dispatch_spec hd w cmd rx tx) as (R & L & _ & _ & S).
  rewrite E in R, L, S. cbn [fst snd] in R, L, S. repeat split; assumption.
Qed.

Lemma replies_nil_no_send (tr : list Event) (fd : Z) (msg : CMD_Reply) (len : Z)
    (to : sockaddr_all) :
  replies tr = [] -> ~ In (Sendto fd msg len to) tr.
Proof.
  intros R Hin. apply in_split in Hin. destruct Hin as (a & b & ->).
  rewrite replies_app in R. apply app_eq_nil in R. destruct R as [_ R].
  discriminate R.
Qed.

(** X3.  Whatever is received, a reply that the dispatcher sends has the
    header of the template: the protocol version of the daemon, the
    packet type of a reply, the opcode and the sequence number of the
    request, and zero in the reserved and padding fields.  No handler
    changes any of these. *)
Theorem X3_reply_header
    (hd : Headers) (w : World) (st : State) (sock_fd : Z) (rcv : Received)
    (msg : CMD_Reply) :
  In msg (replies (events (read_from_cmd_socket hd w st sock_fd rcv))) ->
  tx_version msg = PROTO_VERSION_NUMBER hd
  /\ tx_pkt_type msg = PKT_TYPE_CMD_REPLY hd
  /\ tx_res1 msg = 0 /\ tx_res2 msg = 0
  /\ tx_command msg = rx_command (recv_rx_message rcv)
  /\ tx_sequence msg = rx_sequence (recv_rx_message rcv)
  /\ tx_pad1 msg = 0 /\ tx_pad2 msg = 0 /\ tx_pad3 msg = 0
  /\ tx_pad4 msg = 0 /\ tx_pad5 msg = 0.
Proof.
  intros Hin.
  assert (S : same_header (reply_template hd (recv_rx_message rcv)) msg).
  { paths hd w st sock_fd rcv; cbn in Hin; try contradiction.
    - destruct Hin as [<- | []]. repeat split.
    - destruct Hin as [<- | []]. repeat split.
    - destruct (dispatch_quiet _ _ _ _ _ _ _ Hd) as (R & _ & _).
      fold (replies tr) in Hin. rewrite R in Hin. contradiction.
    - destruct (dispatch_quiet _ _ _ _ _ _ _ Hd) as (R & _ & S).
      change (In msg (replies (tr ++ [sent_back hd sock_fd rcv tx']))) in Hin.
      rewrite replies_app, R in Hin. destruct Hin as [<- | []]. exact S. }
  unfold same_header in S. cbn in S. intuition congruence.
Qed.

(** X3 on a TRACKING request from 127.0.0.1. *)
Lemma X3_witness :
  exists msg,
    In msg (replies (events (read_from_cmd_socket Sample.headers Sample.world
                               Sample.state 3
                               (Sample.received Sample.loopback4
                                  (Sample.request 6 33 [])))))
    /\ tx_sequence msg = 77 /\ tx_command msg = 33.
Proof.
  eexists. split; [left; reflexivity |].
  match goal with
  | |- tx_sequence ?m = _ /\ _ =>
      destruct (X3_reply_header Sample.headers Sample.world Sample.state 3
                  (Sample.received Sample.loopback4 (Sample.request 6 33 [])) m
                  (or_introl eq_refl))
        as (_ & _ & _ & _ & Hc & Hs & _)
  end.
  split; [exact Hs | exact Hc].
Defined.

(** X4.  Every datagram that the dispatcher sends goes to the address the
    request came from, through the descriptor it was read from, and with
    the length that pktlength.c gives for the reply. *)
Theorem X4_reply_goes_back_to_the_sender
    (hd : Headers) (w : World) (st : State) (sock_fd : Z) (rcv : Received)
    (fd : Z) (msg : CMD_Reply) (len : Z) (to : sockaddr_all) :
  In (Sendto fd msg len to) (events (read_from_cmd_socket hd w st sock_fd rcv)) ->
  fd = sock_fd /\ to = recv_where_from rcv /\ len = PKL_ReplyLength hd msg.
Proof.
  intros Hin.
  paths hd w st sock_fd rcv; cbn [returned assertion_failed events In] in Hin;
    unfold logged_bad, logged_normal, sent_back in Hin.
  all: repeat match goal with
              | H : _ \/ _ |- _ => destruct H as [H | H]
              | H : False |- _ => contradiction
              | H : LOG _ _ = Sendto _ _ _ _ |- _ => discriminate H
              | H : CLG_LogCommandAccess _ _ _ = Sendto _ _ _ _ |- _ => discriminate H
              | H : Sendto _ _ _ _ = Sendto _ _ _ _ |- _ =>
                  injection H as <- <- <- <-; repeat split
              end.
  - destruct (dispatch_quiet _ _ _ _ _ _ _ Hd) as (R & _ & _).
    now apply replies_nil_no_send in Hin.
  - destruct (dispatch_quiet _ _ _ _ _ _ _ Hd) as (R & _ & _).
    apply in_app_or in Hin. destruct Hin as [Hin | [Hin | []]].
    + now apply replies_nil_no_send in Hin.
    + injection Hin as <- <- <- <-. repeat split.
Qed.

(** X4 on a TRACKING request from 127.0.0.1, read from descriptor 3. *)
Lemma X4_witness :
  exists msg len,
    In (Sendto 3 msg len Sample.loopback4)
       (events (read_from_cmd_socket Sample.headers Sample.world Sample.state 3
                  (Sample.received Sample.loopback4 (Sample.request 6 33 []))))
    /\ len = PKL_ReplyLength Sample.headers msg.
Proof.
  eexists. eexists. split; [right; right; left; reflexivity |].
  match goal with
  | |- ?l = PKL_ReplyLength _ ?m =>
      apply (X4_reply_goes_back_to_the_sender Sample.headers Sample.world Sample.state 3
               (Sample.received Sample.loopback4 (Sample.request 6 33 []))
               3 m l Sample.loopback4)
  end.
  right; right; left; reflexivity.
Defined.



Lemma source_present_not_missing (hd : Headers) (st : State) (sock_fd : Z)
    (rcv : Received) :
  source_present hd st sock_fd rcv -> ~ source_missing hd rcv.
Proof.
  intros (_ & Hlen & Harr) [H | [H | (family & H)]]; try lia.
  rewrite H in Harr. exact Harr.
Qed.

Lemma source_present_not_misdelivered (hd : Headers) (st : State) (sock_fd : Z)
    (rcv : Received) :
  source_present hd st sock_fd rcv -> ~ misdelivered st sock_fd (recv_where_from rcv).
Proof.
  intros (_ & _ & Harr) H. destruct (recv_where_from rcv); cbn in *; congruence.
Qed.





Lemma replies_logged (ip : IPAddr) (ty : CLG_Command_Type) (now : Z) (tr : list Event) :
  replies (CLG_LogCommandAccess ip ty now :: tr) = replies tr.
Proof. reflexivity. Qed.

Lemma handlers_invoked_logged (ip : IPAddr) (ty : CLG_Command_Type) (now : Z)
    (tr : list Event) :
  handlers_invoked (CLG_LogCommandAccess ip ty now :: tr) = handlers_invoked tr.
Proof. reflexivity. Qed.

(** X7.  Among the clients on the IPv4 and IPv6 sockets that pass the
    access filter, the sender's address makes no difference: two
    datagrams with the same bytes, each read from the socket of its
    family, are answered with the same reply, reach the same handler and
    end the same way.  In particular the loopback addresses have no more
    authority than an allowed remote host: the level LOCAL is not used by
    the permission table. *)
Theorem X7_reply_independent_of_network_address
    (hd : Headers) (w : World) (st : State) (sock_fd1 sock_fd2 : Z)
    (rcv1 rcv2 : Received) :
  recv_status rcv1 = recv_status rcv2 ->
  recv_rx_message rcv1 = recv_rx_message rcv2 ->
  sa_family (recv_where_from rcv1) <> AF_UNIX ->
  sa_family (recv_where_from rcv2) <> AF_UNIX ->
  source_present hd st sock_fd1 rcv1 ->
  source_present hd st sock_fd2 rcv2 ->
  access_granted w rcv1 ->
  access_granted w rcv2 ->
  replies (events (read_from_cmd_socket hd w st sock_fd1 rcv1))
  = replies (events (read_from_cmd_socket hd w st sock_fd2 rcv2))
  /\ handlers_invoked (events (read_from_cmd_socket hd w st sock_fd1 rcv1))
     = handlers_invoked (events (read_from_cmd_socket hd w st sock_fd2 rcv2))
  /\ completion (read_from_cmd_socket hd w st sock_fd1 rcv1)
     = completion (read_from_cmd_socket hd w st sock_fd2 rcv2).
Proof.
  intros Est Erx Hf1 Hf2 Hs1 Hs2 Hg1 Hg2.
  rewrite (read_from_cmd_socket_local hd w st sock_fd1 rcv1 Hs1).
  rewrite (read_from_cmd_socket_local hd w st sock_fd2 rcv2 Hs2).
  unfold process_request.
  replace (origin_local (recv_where_from rcv1) || ADF_IsAllowed w (remote_ip_of rcv1))
    with true
    by (destruct Hg1 as [-> | ->]; [reflexivity | now rewrite orb_true_r]).
  replace (origin_local (recv_where_from rcv2) || ADF_IsAllowed w (remote_ip_of rcv2))
    with true
    by (destruct Hg2 as [-> | ->]; [reflexivity | now rewrite orb_true_r]).
  cbn [negb]. rewrite <- Est, <- Erx.
  rewrite !(transmit_reply_back hd st sock_fd1 rcv1 _ Hs1).
  rewrite !(transmit_reply_back hd st sock_fd2 rcv2 _ Hs2).
  unfold dispatch_and_reply.
  rewrite !(check_authority_network st _ _ _ _ Hf1).
  rewrite !(check_authority_network st _ _ _ _ Hf2).
  repeat match goal with
         | |- context [if ?c then _ else _] =>
             lazymatch c with
             | context [if _ then _ else _] => fail
             | _ => destruct c
             end
         end;
    try (repeat split; reflexivity).
  all: destruct (permissions_at (ntohs (rx_command (recv_rx_message rcv1))))
         as [[| |] |];
    try (repeat split; reflexivity);
    try (cbn [set_status do_it Z.eqb negb];
         rewrite (transmit_reply_back hd st sock_fd1 rcv1 _ Hs1);
         rewrite (transmit_reply_back hd st sock_fd2 rcv2 _ Hs2);
         repeat split; reflexivity).
  all: destruct (dispatch hd w
                   (request_type (ntohs (rx_command (recv_rx_message rcv1))))
                   (recv_rx_message rcv1) (reply_template hd (recv_rx_message rcv1)))
         as [tr [[] tx' |]]; [| repeat split; reflexivity].
  all: cbn [do_it Z.eqb negb];
    rewrite (transmit_reply_back hd st sock_fd1 rcv1 _ Hs1);
    rewrite (transmit_reply_back hd st sock_fd2 rcv2 _ Hs2);
    cbn [after returned events completion app];
    rewrite !replies_logged, !handlers_invoked_logged;
    unfold sent_back; rewrite !replies_app, !handlers_invoked_app;
    repeat split; reflexivity.
Qed.

(** X7 on a TRACKING request sent from 127.0.0.1 and from 192.0.2.7, under
    a table that allows every address. *)
Lemma X7_witness :
  replies (events (read_from_cmd_socket Sample.headers
                     (with_access_table (fun _ => true) Sample.world) Sample.state 3
                     (Sample.received Sample.loopback4 (Sample.request 6 33 []))))
  = replies (events (read_from_cmd_socket Sample.headers
                       (with_access_table (fun _ => true) Sample.world) Sample.state 3
                       (Sample.received Sample.remote4 (Sample.request 6 33 [])))).
Proof.
  apply (X7_reply_independent_of_network_address Sample.headers
           (with_access_table (fun _ => true) Sample.world) Sample.state 3 3
           (Sample.received Sample.loopback4 (Sample.request 6 33 []))
           (Sample.received Sample.remote4 (Sample.request 6 33 []))).
  - reflexivity.
  - reflexivity.
  - discriminate.
  - discriminate.
  - unfold source_present; cbn; repeat split; first [reflexivity | discriminate].
  - unfold source_present; cbn; repeat split; first [reflexivity | discriminate].
  - left; reflexivity.
  - right; reflexivity.
Defined.

(** X8.  One datagram changes at most one thing: whatever is received,
    the dispatcher makes at most one call that changes a collaborator. *)
Theorem X8_at_most_one_change_per_datagram
    (hd : Headers) (w : World) (st : State) (sock_fd : Z) (rcv : Received) :
  (List.length (collaborator_calls (events (read_from_cmd_socket hd w st sock_fd rcv)))
   <= 1)%nat.
Proof.
  paths hd w st sock_fd rcv; try (cbn; lia).
  - pose proof (dispatch_calls hd w (request_type (command_of rcv))
                  (recv_rx_message rcv) (reply_template hd (recv_rx_message rcv))) as C.
    rewrite Hd in C. exact C.
  - pose proof (dispatch_calls hd w (request_type (command_of rcv))
                  (recv_rx_message rcv) (reply_template hd (recv_rx_message rcv))) as C.
    rewrite Hd in C. cbn [fst] in C. cbn [returned events]. unfold logged_normal, sent_back.
    change (List.length
              (collaborator_calls
                 (tr ++ [Sendto sock_fd tx' (PKL_ReplyLength hd tx')
                           (recv_where_from rcv)])) <= 1)%nat.
    rewrite collaborator_calls_app. cbn. rewrite app_nil_r. exact C.
Qed.

(** ** Replies of the handlers *)

(** X9.  A command that fails carries no payload: if a handler other than
    that of CLIENT-ACCESSES-BY-INDEX leaves another status than SUCCESS
    in a reply that it received with status SUCCESS, it has written no
    member of the reply union. *)
Theorem X9_failed_command_has_no_payload
    (hd : Headers) (w : World) (cmd : option REQ) (rx : CMD_Request)
    (tx tx' : CMD_Reply) (tr : list Event) :
  tx_status tx = STT_SUCCESS ->
  dispatch hd w cmd rx tx = (tr, Value tt tx') ->
  tx_status tx' <> STT_SUCCESS ->
  cmd <> Some REQ_CLIENT_ACCESSES_BY_INDEX ->
  tx_data tx' = tx_data tx.
Proof.
  intros Hst Hrun Hfail Hcmd.
  destruct cmd as [[] |].
  all: try congruence.
  all: try (split_run Hrun; try discriminate Hrun;
            injection Hrun as <- <-; cbn in Hfail |- *;
            first [reflexivity | congruence]).
  (* MANUAL-LIST *)
  destruct (manual_list_run hd w rx tx) as (tx0 & E & Hloop).
  rewrite E in Hrun. injection Hrun as <- <-.
  destruct (manual_list_loop_spec (MNL_ReportSamples w (MAX_MANUAL_LIST_SAMPLES hd)) 0
              (with_data Rpy.manual_list_n_samples
                 (W_u32 (htonl (Z.of_nat (List.length
                    (MNL_ReportSamples w (MAX_MANUAL_LIST_SAMPLES hd))))))
                 (with_reply RPY_MANUAL_LIST tx)))
    as (tx1 & Hloop' & Hst1 & _).
  rewrite Hloop in Hloop'. injection Hloop' as <-.
  cbn in Hst1. congruence.
Qed.

(** X9 on SETTIME while manual mode is disabled. *)
Lemma X9_witness :
  tx_data (with_status STT_NOTENABLED
             (reply_template Sample.headers (Sample.request 6 11 [])))
  = tx_data (reply_template Sample.headers (Sample.request 6 11 [])).
Proof.
  apply (X9_failed_command_has_no_payload Sample.headers Sample.world (Some REQ_SETTIME)
           (Sample.request 6 11 [])
           (reply_template Sample.headers (Sample.request 6 11 []))
           (with_status STT_NOTENABLED
              (reply_template Sample.headers (Sample.request 6 11 [])))
           [Handle H_settime]).
  - reflexivity.
  - reflexivity.
  - discriminate.
  - discriminate.
Defined.

Lemma pack_sample_slot (i : Z) (r : RPT_ManualSamplesReport.t) (tx : CMD_Reply)
    (m : Rpy.sample_member) :
  tx_member (pack_sample i r tx) (Rpy.manual_list_samples i m)
  = Some (wire_of_sample_member m r).
Proof.
  unfold pack_sample.
  destruct m;
    repeat first [ apply tx_member_same
                 | rewrite tx_member_other by (intros E; discriminate E) ].
Qed.

Lemma pack_sample_other (i : Z) (r : RPT_ManualSamplesReport.t) (tx : CMD_Reply)
    (f : Rpy.field) :
  (forall m, f <> Rpy.manual_list_samples i m) ->
  tx_member (pack_sample i r tx) f = tx_member tx f.
Proof.
  intros Hne. unfold pack_sample. now rewrite !tx_member_other by apply Hne.
Qed.

(** The loop of [handle_manual_list] packs sample number [k] into slot
    [i + k] and writes nothing else. *)
Lemma manual_list_loop_slots (report : list RPT_ManualSamplesReport.t) :
  forall (i : Z) (tx : CMD_Reply),
  exists tx',
    manual_list_loop report i tx = ([], Value tt tx')
    /\ tx_status tx' = tx_status tx
    /\ tx_reply tx' = tx_reply tx
    /\ (forall (k : nat) (m : Rpy.sample_member) r,
          nth_error report k = Some r ->
          tx_member tx' (Rpy.manual_list_samples (i + Z.of_nat k) m)
          = Some (wire_of_sample_member m r))
    /\ (forall f, below_sample i f -> tx_member tx' f = tx_member tx f)
    /\ (forall i' m,
          i + Z.of_nat (List.length report) <= i' ->
          tx_member tx' (Rpy.manual_list_samples i' m)
          = tx_member tx (Rpy.manual_list_samples i' m)).
Proof.
  induction report as [| r report IH]; intros i tx.
  - exists tx. cbn [manual_list_loop].
    split; [reflexivity | split; [reflexivity | split; [reflexivity |]]].
    split; [intros [| k] m r E; discriminate E |].
    split; reflexivity.
  - cbn [manual_list_loop]. rewrite !bind_put.
    change (manual_list_loop report (i + 1)
              (with_data (Rpy.manual_list_samples i Rpy.residual) _ _))
      with (manual_list_loop report (i + 1) (pack_sample i r tx)).
    destruct (IH (i + 1) (pack_sample i r tx))
      as (tx' & Hrun & Hst & Hrp & Hslots & Hframe & Hbeyond).
    exists tx'. split; [exact Hrun |].
    split; [rewrite Hst; reflexivity | split; [rewrite Hrp; reflexivity |]].
    split; [| split].
    + intros [| k] m r' Hk; cbn [nth_error] in Hk.
      * injection Hk as <-. rewrite Z.add_0_r.
        rewrite Hframe by (cbn; lia). apply pack_sample_slot.
      * replace (i + Z.of_nat (S k)) with (i + 1 + Z.of_nat k) by lia.
        now apply Hslots.
    + intros f Hf. rewrite Hframe.
      * apply pack_sample_other. intros m ->. cbn in Hf. lia.
      * destruct f; cbn in Hf |- *; try exact I. lia.
    + intros i' m Hi'. cbn [List.length] in Hi'.
      rewrite Hbeyond by lia.
      apply pack_sample_other. intros m' E. injection E as E _. lia.
Qed.

(** X10.  MANUAL-LIST always succeeds.  The reply has the tag
    MANUAL-LIST and the status it had, [n_samples] is the number of
    samples that manual.c reports, sample number [k] is in slot [k] with
    its four members, and no slot from [n_samples] on is written. *)
Theorem X10_manual_list_reply
    (hd : Headers) (w : World) (rx : CMD_Request) (tx : CMD_Reply) :
  exists tx',
    handle_manual_list hd w rx tx = ([], Value tt tx')
    /\ tx_reply tx' = RPY_MANUAL_LIST
    /\ tx_status tx' = tx_status tx
    /\ tx_member tx' Rpy.manual_list_n_samples
       = Some (W_u32 (htonl (Z.of_nat (List.length
                 (MNL_ReportSamples w (MAX_MANUAL_LIST_SAMPLES hd))))))
    /\ (forall (k : nat) (m : Rpy.sample_member) r,
          nth_error (MNL_ReportSamples w (MAX_MANUAL_LIST_SAMPLES hd)) k = Some r ->
          tx_member tx' (Rpy.manual_list_samples (Z.of_nat k) m)
          = Some (wire_of_sample_member m r))
    /\ (forall i m,
          Z.of_nat (List.length (MNL_ReportSamples w (MAX_MANUAL_LIST_SAMPLES hd))) <= i ->
          tx_member tx' (Rpy.manual_list_samples i m)
          = tx_member tx (Rpy.manual_list_samples i m)).
Proof.
  unfold handle_manual_list. cbv zeta. rewrite bind_set_reply, bind_put.
  destruct (manual_list_loop_slots (MNL_ReportSamples w (MAX_MANUAL_LIST_SAMPLES hd)) 0
              (with_data Rpy.manual_list_n_samples
                 (W_u32 (htonl (Z.of_nat (List.length
                    (MNL_ReportSamples w (MAX_MANUAL_LIST_SAMPLES hd))))))
                 (with_reply RPY_MANUAL_LIST tx)))
    as (tx' & Hrun & Hst & Hrp & Hslots & Hframe & Hbeyond).
  exists tx'. split; [exact Hrun |].
  split; [rewrite Hrp; reflexivity | split; [rewrite Hst; reflexivity |]].
  split; [| split].
  - rewrite Hframe by exact I. apply tx_member_same.
  - intros k m r Hk. exact (Hslots k m r Hk).
  - intros i m Hi. rewrite Hbeyond by lia.
    rewrite tx_member_other by discriminate. reflexivity.
Qed.

(** The loop over the client log started with [j] packed rows and [count]
    indices to visit writes no slot outside of [j .. j + count - 1]. *)
Lemma client_accesses_loop_slots_written (w : World) (count : nat) :
  forall (first_index now i j : Z) (tx tx' : CMD_Reply) tr r,
    client_accesses_loop w count first_index now i j tx = (tr, Value r tx') ->
    forall j' m v,
      In (Rpy.client_accesses_by_index_clients j' m, v) (tx_data tx') ->
      In (Rpy.client_accesses_by_index_clients j' m, v) (tx_data tx)
      \/ j <= j' < j + Z.of_nat count.
Proof.
  induction count as [| count IH]; intros first_index now i j tx tx' tr r Hrun j' m v Hin.
  - cbn [client_accesses_loop] in Hrun. unfold ret in Hrun.
    injection Hrun as _ _ <-. now left.
  - destruct (CLG_GetClientAccessReportByIndex w (first_index + i) now)
      as [[[| | | other] report] n] eqn:E.
    + rewrite (client_accesses_loop_row w count first_index now i j report n tx E)
        in Hrun.
      destruct (IH _ _ _ _ _ _ _ _ Hrun j' m v Hin) as [Hold | Hnew]; [| right; lia].
      unfold pack_row in Hold. cbn [tx_data with_data In] in Hold.
      repeat match goal with
             | H : _ \/ _ |- _ => destruct H as [H | H]
             | H : (_, _) = (_, _) |- _ => first [discriminate H | injection H as <- _ _]
             end;
        first [now left | right; lia].
    + rewrite (client_accesses_loop_skip w count first_index now i j report n tx E)
        in Hrun.
      destruct (IH _ _ _ _ _ _ _ _ Hrun j' m v Hin) as [Hold | Hnew]; [| right; lia].
      cbn [tx_data with_data In] in Hold. destruct Hold as [Hold | Hold];
        [discriminate Hold | now left].
    + rewrite (client_accesses_loop_inactive w count first_index now i j report n tx E)
        in Hrun.
      injection Hrun as _ _ <-. cbn [tx_data with_status with_data In] in Hin.
      destruct Hin as [Hin | Hin]; [discriminate Hin | now left].
    + cbn [client_accesses_loop] in Hrun. rewrite E, bind_put in Hrun.
      discriminate Hrun.
Qed.

(** X11.  [handle_client_accesses_by_index] never writes beyond the slots
    of its reply: whatever count the request asks for and whatever the
    client log answers, a slot [clients[j]] that the handler writes has
    an index [j] from 0 up to, and not including, the smaller of the
    requested count and [MAX_CLIENT_ACCESSES]. *)
Theorem X11_client_accesses_slots_in_bounds
    (hd : Headers) (w : World) (rx : CMD_Request) (tx tx' : CMD_Reply)
    (tr : list Event) (j : Z) (m : Rpy.client_member) (v : wire) :
  handle_client_accesses_by_index hd w rx tx = (tr, Value tt tx') ->
  In (Rpy.client_accesses_by_index_clients j m, v) (tx_data tx') ->
  ~ In (Rpy.client_accesses_by_index_clients j m, v) (tx_data tx) ->
  0 <= j < MAX_CLIENT_ACCESSES hd /\ j < requested_count hd rx.
Proof.
  intros Hrun Hin Hnew. rewrite handle_client_accesses_by_index_unfold in Hrun.
  destruct (client_accesses_loop w (visited hd rx) (requested_first hd rx) (log_time w)
              0 0 (with_reply RPY_CLIENT_ACCESSES_BY_INDEX tx))
    as [tr0 [[[i0 j0] |] tx0 |]] eqn:E; try discriminate Hrun.
  - injection Hrun as _ <-. cbn [tx_data with_data In] in Hin.
    destruct Hin as [Hin | [Hin | Hin]]; try discriminate Hin.
    destruct (client_accesses_loop_slots_written w _ _ _ _ _ _ _ _ _ E j m v Hin)
      as [Hold | Hj]; [contradiction |].
    unfold visited in Hj. lia.
  - injection Hrun as _ <-.
    destruct (client_accesses_loop_slots_written w _ _ _ _ _ _ _ _ _ E j m v Hin)
      as [Hold | Hj]; [contradiction |].
    unfold visited in Hj. lia.
Qed.

(** X11 on first = 0 and n = 8 against a client log with rows at indices
    2 and 5: the row found at index 2 is in slot 0. *)
Lemma X11_witness :
  0 <= 0 < MAX_CLIENT_ACCESSES Sample.headers
  /\ 0 < requested_count Sample.headers (Sample.request 6 40 (Sample.by_index 0 8)).
Proof.
  eapply (X11_client_accesses_slots_in_bounds Sample.headers Sample.world
            (Sample.request 6 40 (Sample.by_index 0 8))
            (reply_template Sample.headers (Sample.request 6 40 (Sample.by_index 0 8)))
            _ [] 0 Rpy.ip (W_IPAddr (IPADDR_INET4 (0xc0000200 + 2)))).
  - vm_compute. reflexivity.
  - cbn [tx_data In]. do 22 right. left. reflexivity.
  - intros [].
Defined.

(** The loop over the client log stops at an assertion only at an index
    for which the client log answers with an unknown status. *)
Lemma client_accesses_loop_abort (w : World) (count : nat) :
  forall (first_index now i j : Z) (tx : CMD_Reply),
    snd (client_accesses_loop w count first_index now i j tx) = Abort ->
    exists k other,
      0 <= k < Z.of_nat count
      /\ fst (fst (CLG_GetClientAccessReportByIndex w (first_index + i + k) now))
         = CLG_other other.
Proof.
  induction count as [| count IH]; intros first_index now i j tx Hab.
  - discriminate Hab.
  - destruct (CLG_GetClientAccessReportByIndex w (first_index + i) now)
      as [[[| | | other] report] n] eqn:E.
    + rewrite (client_accesses_loop_row w count first_index now i j report n tx E)
        in Hab.
      destruct (IH _ _ _ _ _ Hab) as (k & other & Hk & Hst).
      exists (k + 1), other. split; [lia |].
      replace (first_index + i + (k + 1)) with (first_index + (i + 1) + k) by lia.
      exact Hst.
    + rewrite (client_accesses_loop_skip w count first_index now i j report n tx E)
        in Hab.
      destruct (IH _ _ _ _ _ Hab) as (k & other & Hk & Hst).
      exists (k + 1), other. split; [lia |].
      replace (first_index + i + (k + 1)) with (first_index + (i + 1) + k) by lia.
      exact Hst.
    + rewrite (client_accesses_loop_inactive w count first_index now i j report n tx E)
        in Hab.
      discriminate Hab.
    + exists 0, other. split; [lia |]. rewrite Z.add_0_r, E. reflexivity.
Qed.

(** X12.  An assertion inside the switch of the dispatcher fails only in
    these cases: the opcode is SUBNETS-ACCESSED or CLIENT-ACCESSES (or no
    opcode at all), for which the switch has no case; ADD-SERVER or
    ADD-PEER when [NSR_AddSource] answers [NSR_NoSuchSource]; DEL-SOURCE
    when [NSR_RemoveSource] answers with a status other than
    [NSR_Success] and [NSR_NoSuchSource]; CLIENT-ACCESSES-BY-INDEX when
    the client log answers with a status that is none of success, index
    too large and inactive at an index that the handler visits.  Every
    other handler returns whatever the request holds and whatever the
    collaborators answer. *)
Theorem X12_causes_of_failed_assertions
    (hd : Headers) (w : World) (cmd : option REQ) (rx : CMD_Request) (tx : CMD_Reply) :
  snd (dispatch hd w cmd rx tx) = Abort ->
  no_case cmd = true
  \/ ((cmd = Some REQ_ADD_SERVER \/ cmd = Some REQ_ADD_PEER)
      /\ exists rem_addr type params,
           NSR_AddSource w rem_addr type params = NSR_NoSuchSource
           /\ collaborator_calls (fst (dispatch hd w cmd rx tx))
              = [Call.NSR_AddSource rem_addr type params])
  \/ (cmd = Some REQ_DEL_SOURCE
      /\ exists rem_addr,
           NSR_RemoveSource w rem_addr <> NSR_Success
           /\ NSR_RemoveSource w rem_addr <> NSR_NoSuchSource
           /\ collaborator_calls (fst (dispatch hd w cmd rx tx))
              = [Call.NSR_RemoveSource rem_addr])
  \/ (cmd = Some REQ_CLIENT_ACCESSES_BY_INDEX
      /\ exists k other,
           0 <= k < Z.of_nat (visited hd rx)
           /\ fst (fst (CLG_GetClientAccessReportByIndex w (requested_first hd rx + k)
                          (log_time w)))
              = CLG_other other).
Proof.
  intros Hab.
  destruct cmd as [[] |]; try (left; reflexivity).
  all: try (exfalso; split_run Hab; cbn [snd] in Hab; discriminate Hab).
  - (* ADD-SERVER *)
    right; left. split; [now left |].
    run_goal. split_run Hab; run_goal; cbn [snd] in Hab; try discriminate Hab.
    all: match goal with
         | E : NSR_AddSource _ ?r ?t ?p = NSR_NoSuchSource |- _ =>
             exists r, t, p; split; [exact E | reflexivity]
         end.
  - (* ADD-PEER *)
    right; left. split; [now right |].
    run_goal. split_run Hab; run_goal; cbn [snd] in Hab; try discriminate Hab.
    all: match goal with
         | E : NSR_AddSource _ ?r ?t ?p = NSR_NoSuchSource |- _ =>
             exists r, t, p; split; [exact E | reflexivity]
         end.
  - (* DEL-SOURCE *)
    right; right; left. split; [reflexivity |].
    run_goal. split_run Hab; run_goal; cbn [snd] in Hab; try discriminate Hab.
    all: match goal with
         | E : NSR_RemoveSource _ ?r = _ |- _ =>
             exists r; rewrite E;
             split; [discriminate | split; [discriminate | reflexivity]]
         end.
  - (* CLIENT-ACCESSES-BY-INDEX *)
    right; right; right. split; [reflexivity |].
    cbn [dispatch] in Hab. unfold invoke, bind, emit in Hab.
    rewrite handle_client_accesses_by_index_unfold in Hab.
    pose proof (client_accesses_loop_abort w (visited hd rx) (requested_first hd rx)
                  (log_time w) 0 0 (with_reply RPY_CLIENT_ACCESSES_BY_INDEX tx)) as L.
    destruct (client_accesses_loop w (visited hd rx) (requested_first hd rx) (log_time w)
                0 0 (with_reply RPY_CLIENT_ACCESSES_BY_INDEX tx))
      as [tr0 [[[i0 j0] |] tx0 |]]; try discriminate Hab.
    destruct (L eq_refl) as (k & other & Hk & Hst).
    exists k, other. split; [exact Hk |].
    rewrite Z.add_0_r in Hst. exact Hst.
  - (* MANUAL-LIST *)
    exfalso. destruct (manual_list_run hd w rx tx) as (tx' & E & _).
    rewrite E in Hab. discriminate Hab.
Qed.

(** X12 on a SUBNETS-ACCESSED request. *)
Lemma X12_witness :
  snd (dispatch Sample.headers Sample.world (Some REQ_SUBNETS_ACCESSED)
         (Sample.request 6 38 [])
         (reply_template Sample.headers (Sample.request 6 38 [])))
  = Abort
  /\ no_case (Some REQ_SUBNETS_ACCESSED) = true.
Proof.
  split; [reflexivity |].
  destruct (X12_causes_of_failed_assertions Sample.headers Sample.world
              (Some REQ_SUBNETS_ACCESSED) (Sample.request 6 38 [])
              (reply_template Sample.headers (Sample.request 6 38 [])) eq_refl)
    as [H | [[[H | H] _] | [[H _] | [H _]]]];
    first [exact H | discriminate H].
Defined.

(** ** Sockets: creation, initialisation and shutdown *)

Lemma syscalls_app (a b : list (Event + Syscall)) :
  syscalls (a ++ b) = syscalls a ++ syscalls b.
Proof. apply flat_map_app. Qed.

Lemma opened_app (sys : Sys) (a b : list (Event + Syscall)) :
  opened sys (a ++ b) = opened sys a ++ opened sys b.
Proof. apply flat_map_app. Qed.

Lemma closed_app (a b : list (Event + Syscall)) : closed (a ++ b) = closed a ++ closed b.
Proof. apply flat_map_app. Qed.

Lemma registered_app (a b : list (Event + Syscall)) :
  registered (a ++ b) = registered a ++ registered b.
Proof. apply flat_map_app. Qed.

Lemma removed_app (a b : list (Event + Syscall)) :
  removed (a ++ b) = removed a ++ removed b.
Proof. apply flat_map_app. Qed.

Ltac split_ifs :=
  repeat match goal with
         | |- context [if ?c then _ else _] =>
             lazymatch c with
             | context [if _ then _ else _] => fail
             | _ => destruct c eqn:?
             end
         end.

Lemma prepare_socket_balanced (hd : Headers) (sys : Sys) (family : sa_family_t)
    (port_number : Z) (tr : list (Event + Syscall)) (fd : Z) :
  prepare_socket hd sys family port_number = (tr, inl fd) ->
  balanced sys tr fd /\ (fd = -1 \/ 0 <= fd /\ fd = socket sys family).
Proof.
  unfold prepare_socket, balanced.
  destruct (socket sys family <? 0) eqn:Es.
  - intros E. injection E as <- <-. cbn. rewrite Es. repeat split. now left.
  - apply Z.ltb_ge in Es as Hs.
    destruct family; cbv zeta; split_ifs; intros E; try discriminate E;
      injection E as <- <-;
      cbn [app opened closed registered removed flat_map]; unfold descriptor;
      rewrite ?Es; cbn [app Z.ltb Z.compare Z.opp];
      (split; [repeat split | first [left; reflexivity | right; split; [lia | reflexivity]]]).
Qed.

(** X13.  [prepare_socket] leaks no descriptor and registers no socket
    that it does not return.  When it returns a descriptor, that is the
    socket it created, left open and bound, with the dispatcher
    registered for it.  When it returns -1 it has registered nothing and
    has closed the socket if it had created one.  It removes no handler.
    The process ends inside it only for a filesystem socket whose path
    does not fit, before anything is unlinked or bound, or for a family
    that is none of the three. *)
Theorem X13_prepare_socket_closes_or_registers
    (hd : Headers) (sys : Sys) (family : sa_family_t) (port_number : Z) :
  removed (fst (prepare_socket hd sys family port_number)) = []
  /\ match snd (prepare_socket hd sys family port_number) with
     | inl fd =>
         (fd = -1
          /\ registered (fst (prepare_socket hd sys family port_number)) = []
          /\ closed (fst (prepare_socket hd sys family port_number))
             = opened sys (fst (prepare_socket hd sys family port_number)))
         \/ (0 <= fd /\ fd = socket sys family
             /\ registered (fst (prepare_socket hd sys family port_number)) = [fd]
             /\ closed (fst (prepare_socket hd sys family port_number)) = []
             /\ opened sys (fst (prepare_socket hd sys family port_number)) = [fd]
             /\ exists my_addr,
                  In (sys_bind fd my_addr)
                     (syscalls (fst (prepare_socket hd sys family port_number)))
                  /\ 0 <= bind_socket sys fd my_addr)
     | inr c =>
         registered (fst (prepare_socket hd sys family port_number)) = []
         /\ (forall fd my_addr,
               ~ In (sys_bind fd my_addr)
                    (syscalls (fst (prepare_socket hd sys family port_number))))
         /\ (forall path,
               ~ In (sys_unlink path)
                    (syscalls (fst (prepare_socket hd sys family port_number))))
         /\ (c = Fatal /\ family = AF_UNIX
             /\ sizeof_sun_path hd
                <= Z.of_nat (String.length (CNF_GetBindCommandPath sys))
             \/ c = AssertionFailed /\ exists n, family = AF_other n)
     end.
Proof.
  unfold prepare_socket.
  destruct (socket sys family <? 0) eqn:Es.
  - cbn. rewrite Es. split; [reflexivity |]. left. repeat split.
  - apply Z.ltb_ge in Es as Hs.
    destruct family; cbv zeta; split_ifs;
      cbn [fst snd app opened closed registered removed syscalls flat_map];
      rewrite ?Es; cbn [app];
      (split; [reflexivity |]).
    all: try (left; repeat split; fail).
    all: try (right; split; [exact Hs |]; split; [reflexivity |];
              split; [reflexivity |]; split; [reflexivity |]; split; [reflexivity |];
              eexists; split;
              [cbn [In]; repeat first [left; reflexivity | right]
              | match goal with
                | E : (bind_socket _ _ _ <? 0) = false |- _ =>
                    apply Z.ltb_ge in E; exact E
                end]).
    all: split; [reflexivity |];
      (split; [intros fd my_addr Hin; cbn [In] in Hin;
               repeat (destruct Hin as [Hin | Hin]; [discriminate Hin |]); exact Hin |]);
      (split; [intros path Hin; cbn [In] in Hin;
               repeat (destruct Hin as [Hin | Hin]; [discriminate Hin |]); exact Hin |]).
    + left. split; [reflexivity | split; [reflexivity |]].
      match goal with
      | E : (_ >=? _) = true |- _ => apply Z.geb_le in E; exact E
      end.
    + right. split; [reflexivity | now eexists].
    + right. split; [reflexivity | now eexists].
    + right. split; [reflexivity | now eexists].
    + right. split; [reflexivity | now eexists].
Qed.

(** X14.  A socket option that cannot be set is not fatal: the answers of
    [setsockopt] change neither what [prepare_socket] returns nor the
    system calls it makes, only whether an error is logged. *)
Theorem X14_setsockopt_failure_is_not_fatal
    (hd : Headers) (sys : Sys) (answers : Z -> string -> Z) (family : sa_family_t)
    (port_number : Z) :
  snd (prepare_socket hd (with_setsockopt answers sys) family port_number)
  = snd (prepare_socket hd sys family port_number)
  /\ syscalls (fst (prepare_socket hd (with_setsockopt answers sys) family port_number))
     = syscalls (fst (prepare_socket hd sys family port_number)).
Proof.
  unfold prepare_socket.
  cbn [with_setsockopt socket setsockopt bind_socket CNF_GetCommandPort
       CNF_GetBindCommandAddress CNF_GetBindCommandPath].
  destruct (socket sys family <? 0); [split; reflexivity |].
  destruct family; cbv zeta;
    repeat match goal with
           | |- context [if ?c then [inl (LOG LOGS_ERR ?msg)] else []] => destruct c
           end;
    split_ifs; split; reflexivity.
Qed.

Lemma balanced_none (sys : Sys) : balanced sys [] (-1).
Proof. repeat split. Qed.

(** What [CAM_Initialise] has done when it is past its assertions: it has
    prepared the sockets that the command port and the address family
    call for, one after the other, and then either created the access
    table or ended the process. *)
Lemma CAM_Initialise_sockets (hd : Headers) (sys : Sys) (st : State) (family : Z)
    (tr : list (Event + Syscall)) (c : Completion) (st' : State) :
  CAM_Initialise hd sys st family = (tr, c, st') ->
  c <> AssertionFailed ->
  exists tr4 tr6 last,
    tr = tr4 ++ tr6 ++ [last]
    /\ balanced sys tr4 (sock_fd4 st') /\ balanced sys tr6 (sock_fd6 st')
    /\ sock_fdu st' = -1 /\ initialised st' = 1
    /\ (c = Returned /\ last = inr sys_ADF_CreateTable
        /\ (CNF_GetCommandPort sys = 0 \/ 0 <= sock_fd4 st' \/ 0 <= sock_fd6 st')
        \/ c = Fatal /\ last = inl (LOG LOGS_FATAL "Could not open any command socket")
           /\ CNF_GetCommandPort sys <> 0 /\ sock_fd4 st' < 0 /\ sock_fd6 st' < 0)
    /\ (CNF_GetCommandPort sys = 0 \/ family = IPADDR_INET6_tag ->
        tr4 = [] /\ sock_fd4 st' = -1)
    /\ (CNF_GetCommandPort sys = 0 \/ family = IPADDR_INET4_tag ->
        tr6 = [] /\ sock_fd6 st' = -1)
    /\ (tr4 = []
        \/ tr4 = fst (prepare_socket hd sys AF_INET (CNF_GetCommandPort sys)))
    /\ (tr6 = []
        \/ tr6 = fst (prepare_socket hd sys AF_INET6 (CNF_GetCommandPort sys))).
Proof.
  unfold CAM_Initialise.
  destruct (negb (initialised st =? 0)); [intros E; injection E as _ <- _; congruence |].
  destruct (negb (Z.of_nat (List.length permissions) =? N_REQUEST_TYPES hd));
    [intros E; injection E as _ <- _; congruence |].
  destruct (negb (init_loop hd sys (Z.to_nat (N_REQUEST_TYPES hd)) 0));
    [intros E; injection E as _ <- _; congruence |].
  destruct (prepare_socket_inet hd sys AF_INET (CNF_GetCommandPort sys) (or_introl eq_refl))
    as (t4 & f4 & E4).
  destruct (prepare_socket_inet hd sys AF_INET6 (CNF_GetCommandPort sys)
              (or_intror eq_refl)) as (t6 & f6 & E6).
  destruct (prepare_socket_balanced hd sys _ _ _ _ E4) as (B4 & _).
  destruct (prepare_socket_balanced hd sys _ _ _ _ E6) as (B6 & _).
  rewrite E4, E6.
  pose proof (balanced_none sys) as B0.
  assert (R : forall (b : bool) (t : list (Event + Syscall)) (f : Z),
             (if b then (t, @inl Z Completion f) else ([], inl (-1)))
             = (if b then t else [], inl (if b then f else -1)))
    by (intros [] ? ?; reflexivity).
  rewrite !R. cbv beta iota.
  set (want4 := negb (CNF_GetCommandPort sys =? 0)
                && ((family =? IPADDR_UNSPEC_tag) || (family =? IPADDR_INET4_tag))).
  set (want6 := negb (CNF_GetCommandPort sys =? 0)
                && ((family =? IPADDR_UNSPEC_tag) || (family =? IPADDR_INET6_tag))).
  assert (H4 : CNF_GetCommandPort sys = 0 \/ family = IPADDR_INET6_tag -> want4 = false).
  { unfold want4, IPADDR_UNSPEC_tag, IPADDR_INET4_tag, IPADDR_INET6_tag.
    intros [-> | ->]; [reflexivity |]. cbn. apply andb_false_r. }
  assert (H6 : CNF_GetCommandPort sys = 0 \/ family = IPADDR_INET4_tag -> want6 = false).
  { unfold want6, IPADDR_UNSPEC_tag, IPADDR_INET4_tag, IPADDR_INET6_tag.
    intros [-> | ->]; [reflexivity |]. cbn. apply andb_false_r. }
  clearbody want4 want6.
  destruct (Z.eqb_spec (CNF_GetCommandPort sys) 0) as [Hport | Hport];
    destruct (Z.ltb_spec (if want4 then f4 else -1) 0) as [Hl4 | Hl4];
    destruct (Z.ltb_spec (if want6 then f6 else -1) 0) as [Hl6 | Hl6];
    cbn [negb andb]; intros E Hc; injection E as <- <- <-;
    cbn [sock_fdu sock_fd4 sock_fd6 initialised];
    exists (if want4 then t4 else []), (if want6 then t6 else []);
    eexists;
    (split; [reflexivity |]);
    (split; [destruct want4; assumption |]);
    (split; [destruct want6; assumption |]);
    (split; [reflexivity |]); (split; [reflexivity |]);
    (split;
     [first [left; split; [reflexivity | split; [reflexivity | lia]]
            | right; split; [reflexivity | split; [reflexivity | lia]]] |]);
    (split; [intros H; rewrite (H4 H); split; reflexivity |]);
    (split; [intros H; rewrite (H6 H); split; reflexivity |]);
    (split; [destruct want4 | destruct want6];
     first [left; reflexivity | right; reflexivity]).
Qed.

(** [prepare_socket] creates sockets of the family it is called for
    only. *)
Lemma prepare_socket_family (hd : Headers) (sys : Sys) (family f : sa_family_t)
    (port_number : Z) :
  In (sys_socket f) (syscalls (fst (prepare_socket hd sys family port_number))) ->
  f = family.
Proof.
  unfold prepare_socket.
  destruct (socket sys family <? 0).
  - cbn. intros [E | []]. now injection E.
  - destruct family; cbv zeta; split_ifs;
      cbn [fst snd app syscalls flat_map In]; intros Hin;
      repeat (destruct Hin as [Hin | Hin];
              [first [discriminate Hin | now injection Hin] |]);
      contradiction.
Qed.

Ltac perm_count :=
  apply (Permutation_count_occ Z.eq_dec); intros ?;
  rewrite ?count_occ_app; cbn [count_occ]; lia.

(** X15.  Past its assertions, [CAM_Initialise] leaves the module
    initialised and without a filesystem socket.  It ends the process
    exactly when a command port is configured and neither an IPv4 nor an
    IPv6 socket could be opened; if one of the two fails, it carries on
    with the other.  The descriptors it keeps are those it registered
    with the scheduler, and every other socket it created is closed
    again.  With command port 0 it makes no system call but the creation
    of the access table, and when it is called for one address family it
    keeps no socket of the other. *)
Theorem X15_initialisation_outcome
    (hd : Headers) (sys : Sys) (st : State) (family : Z)
    (tr : list (Event + Syscall)) (c : Completion) (st' : State) :
  CAM_Initialise hd sys st family = (tr, c, st') ->
  c <> AssertionFailed ->
  initialised st' = 1 /\ sock_fdu st' = -1
  /\ (c = Fatal
      <-> CNF_GetCommandPort sys <> 0 /\ sock_fd4 st' < 0 /\ sock_fd6 st' < 0)
  /\ (c = Returned
      <-> CNF_GetCommandPort sys = 0 \/ 0 <= sock_fd4 st' \/ 0 <= sock_fd6 st')
  /\ registered tr = descriptor (sock_fd4 st') ++ descriptor (sock_fd6 st')
  /\ Permutation (opened sys tr) (closed tr ++ registered tr)
  /\ removed tr = []
  /\ (CNF_GetCommandPort sys = 0 -> syscalls tr = [sys_ADF_CreateTable])
  /\ (family = IPADDR_INET4_tag ->
      sock_fd6 st' = -1 /\ ~ In (sys_socket AF_INET6) (syscalls tr))
  /\ (family = IPADDR_INET6_tag ->
      sock_fd4 st' = -1 /\ ~ In (sys_socket AF_INET) (syscalls tr)).
Proof.
  intros E Hc.
  destruct (CAM_Initialise_sockets hd sys st family tr c st' E Hc)
    as (tr4 & tr6 & last & -> & (O4 & R4 & M4) & (O6 & R6 & M6) & Hu & Hi & Hend
        & H4 & H6 & P4 & P6).
  assert (Hsock : forall f,
             In (sys_socket f) (syscalls (tr4 ++ tr6 ++ [last])) ->
             tr4 <> [] /\ f = AF_INET \/ tr6 <> [] /\ f = AF_INET6).
  { intros f Hin. rewrite !syscalls_app in Hin.
    apply in_app_or in Hin. destruct Hin as [Hin | Hin];
      [| apply in_app_or in Hin; destruct Hin as [Hin | Hin]].
    - left. split; [intros ->; exact Hin |].
      destruct P4 as [-> | ->]; [contradiction |].
      now apply prepare_socket_family in Hin.
    - right. split; [intros ->; exact Hin |].
      destruct P6 as [-> | ->]; [contradiction |].
      now apply prepare_socket_family in Hin.
    - destruct Hend as [(_ & -> & _) | (_ & -> & _)]; cbn in Hin;
        [destruct Hin as [Hin | []]; discriminate Hin | contradiction]. }
  assert (Hlast : opened sys [last] = [] /\ closed [last] = []
                  /\ registered [last] = [] /\ removed [last] = []).
  { destruct Hend as [(_ & -> & _) | (_ & -> & _)]; repeat split. }
  destruct Hlast as (Ol & Cl & Rl & Ml).
  split; [exact Hi | split; [exact Hu |]].
  split; [| split].
  - destruct Hend as [(-> & _ & H) | (-> & _ & H)];
      split; intros H'; first [discriminate H' | reflexivity | exact H | lia].
  - destruct Hend as [(-> & _ & H) | (-> & _ & H)];
      split; intros H'; first [discriminate H' | reflexivity | exact H | lia].
  - rewrite !registered_app, !opened_app, !closed_app, !removed_app.
    rewrite O4, O6, R4, R6, M4, M6, Ol, Cl, Rl, Ml, !app_nil_r.
    split; [reflexivity |].
    split; [perm_count |].
    split; [reflexivity |].
    split; [| split].
    + intros Hp. destruct (H4 (or_introl Hp)) as (-> & _).
      destruct (H6 (or_introl Hp)) as (-> & _).
      destruct Hend as [(_ & -> & _) | (_ & _ & Hn & _)]; [reflexivity | contradiction].
    + intros Hf. destruct (H6 (or_intror Hf)) as (Ht & Hfd).
      split; [exact Hfd |]. intros Hin.
      destruct (Hsock _ Hin) as [(_ & Hx) | (Hx & _)]; [discriminate Hx | contradiction].
    + intros Hf. destruct (H4 (or_intror Hf)) as (Ht & Hfd).
      split; [exact Hfd |]. intros Hin.
      destruct (Hsock _ Hin) as [(Hx & _) | (_ & Hx)]; [contradiction | discriminate Hx].
Qed.

(** X15 with command port 323 and the family left open: both sockets are
    opened and kept. *)
Lemma X15_witness :
  CAM_Initialise Sample.headers Sample.sys
    {| sock_fdu := 0; sock_fd4 := 0; sock_fd6 := 0; initialised := 0 |} 0
  = (fst (fst (CAM_Initialise Sample.headers Sample.sys
                 {| sock_fdu := 0; sock_fd4 := 0; sock_fd6 := 0; initialised := 0 |} 0)),
     Returned,
     {| sock_fdu := -1; sock_fd4 := 3; sock_fd6 := 4; initialised := 1 |})
  /\ registered
       (fst (fst (CAM_Initialise Sample.headers Sample.sys
                    {| sock_fdu := 0; sock_fd4 := 0; sock_fd6 := 0; initialised := 0 |}
                    0)))
     = [3; 4].
Proof.
  assert (E : CAM_Initialise Sample.headers Sample.sys
                {| sock_fdu := 0; sock_fd4 := 0; sock_fd6 := 0; initialised := 0 |} 0
              = (fst (fst (CAM_Initialise Sample.headers Sample.sys
                             {| sock_fdu := 0; sock_fd4 := 0; sock_fd6 := 0;
                                initialised := 0 |} 0)),
                 Returned,
                 {| sock_fdu := -1; sock_fd4 := 3; sock_fd6 := 4; initialised := 1 |}))
    by reflexivity.
  split; [exact E |].
  assert (Hc : Returned <> AssertionFailed) by discriminate.
  destruct (X15_initialisation_outcome Sample.headers Sample.sys _ 0 _ Returned _ E Hc)
    as (_ & _ & _ & _ & R & _).
  exact R.
Defined.

(** [CAM_OpenUnixSocket] changes the filesystem socket only. *)
Lemma CAM_OpenUnixSocket_returned (hd : Headers) (sys : Sys) (st st' : State)
    (tr : list (Event + Syscall)) :
  CAM_OpenUnixSocket hd sys st = (tr, Returned, st') ->
  sock_fdu st = -1 ->
  balanced sys tr (sock_fdu st')
  /\ sock_fd4 st' = sock_fd4 st /\ sock_fd6 st' = sock_fd6 st
  /\ initialised st' = initialised st.
Proof.
  unfold CAM_OpenUnixSocket. intros E Hu.
  destruct (CNF_GetBindCommandPath sys) as [| ch path].
  - injection E as <- <-. rewrite Hu. repeat split.
  - destruct (prepare_socket hd sys AF_UNIX 0) as [tr0 [fd | c]] eqn:Ep.
    + injection E as <- <-. cbn [sock_fdu sock_fd4 sock_fd6 initialised].
      split; [| repeat split].
      now destruct (prepare_socket_balanced hd sys _ _ _ _ Ep).
    + injection E as _ -> _.
      unfold prepare_socket in Ep.
      destruct (socket sys AF_UNIX <? 0); [discriminate Ep |].
      cbv zeta in Ep.
      destruct (Z.of_nat (String.length (CNF_GetBindCommandPath sys))
                >=? sizeof_sun_path hd);
        [injection Ep as _ Ec; discriminate Ec |].
      destruct (bind_socket sys (socket sys AF_UNIX)
                  (sockaddr_un (CNF_GetBindCommandPath sys)) <? 0);
        discriminate Ep.
Qed.

(** What [CAM_Finalise] closes and removes. *)
Lemma CAM_Finalise_releases (sys : Sys) (st : State) :
  closed (fst (CAM_Finalise sys st))
  = descriptor (sock_fdu st) ++ descriptor (sock_fd4 st) ++ descriptor (sock_fd6 st)
  /\ removed (fst (CAM_Finalise sys st)) = closed (fst (CAM_Finalise sys st))
  /\ opened sys (fst (CAM_Finalise sys st)) = []
  /\ registered (fst (CAM_Finalise sys st)) = [].
Proof.
  unfold CAM_Finalise, descriptor. cbn [fst].
  rewrite !Z.geb_leb.
  destruct (Z.leb_spec 0 (sock_fdu st)), (Z.ltb_spec (sock_fdu st) 0); try lia;
    destruct (Z.leb_spec 0 (sock_fd4 st)), (Z.ltb_spec (sock_fd4 st) 0); try lia;
    destruct (Z.leb_spec 0 (sock_fd6 st)), (Z.ltb_spec (sock_fd6 st) 0); try lia;
    repeat split.
Qed.

(** X16.  Over the life of the module no descriptor leaks: if
    [CAM_Initialise] and then [CAM_OpenUnixSocket] return, a following
    [CAM_Finalise] closes the sockets that are still open, so that the
    descriptors closed over the three calls are those that [socket]
    returned, and the handlers removed are those that were registered.
    [CAM_Finalise] removes the handler of every socket it closes, and
    leaves the module uninitialised with no descriptor, as it was before
    [CAM_Initialise]. *)
Theorem X16_no_descriptor_outlives_the_module
    (hd : Headers) (sys : Sys) (st0 st1 st2 st3 : State) (family : Z)
    (tr1 tr2 tr3 : list (Event + Syscall)) :
  CAM_Initialise hd sys st0 family = (tr1, Returned, st1) ->
  CAM_OpenUnixSocket hd sys st1 = (tr2, Returned, st2) ->
  CAM_Finalise sys st2 = (tr3, st3) ->
  Permutation (opened sys (tr1 ++ tr2 ++ tr3)) (closed (tr1 ++ tr2 ++ tr3))
  /\ Permutation (registered (tr1 ++ tr2 ++ tr3)) (removed (tr1 ++ tr2 ++ tr3))
  /\ removed tr3 = closed tr3
  /\ st3 = {| sock_fdu := -1; sock_fd4 := -1; sock_fd6 := -1; initialised := 0 |}.
Proof.
  intros E1 E2 E3.
  assert (Hc : Returned <> AssertionFailed) by discriminate.
  destruct (CAM_Initialise_sockets hd sys st0 family tr1 Returned st1 E1 Hc)
    as (tr4 & tr6 & last & -> & (O4 & R4 & M4) & (O6 & R6 & M6) & Hu & Hi & Hend & _).
  destruct Hend as [(_ & -> & _) | (Hx & _)]; [| discriminate Hx].
  destruct (CAM_OpenUnixSocket_returned hd sys st1 st2 tr2 E2 Hu)
    as ((Ou & Ru & Mu) & H4 & H6 & _).
  destruct (CAM_Finalise_releases sys st2) as (C3 & M3 & O3 & R3).
  rewrite E3 in C3, M3, O3, R3. cbn [fst] in C3, M3, O3, R3.
  rewrite H4, H6 in C3.
  rewrite !opened_app, !closed_app, !registered_app, !removed_app.
  rewrite O4, O6, Ou, O3, R4, R6, Ru, R3, M4, M6, Mu, M3, C3.
  cbn [opened closed registered removed flat_map app]. rewrite !app_nil_r.
  split; [perm_count | split; [perm_count | split; [reflexivity |]]].
  unfold CAM_Finalise in E3. now injection E3.
Qed.

(** X16 with command port 323, the family left open and a filesystem
    socket: the sockets 3, 4 and 5 are opened and closed. *)
Lemma X16_witness :
  Permutation [3; 4; 5] [5; 3; 4].
Proof.
  destruct (X16_no_descriptor_outlives_the_module Sample.headers Sample.sys
              {| sock_fdu := 0; sock_fd4 := 0; sock_fd6 := 0; initialised := 0 |}
              {| sock_fdu := -1; sock_fd4 := 3; sock_fd6 := 4; initialised := 1 |}
              {| sock_fdu := 5; sock_fd4 := 3; sock_fd6 := 4; initialised := 1 |}
              {| sock_fdu := -1; sock_fd4 := -1; sock_fd6 := -1; initialised := 0 |}
              0 _ _ _ eq_refl eq_refl eq_refl) as (P & _).
  exact P.
Defined.

(** ** Numbers on the wire *)

Lemma be_value_be32_bytes (z : Z) : be_value (be32_bytes z) = z mod 2 ^ 32.
Proof.
  unfold be_value, be32_bytes. cbn [fold_left].
  change (2 ^ 24) with (2 ^ 8 * 2 ^ 16). change (2 ^ 16) with (2 ^ 8 * 2 ^ 8).
  change (2 ^ 32) with (256 * (256 * (256 * 256))). change (2 ^ 8) with 256.
  rewrite <- !Z.div_div by lia.
  pose proof (Z.div_mod z 256 ltac:(lia)) as H0.
  pose proof (Z.div_mod (z / 256) 256 ltac:(lia)) as H1.
  pose proof (Z.div_mod (z / 256 / 256) 256 ltac:(lia)) as H2.
  pose proof (Z.div_mod (z / 256 / 256 / 256) 256 ltac:(lia)) as H3.
  pose proof (Z.mod_pos_bound z 256 ltac:(lia)) as B0.
  pose proof (Z.mod_pos_bound (z / 256) 256 ltac:(lia)) as B1.
  pose proof (Z.mod_pos_bound (z / 256 / 256) 256 ltac:(lia)) as B2.
  pose proof (Z.mod_pos_bound (z / 256 / 256 / 256) 256 ltac:(lia)) as B3.
  apply (Z.mod_unique _ _ (z / 256 / 256 / 256 / 256)); [left |]; lia.
Qed.

Lemma be32_at_bytes (buf : list Z) (off z : Z) :
  bytes_at buf off 4 = be32_bytes z -> be32_at buf off = z mod 2 ^ 32.
Proof. intros E. unfold be32_at. rewrite E. apply be_value_be32_bytes. Qed.

Lemma int32_t_signed (z : Z) :
  - 2 ^ 31 <= z < 2 ^ 31 -> int32_t (ntohl (z mod 2 ^ 32)) = z.
Proof.
  intros Hz. unfold int32_t, ntohl. rewrite !Z.mod_mod by lia.
  destruct (Z.ltb_spec (z mod 2 ^ 32) (2 ^ 31)) as [H | H].
  - destruct (Z.le_gt_cases 0 z) as [Hp | Hn].
    + apply Z.mod_small. lia.
    + rewrite <- (Z.mod_add z 1 (2 ^ 32)) in H by lia.
      rewrite Z.mod_small in H by lia. lia.
  - destruct (Z.le_gt_cases 0 z) as [Hp | Hn].
    + rewrite Z.mod_small in H by lia. lia.
    + rewrite <- (Z.mod_add z 1 (2 ^ 32)) by lia.
      rewrite Z.mod_small by lia. lia.
Qed.

(** X17.  DOFFSET takes signed numbers: when the members [sec] and
    [usec] of the request hold the 32-bit two's complements of [sec] and
    [usec] in network order, the handler passes the offset
    [sec + 1.0e-6 * usec] with these very numbers, negative ones
    included, to [LCL_AccumulateOffset], with a correction rate of 0.  It
    logs the offset and leaves the reply as it was: the command cannot
    fail. *)
Theorem X17_doffset_is_signed
    (hd : Headers) (rx : CMD_Request) (tx : CMD_Reply) (sec usec : Z) :
  - 2 ^ 31 <= sec < 2 ^ 31 ->
  - 2 ^ 31 <= usec < 2 ^ 31 ->
  bytes_at (rx_data rx) (offsetof_data hd Req.doffset_sec) 4 = be32_bytes sec ->
  bytes_at (rx_data rx) (offsetof_data hd Req.doffset_usec) 4 = be32_bytes usec ->
  handle_doffset hd rx tx
  = ([LOG LOGS_INFO "Accumulated delta offset of %.6f seconds";
      Collab (Call.LCL_AccumulateOffset
                (D_add (D_of_long sec) (D_mul (D_const 1 1000000) (D_of_long usec)))
                (D_const 0 1))],
     Value tt tx).
Proof.
  intros Hsec Husec Esec Eusec.
  unfold handle_doffset, member_u32.
  rewrite (be32_at_bytes _ _ _ Esec), (be32_at_bytes _ _ _ Eusec).
  rewrite (int32_t_signed sec Hsec), (int32_t_signed usec Husec).
  reflexivity.
Qed.

(** X17 on an offset of -2 seconds and -500000 microseconds. *)
Lemma X17_witness :
  handle_doffset Sample.headers
    (Sample.request 6 32 (be32_bytes (-2) ++ be32_bytes (-500000)))
    (reply_template Sample.headers
       (Sample.request 6 32 (be32_bytes (-2) ++ be32_bytes (-500000))))
  = ([LOG LOGS_INFO "Accumulated delta offset of %.6f seconds";
      Collab (Call.LCL_AccumulateOffset
                (D_add (D_of_long (-2))
                       (D_mul (D_const 1 1000000) (D_of_long (-500000))))
                (D_const 0 1))],
     Value tt
       (reply_template Sample.headers
          (Sample.request 6 32 (be32_bytes (-2) ++ be32_bytes (-500000))))).
Proof.
  apply (X17_doffset_is_signed Sample.headers
           (Sample.request 6 32 (be32_bytes (-2) ++ be32_bytes (-500000)))
           (reply_template Sample.headers
              (Sample.request 6 32 (be32_bytes (-2) ++ be32_bytes (-500000))))
           (-2) (-500000)).
  - split; [discriminate | reflexivity].
  - split; [discriminate | reflexivity].
  - reflexivity.
  - reflexivity.
Defined.

(** ** The opcodes that the dispatcher answers itself *)

Lemma request_type_has_permission (c : Z) (r : REQ) :
  request_type c = Some r -> permissions_at c <> None.
Proof.
  unfold request_type, permissions_at.
  destruct (c <? 0); [discriminate |]. intros E.
  apply nth_error_Some. change (List.length permissions) with (List.length request_types).
  apply nth_error_Some. congruence.
Qed.

(** Every client that reaches the check of authority is allowed the
    opcodes of level OPEN. *)
Lemma authority_open (hd : Headers) (st : State) (sock_fd : Z) (rcv : Received)
    (localhost : bool) :
  source_present hd st sock_fd rcv ->
  open_to_all (request_type (command_of rcv)) = true ->
  check_authority st sock_fd (recv_where_from rcv) localhost (command_of rcv) = Some true.
Proof.
  intros Hs Hopen.
  assert (Hperm : permissions_at (command_of rcv) = Some PERMIT_OPEN).
  { pose proof (permissions_levels (command_of rcv)) as L.
    destruct (request_type (command_of rcv)) as [r |] eqn:Er; [| discriminate Hopen].
    pose proof (request_type_has_permission _ _ Er) as D.
    destruct (permissions_at (command_of rcv)) as [[| |] |];
      first [reflexivity | contradiction | congruence]. }
  destruct Hs as (_ & _ & Harr). unfold check_authority.
  destruct (recv_where_from rcv); cbn [sa_family arrived_on] in Harr |- *;
    rewrite ?Hperm; try reflexivity.
  now rewrite Harr, Z.eqb_refl.
Qed.

(** X18.  NULL is a ping and LOGON always fails, for every client: a
    request with one of these opcodes that passes the validation
    pipeline, from whatever origin, is recorded as a normal access and
    answered at once, without a handler and without a call into another
    module.  The answer to NULL is the template (status SUCCESS, reply
    tag NULL); the answer to LOGON is the template with status FAILED. *)
Theorem X18_null_and_logon
    (hd : Headers) (w : World) (st : State) (sock_fd : Z) (rcv : Received) :
  passes_validation hd w st sock_fd rcv ->
  (request_type (command_of rcv) = Some REQ_NULL ->
   read_from_cmd_socket hd w st sock_fd rcv
   = returned [logged_normal w rcv;
               sent_back hd sock_fd rcv (reply_template hd (recv_rx_message rcv))])
  /\ (request_type (command_of rcv) = Some REQ_LOGON ->
      read_from_cmd_socket hd w st sock_fd rcv
      = returned [logged_normal w rcv;
                  sent_back hd sock_fd rcv
                    (with_status STT_FAILED (reply_template hd (recv_rx_message rcv)))]).
Proof.
  intros Hp. pose proof Hp as ((Hs & _) & _).
  rewrite (pipeline_valid hd w st sock_fd rcv Hp). unfold dispatch_and_reply.
  split; intros Hcmd;
    rewrite (authority_open hd st sock_fd rcv _ Hs) by (now rewrite Hcmd);
    rewrite Hcmd; cbn [dispatch ret set_status do_it Z.eqb negb];
    rewrite (transmit_reply_back hd st sock_fd rcv _ Hs); reflexivity.
Qed.

(** X18 on a LOGON request from 192.0.2.7 under a table that allows every
    address. *)
Lemma X18_witness :
  passes_validation Sample.headers (with_access_table (fun _ => true) Sample.world)
    Sample.state 3 (Sample.received Sample.remote4 (Sample.request 6 10 []))
  /\ List.map tx_status
       (replies (events (read_from_cmd_socket Sample.headers
                           (with_access_table (fun _ => true) Sample.world)
                           Sample.state 3
                           (Sample.received Sample.remote4 (Sample.request 6 10 [])))))
     = [STT_FAILED].
Proof.
  assert (Hv : passes_validation Sample.headers
                 (with_access_table (fun _ => true) Sample.world) Sample.state 3
                 (Sample.received Sample.remote4 (Sample.request 6 10 [])))
    by validate.
  split; [exact Hv |].
  rewrite (proj2 (X18_null_and_logon Sample.headers
                    (with_access_table (fun _ => true) Sample.world) Sample.state 3
                    (Sample.received Sample.remote4 (Sample.request 6 10 [])) Hv)
             eq_refl).
  reflexivity.
Defined.

(** ** Payload and reply tag *)

Lemma client_accesses_loop_payload (w : World) (count : nat) :
  forall (first_index now i j : Z) (tx tx' : CMD_Reply) tr r,
    client_accesses_loop w count first_index now i j tx = (tr, Value r tx') ->
    forall f v,
      In (f, v) (tx_data tx') ->
      In (f, v) (tx_data tx) \/ payload_of f = RPY_CLIENT_ACCESSES_BY_INDEX.
Proof.
  induction count as [| count IH]; intros first_index now i j tx tx' tr r Hrun f v Hin.
  - cbn [client_accesses_loop] in Hrun. unfold ret in Hrun.
    injection Hrun as _ _ <-. now left.
  - destruct (CLG_GetClientAccessReportByIndex w (first_index + i) now)
      as [[[| | | other] report] n] eqn:E.
    + rewrite (client_accesses_loop_row w count first_index now i j report n tx E)
        in Hrun.
      destruct (IH _ _ _ _ _ _ _ _ Hrun f v Hin) as [Hold | Hnew]; [| now right].
      unfold pack_row in Hold. cbn [tx_data with_data In] in Hold.
      repeat (destruct Hold as [Hold | Hold];
              [injection Hold as <- _; right; reflexivity |]).
      now left.
    + rewrite (client_accesses_loop_skip w count first_index now i j report n tx E)
        in Hrun.
      destruct (IH _ _ _ _ _ _ _ _ Hrun f v Hin) as [Hold | Hnew]; [| now right].
      cbn [tx_data with_data In] in Hold. destruct Hold as [Hold | Hold];
        [injection Hold as <- _; right; reflexivity | now left].
    + rewrite (client_accesses_loop_inactive w count first_index now i j report n tx E)
        in Hrun.
      injection Hrun as _ _ <-. cbn [tx_data with_status with_data In] in Hin.
      destruct Hin as [Hin | Hin];
        [injection Hin as <- _; right; reflexivity | now left].
    + cbn [client_accesses_loop] in Hrun. rewrite E, bind_put in Hrun.
      discriminate Hrun.
Qed.

Lemma manual_list_loop_payload (report : list RPT_ManualSamplesReport.t) :
  forall (i : Z) (tx tx' : CMD_Reply) tr,
    manual_list_loop report i tx = (tr, Value tt tx') ->
    forall f v,
      In (f, v) (tx_data tx') ->
      In (f, v) (tx_data tx) \/ payload_of f = RPY_MANUAL_LIST.
Proof.
  induction report as [| r report IH]; intros i tx tx' tr Hrun f v Hin.
  - cbn [manual_list_loop] in Hrun. unfold ret in Hrun.
    injection Hrun as _ <-. now left.
  - cbn [manual_list_loop] in Hrun. rewrite !bind_put in Hrun.
    destruct (IH _ _ _ _ Hrun f v Hin) as [Hold | Hnew]; [| now right].
    cbn [tx_data with_data In] in Hold.
    repeat (destruct Hold as [Hold | Hold];
            [injection Hold as <- _; right; reflexivity |]).
    now left.
Qed.

(** X19.  Payload and reply tag agree: every member of the reply union
    that the switch of the dispatcher writes belongs to the payload that
    the tag of the finished reply names.  No handler writes into the
    payload of another reply, and a handler that writes a payload sets
    its tag. *)
Theorem X19_payload_belongs_to_the_tag
    (hd : Headers) (w : World) (cmd : option REQ) (rx : CMD_Request)
    (tx tx' : CMD_Reply) (tr : list Event) (f : Rpy.field) (v : wire) :
  dispatch hd w cmd rx tx = (tr, Value tt tx') ->
  In (f, v) (tx_data tx') ->
  In (f, v) (tx_data tx) \/ payload_of f = tx_reply tx'.
Proof.
  intros Hrun Hin.
  destruct cmd as [[] |].
  all: try (split_run Hrun; try discriminate Hrun;
            injection Hrun as <- <-;
            cbn [tx_data tx_reply with_data with_status with_reply In] in Hin |- *;
            repeat (destruct Hin as [Hin | Hin];
                    [injection Hin as <- _; right; reflexivity |]);
            left; exact Hin).
  - (* CLIENT-ACCESSES-BY-INDEX *)
    cbn [dispatch] in Hrun. unfold invoke, bind, emit in Hrun.
    rewrite handle_client_accesses_by_index_unfold in Hrun.
    destruct (client_accesses_loop w (visited hd rx) (requested_first hd rx)
                (log_time w) 0 0 (with_reply RPY_CLIENT_ACCESSES_BY_INDEX tx))
      as [tr0 [[[i j] |] tx0 |]] eqn:E; try discriminate Hrun;
      pose proof (client_accesses_loop_payload w _ _ _ _ _ _ _ _ _ E) as P;
      apply client_accesses_loop_spec in E; destruct E as (_ & Hrp & _);
      injection Hrun as _ <-;
      cbn [tx_data tx_reply with_data with_reply] in Hin, Hrp, P |- *;
      rewrite Hrp.
    + cbn [In] in Hin. destruct Hin as [Hin | [Hin | Hin]];
        [injection Hin as <- _; right; reflexivity
        | injection Hin as <- _; right; reflexivity
        | exact (P f v Hin)].
    + exact (P f v Hin).
  - (* MANUAL-LIST *)
    destruct (manual_list_run hd w rx tx) as (tx0 & E & Hloop).
    rewrite E in Hrun. injection Hrun as _ <-.
    pose proof (manual_list_loop_payload _ _ _ _ _ Hloop f v Hin) as P.
    destruct (manual_list_loop_spec (MNL_ReportSamples w (MAX_MANUAL_LIST_SAMPLES hd)) 0
                (with_data Rpy.manual_list_n_samples
                   (W_u32 (htonl (Z.of_nat (List.length
                      (MNL_ReportSamples w (MAX_MANUAL_LIST_SAMPLES hd))))))
                   (with_reply RPY_MANUAL_LIST tx)))
      as (tx1 & Hloop' & _ & Hrp).
    rewrite Hloop in Hloop'. injection Hloop' as <-.
    cbn [tx_data tx_reply with_data with_reply In] in P, Hrp. rewrite Hrp.
    destruct P as [[P | P] | P];
      [injection P as <- _; right; reflexivity | left; exact P | right; exact P].
Qed.

(** X19 on a TRACKING request: the reference identifier is a member of
    the payload of the tag TRACKING. *)
Lemma X19_witness :
  payload_of Rpy.tracking_ref_id
  = tx_reply (with_reply RPY_TRACKING
                (reply_template Sample.headers (Sample.request 6 33 []))).
Proof.
  destruct (X19_payload_belongs_to_the_tag Sample.headers Sample.world
              (Some REQ_TRACKING) (Sample.request 6 33 [])
              (reply_template Sample.headers (Sample.request 6 33 []))
              _ _ Rpy.tracking_ref_id (W_u32 0) eq_refl
              ltac:(cbn [tx_data In]; do 13 right; left; reflexivity))
    as [[] | P].
  exact P.
Defined.

(** ** The access table as CMDACCHECK reports it *)

(** X20.  CMDACCHECK tells what the access filter does: for a datagram
    that arrives from an address that is not local, the dispatcher drops
    it without any effect exactly when a CMDACCHECK request that asks
    about this address is answered ACCESS-DENIED, and processes it (at
    least recording it in the client log) exactly when the answer is
    ACCESS-ALLOWED.  Both consult [access_auth_table] through
    [ADF_IsAllowed]. *)
Theorem X20_cmdaccheck_reports_the_filter
    (hd : Headers) (w : World) (st : State) (sock_fd : Z) (rcv : Received)
    (rx : CMD_Request) (tx : CMD_Reply) :
  source_present hd st sock_fd rcv ->
  origin_local (recv_where_from rcv) = false ->
  member_IPAddr hd rx Req.ac_check_ip = remote_ip_of rcv ->
  (handle_cmdaccheck hd w rx tx = ([], Value tt (with_status STT_ACCESSALLOWED tx))
   /\ client_log (events (read_from_cmd_socket hd w st sock_fd rcv)) <> [])
  \/ (handle_cmdaccheck hd w rx tx = ([], Value tt (with_status STT_ACCESSDENIED tx))
      /\ events (read_from_cmd_socket hd w st sock_fd rcv) = []).
Proof.
  intros Hsrc Hloc Hip. unfold handle_cmdaccheck, CAM_CheckAccessRestriction.
  cbv zeta. rewrite Hip.
  destruct (ADF_IsAllowed w (remote_ip_of rcv)) eqn:Hadf.
  - left. split; [reflexivity |].
    assert (Hgrant : access_granted w rcv) by (now right).
    paths hd w st sock_fd rcv; try discriminate.
    + destruct Hsrc as (Hsrc & _). lia.
    + now apply source_present_not_missing in Hsrc.
    + now apply source_present_not_misdelivered in Hsrc.
    + congruence.
  - right. split; [reflexivity |].
    now rewrite (pipeline_denied hd w st sock_fd rcv Hsrc Hloc Hadf).
Qed.

(** X20 on 192.0.2.7, which the table does not allow. *)
Lemma X20_witness :
  handle_cmdaccheck Sample.headers Sample.world
    (Sample.request 6 26 [192; 0; 2; 7; 0; 0; 0; 0; 0; 0; 0; 0; 0; 0; 0; 0; 0; 1])
    (reply_template Sample.headers (Sample.request 6 26 []))
  = ([], Value tt (with_status STT_ACCESSDENIED
                     (reply_template Sample.headers (Sample.request 6 26 []))))
  /\ events (read_from_cmd_socket Sample.headers Sample.world Sample.state 3
               (Sample.received Sample.remote4 (Sample.request 6 33 [])))
     = [].
Proof.
  destruct (X20_cmdaccheck_reports_the_filter Sample.headers Sample.world Sample.state 3
              (Sample.received Sample.remote4 (Sample.request 6 33 []))
              (Sample.request 6 26
                 [192; 0; 2; 7; 0; 0; 0; 0; 0; 0; 0; 0; 0; 0; 0; 0; 0; 1])
              (reply_template Sample.headers (Sample.request 6 26 [])))
    as [(E & _) | H].
  - unfold source_present; cbn; repeat split; first [reflexivity | discriminate].
  - reflexivity.
  - reflexivity.
  - discriminate E.
  - exact H.
Defined.

(** ** Paging through the client log *)

Lemma rows_found_app (w : World) (now : Z) (a b : nat) :
  forall index,
    rows_found w now (a + b) index
    = rows_found w now a index ++ rows_found w now b (index + Z.of_nat a).
Proof.
  induction a as [| a IH]; intros index.
  - cbn [Nat.add rows_found app Z.of_nat]. now rewrite Z.add_0_r.
  - cbn [Nat.add rows_found]. rewrite IH.
    replace (index + 1 + Z.of_nat a) with (index + Z.of_nat (S a)) by lia.
    destruct (CLG_GetClientAccessReportByIndex w index now) as [[[| | |] ?] ?];
      reflexivity.
Qed.

Lemma log_active_app (w : World) (now : Z) (a b : nat) (index : Z) :
  log_active w now (a + b) index ->
  log_active w now a index /\ log_active w now b (index + Z.of_nat a).
Proof.
  intros Hact. split; intros k Hk.
  - apply Hact. lia.
  - rewrite <- Z.add_assoc. apply Hact. lia.
Qed.

(** The handler over an active client log: a page of the rows found at
    the visited indices, packed from slot 0 on. *)
Lemma handle_client_accesses_by_index_active (hd : Headers) (w : World)
    (rx : CMD_Request) (tx : CMD_Reply) :
  log_active w (log_time w) (visited hd rx) (requested_first hd rx) ->
  exists tx',
    handle_client_accesses_by_index hd w rx tx = ([], Value tt tx')
    /\ tx_member tx' Rpy.client_accesses_by_index_next_index
       = Some (W_u32 (htonl (requested_first hd rx + Z.of_nat (visited hd rx))))
    /\ tx_member tx' Rpy.client_accesses_by_index_n_clients
       = Some (W_u32 (htonl (Z.of_nat
            (List.length (rows_found w (log_time w) (visited hd rx)
                                     (requested_first hd rx))))))
    /\ (forall (k : nat) (m : Rpy.client_member) report,
          nth_error (rows_found w (log_time w) (visited hd rx)
                                (requested_first hd rx)) k = Some report ->
          tx_member tx' (Rpy.client_accesses_by_index_clients (Z.of_nat k) m)
          = Some (wire_of_client_member m report)).
Proof.
  intros Hact. rewrite handle_client_accesses_by_index_unfold.
  destruct (client_accesses_loop_active w (visited hd rx) (requested_first hd rx)
              (log_time w) 0 0 (with_reply RPY_CLIENT_ACCESSES_BY_INDEX tx))
    as (tx' & Hrun & _ & _ & Hslots & _ & _);
    [now rewrite Z.add_0_r |].
  rewrite Z.add_0_r in *. rewrite Hrun. cbn [app Z.add].
  eexists. split; [reflexivity |].
  split; [rewrite tx_member_other by discriminate; apply tx_member_same |].
  split; [apply tx_member_same |].
  intros k m report Hk. rewrite !tx_member_other by discriminate.
  apply (Hslots k m report Hk).
Qed.

(** X21.  Paging through the client log loses and repeats nothing.  When
    a second CLIENT-ACCESSES-BY-INDEX request starts at the index at
    which the first one stopped, and the client log is active on the
    whole range, the two pages together hold the rows of the whole range
    in order: the first reply gives the start of the second as
    [next_index], the two [n_clients] add up to the number of rows in the
    range, and row number [k] of the range is in slot [k] of the first
    page or, after the [n1] rows of the first page, in slot [k - n1] of
    the second. *)
Theorem X21_pages_join
    (hd : Headers) (w : World) (rx1 rx2 : CMD_Request) (tx1 tx2 : CMD_Reply) :
  requested_first hd rx2 = requested_first hd rx1 + Z.of_nat (visited hd rx1) ->
  log_active w (log_time w) (visited hd rx1 + visited hd rx2) (requested_first hd rx1) ->
  exists (page1 page2 : CMD_Reply) (n1 n2 : nat),
    handle_client_accesses_by_index hd w rx1 tx1 = ([], Value tt page1)
    /\ handle_client_accesses_by_index hd w rx2 tx2 = ([], Value tt page2)
    /\ tx_member page1 Rpy.client_accesses_by_index_next_index
       = Some (W_u32 (htonl (requested_first hd rx2)))
    /\ tx_member page1 Rpy.client_accesses_by_index_n_clients
       = Some (W_u32 (htonl (Z.of_nat n1)))
    /\ tx_member page2 Rpy.client_accesses_by_index_n_clients
       = Some (W_u32 (htonl (Z.of_nat n2)))
    /\ List.length (rows_found w (log_time w) (visited hd rx1 + visited hd rx2)
                               (requested_first hd rx1))
       = (n1 + n2)%nat
    /\ (forall (k : nat) (m : Rpy.client_member) report,
          nth_error (rows_found w (log_time w) (visited hd rx1 + visited hd rx2)
                                (requested_first hd rx1)) k = Some report ->
          if (k <? n1)%nat
          then tx_member page1 (Rpy.client_accesses_by_index_clients (Z.of_nat k) m)
               = Some (wire_of_client_member m report)
          else tx_member page2
                 (Rpy.client_accesses_by_index_clients (Z.of_nat (k - n1)) m)
               = Some (wire_of_client_member m report)).
Proof.
  intros Hnext Hact.
  apply log_active_app in Hact. destruct Hact as (Hact1 & Hact2).
  rewrite <- Hnext in Hact2.
  destruct (handle_client_accesses_by_index_active hd w rx1 tx1 Hact1)
    as (page1 & Hrun1 & Hnx1 & Hn1 & Hslots1).
  destruct (handle_client_accesses_by_index_active hd w rx2 tx2 Hact2)
    as (page2 & Hrun2 & _ & Hn2 & Hslots2).
  exists page1, page2,
    (List.length (rows_found w (log_time w) (visited hd rx1) (requested_first hd rx1))),
    (List.length (rows_found w (log_time w) (visited hd rx2) (requested_first hd rx2))).
  rewrite rows_found_app, <- Hnext.
  split; [exact Hrun1 | split; [exact Hrun2 |]].
  split; [now rewrite Hnext |].
  split; [exact Hn1 | split; [exact Hn2 |]].
  split; [apply length_app |].
  intros k m report Hk.
  destruct (k <? _)%nat eqn:Hlt.
  - apply Nat.ltb_lt in Hlt. rewrite nth_error_app1 in Hk by exact Hlt.
    apply (Hslots1 k m report Hk).
  - apply Nat.ltb_ge in Hlt. rewrite nth_error_app2 in Hk by exact Hlt.
    apply (Hslots2 _ m report Hk).
Qed.

(** X21 on the pages 0..3 and 4..7 of a client log with rows at indices 2
    and 5: each page holds one row. *)
Lemma X21_witness :
  exists page1 page2 : CMD_Reply,
    tx_member page1 Rpy.client_accesses_by_index_n_clients = Some (W_u32 1)
    /\ tx_member page2 Rpy.client_accesses_by_index_n_clients = Some (W_u32 1)
    /\ tx_member page1 Rpy.client_accesses_by_index_next_index = Some (W_u32 4).
Proof.
  destruct (X21_pages_join Sample.headers Sample.world
              (Sample.request 6 40 (Sample.by_index 0 4))
              (Sample.request 6 40 (Sample.by_index 4 4))
              (reply_template Sample.headers (Sample.request 6 40 (Sample.by_index 0 4)))
              (reply_template Sample.headers (Sample.request 6 40 (Sample.by_index 4 4))))
    as (page1 & page2 & n1 & n2 & Hrun1 & Hrun2 & Hnx & Hn1 & Hn2 & _).
  - vm_compute. reflexivity.
  - intros k Hk.
    assert (Hk' : k = 0 \/ k = 1 \/ k = 2 \/ k = 3 \/ k = 4 \/ k = 5 \/ k = 6 \/ k = 7).
    { change (Z.of_nat (visited Sample.headers (Sample.request 6 40 (Sample.by_index 0 4))
                        + visited Sample.headers
                            (Sample.request 6 40 (Sample.by_index 4 4))))
        with 8 in Hk. lia. }
    destruct Hk' as [-> | [-> | [-> | [-> | [-> | [-> | [-> | ->]]]]]]];
      vm_compute; auto.
  - exists page1, page2.
    assert (E1 : snd (handle_client_accesses_by_index Sample.headers Sample.world
                        (Sample.request 6 40 (Sample.by_index 0 4))
                        (reply_template Sample.headers
                           (Sample.request 6 40 (Sample.by_index 0 4))))
                 = Value tt page1) by (now rewrite Hrun1).
    assert (E2 : snd (handle_client_accesses_by_index Sample.headers Sample.world
                        (Sample.request 6 40 (Sample.by_index 4 4))
                        (reply_template Sample.headers
                           (Sample.request 6 40 (Sample.by_index 4 4))))
                 = Value tt page2) by (now rewrite Hrun2).
    vm_compute in E1, E2.
    injection E1 as <-. injection E2 as <-.
    vm_compute. repeat split; reflexivity.
Defined.
